(** * traefik-create-simulated: the request interceptor of [simulated.go]

    A shallow embedding of the middleware [SimulatedPlugin.ServeHTTP] and of
    the pieces of the Go standard library it drives (the [encoding/json]
    scanner, decoder and encoder, [http.Header]), followed by the properties
    of the request pipeline.

    Bytes are [ascii] characters and byte strings are [string]s; header maps
    are [gmap string (list string)]; the effects of a request (log records
    built, lines printed, the outbound call, the not-found reply, the call of
    the next handler) are recorded in a trace threaded by a small monad. *)

From Stdlib Require Import ZArith NArith Lia Bool Ascii String DecimalString.
From Stdlib Require Import DecimalFacts DecimalPos DecimalN.
From stdpp Require Import base option list gmap strings.

Local Open Scope Z_scope.

(** ** Bytes *)

(** Texts that contain double quotes are written with single quotes and
    passed through [dq]. *)
Definition dq (s : string) : string :=
  string_of_list_ascii
    (map (fun c => if Ascii.eqb c "'" then "034"%char else c)
       (list_ascii_of_string s)).

Module Byte.

Definition code (c : ascii) : N := N_of_ascii c.

Definition between (lo hi : N) (c : ascii) : bool :=
  ((lo <=? code c) && (code c <=? hi))%N.

Definition isDigit (c : ascii) : bool := between 48 57 c.
Definition isDigit19 (c : ascii) : bool := between 49 57 c.
Definition isLower (c : ascii) : bool := between 97 122 c.
Definition isUpper (c : ascii) : bool := between 65 90 c.

Definition isHex (c : ascii) : bool :=
  isDigit c || between 97 102 c || between 65 70 c.

(** [isSpace] of encoding/json: space, tab, carriage return, line feed. *)
Definition isSpace (c : ascii) : bool :=
  match c with
  | " "%char | "009"%char | "013"%char | "010"%char => true
  | _ => false
  end.

Definition toUpper (c : ascii) : ascii :=
  if isLower c then ascii_of_N (code c - 32) else c.

Definition toLower (c : ascii) : ascii :=
  if isUpper c then ascii_of_N (code c + 32) else c.

End Byte.

(** ** The scanner of encoding/json (scanner.go)

    A byte-at-a-time state machine: [step] holds the current state function,
    [parseState] the stack of open containers. *)

Module Scanner.

Inductive state :=
| BeginValueOrEmpty | BeginValue | BeginStringOrEmpty | BeginString
| EndValue | EndTop
| InString | InStringEsc | InStringEscU | InStringEscU1 | InStringEscU12
| InStringEscU123
| Neg | St1 | St0 | Dot | Dot0 | StE | ESign | E0
| StT | Tr | Tru | StF | Fa | Fal | Fals | StN | Nu | Nul
| Error.

Inductive pstate := parseObjectKey | parseObjectValue | parseArrayValue.

Inductive opcode :=
| scanContinue | scanBeginLiteral | scanBeginObject | scanObjectKey
| scanObjectValue | scanEndObject | scanBeginArray | scanArrayValue
| scanEndArray | scanSkipSpace | scanEnd | scanError.

Record scanner := mkScanner {
  step : state;
  endTop : bool;
  parseState : list pstate;
  err : option string
}.

Definition reset : scanner := mkScanner BeginValue false [] None.

Definition maxNestingDepth : N := 10000.

Definition setStep (s : scanner) (st : state) : scanner :=
  mkScanner st (endTop s) (parseState s) (err s).

(** [s.error(c, context)]: the scanner is stuck in [Error] from now on.  The
    message is Go's up to the quoting of unprintable bytes. *)
Definition error (s : scanner) (c : ascii) (context : string)
    : scanner * opcode :=
  (mkScanner Error (endTop s) (parseState s)
     (Some ("invalid character '" +:+ String c "' " +:+ context)),
   scanError).

Definition pushParseState (s : scanner) (c : ascii) (st : state)
    (p : pstate) (success : opcode) : scanner * opcode :=
  let s' := mkScanner st (endTop s) (parseState s ++ [p]) (err s) in
  if (N.of_nat (length (parseState s')) <=? maxNestingDepth)%N
  then (s', success) else error s' c "exceeded max depth".

(** The innermost container is the last element of the stack. *)
Definition top (ps : list pstate) : option pstate := last ps.

Definition replaceTop (ps : list pstate) (p : pstate) : list pstate :=
  removelast ps ++ [p].

Definition popParseState (s : scanner) : scanner :=
  let ps := removelast (parseState s) in
  match ps with
  | [] => mkScanner EndTop true ps (err s)
  | _ => mkScanner EndValue (endTop s) ps (err s)
  end.

Definition stateEndTop (s : scanner) (c : ascii) : scanner * opcode :=
  if Byte.isSpace c then (s, scanEnd)
  else (fst (error s c "after top-level value"), scanEnd).

Definition stateEndValue (s : scanner) (c : ascii) : scanner * opcode :=
  match top (parseState s) with
  | None =>
      stateEndTop (mkScanner EndTop true (parseState s) (err s)) c
  | Some ps =>
      if Byte.isSpace c then (setStep s EndValue, scanSkipSpace)
      else match ps with
      | parseObjectKey =>
          if Ascii.eqb c ":" then
            (mkScanner BeginValue (endTop s)
               (replaceTop (parseState s) parseObjectValue) (err s),
             scanObjectKey)
          else error s c "after object key"
      | parseObjectValue =>
          if Ascii.eqb c "," then
            (mkScanner BeginString (endTop s)
               (replaceTop (parseState s) parseObjectKey) (err s),
             scanObjectValue)
          else if Ascii.eqb c "}" then (popParseState s, scanEndObject)
          else error s c "after object key:value pair"
      | parseArrayValue =>
          if Ascii.eqb c "," then (setStep s BeginValue, scanArrayValue)
          else if Ascii.eqb c "]" then (popParseState s, scanEndArray)
          else error s c "after array element"
      end
  end.

Definition lit (s : scanner) (c expected : ascii) (next : state)
    (context : string) : scanner * opcode :=
  if Ascii.eqb c expected then (setStep s next, scanContinue)
  else error s c context.

Definition stateBeginString (s : scanner) (c : ascii) : scanner * opcode :=
  if Byte.isSpace c then (s, scanSkipSpace)
  else if Ascii.eqb c "034" then (setStep s InString, scanBeginLiteral)
  else error s c "looking for beginning of object key string".

Definition stateBeginStringOrEmpty (s : scanner) (c : ascii)
    : scanner * opcode :=
  if Byte.isSpace c then (s, scanSkipSpace)
  else if Ascii.eqb c "}" then
    stateEndValue
      (mkScanner (step s) (endTop s)
         (replaceTop (parseState s) parseObjectValue) (err s)) c
  else stateBeginString s c.

Definition stateBeginValue (s : scanner) (c : ascii) : scanner * opcode :=
  if Byte.isSpace c then (s, scanSkipSpace)
  else match c with
  | "{"%char =>
      pushParseState s c BeginStringOrEmpty parseObjectKey scanBeginObject
  | "["%char =>
      pushParseState s c BeginValueOrEmpty parseArrayValue scanBeginArray
  | "034"%char => (setStep s InString, scanBeginLiteral)
  | "-"%char => (setStep s Neg, scanBeginLiteral)
  | "0"%char => (setStep s St0, scanBeginLiteral)
  | "t"%char => (setStep s StT, scanBeginLiteral)
  | "f"%char => (setStep s StF, scanBeginLiteral)
  | "n"%char => (setStep s StN, scanBeginLiteral)
  | _ =>
      if Byte.isDigit19 c then (setStep s St1, scanBeginLiteral)
      else error s c "looking for beginning of value"
  end.

Definition stateBeginValueOrEmpty (s : scanner) (c : ascii)
    : scanner * opcode :=
  if Byte.isSpace c then (s, scanSkipSpace)
  else if Ascii.eqb c "]" then stateEndValue s c
  else stateBeginValue s c.

Definition stateInString (s : scanner) (c : ascii) : scanner * opcode :=
  if Ascii.eqb c "034" then (setStep s EndValue, scanContinue)
  else if Ascii.eqb c "\" then (setStep s InStringEsc, scanContinue)
  else if (Byte.code c <? 32)%N then error s c "in string literal"
  else (s, scanContinue).

Definition stateInStringEsc (s : scanner) (c : ascii) : scanner * opcode :=
  match c with
  | "b"%char | "f"%char | "n"%char | "r"%char | "t"%char
  | "\"%char | "/"%char | "034"%char => (setStep s InString, scanContinue)
  | "u"%char => (setStep s InStringEscU, scanContinue)
  | _ => error s c "in string escape code"
  end.

Definition stateHex (s : scanner) (c : ascii) (next : state)
    : scanner * opcode :=
  if Byte.isHex c then (setStep s next, scanContinue)
  else error s c "in \u hexadecimal character escape".

Definition state0 (s : scanner) (c : ascii) : scanner * opcode :=
  if Ascii.eqb c "." then (setStep s Dot, scanContinue)
  else if Ascii.eqb c "e" || Ascii.eqb c "E" then (setStep s StE, scanContinue)
  else stateEndValue s c.

Definition state1 (s : scanner) (c : ascii) : scanner * opcode :=
  if Byte.isDigit c then (setStep s St1, scanContinue) else state0 s c.

Definition stateNeg (s : scanner) (c : ascii) : scanner * opcode :=
  if Ascii.eqb c "0" then (setStep s St0, scanContinue)
  else if Byte.isDigit19 c then (setStep s St1, scanContinue)
  else error s c "in numeric literal".

Definition stateDot (s : scanner) (c : ascii) : scanner * opcode :=
  if Byte.isDigit c then (setStep s Dot0, scanContinue)
  else error s c "after decimal point in numeric literal".

Definition stateDot0 (s : scanner) (c : ascii) : scanner * opcode :=
  if Byte.isDigit c then (s, scanContinue)
  else if Ascii.eqb c "e" || Ascii.eqb c "E" then (setStep s StE, scanContinue)
  else stateEndValue s c.

Definition stateESign (s : scanner) (c : ascii) : scanner * opcode :=
  if Byte.isDigit c then (setStep s E0, scanContinue)
  else error s c "in exponent of numeric literal".

Definition stateE (s : scanner) (c : ascii) : scanner * opcode :=
  if Ascii.eqb c "+" || Ascii.eqb c "-" then (setStep s ESign, scanContinue)
  else stateESign s c.

Definition stateE0 (s : scanner) (c : ascii) : scanner * opcode :=
  if Byte.isDigit c then (s, scanContinue) else stateEndValue s c.

(** [s.step(s, c)]: dispatch on the current state function. *)
Definition run (s : scanner) (c : ascii) : scanner * opcode :=
  match step s with
  | BeginValueOrEmpty => stateBeginValueOrEmpty s c
  | BeginValue => stateBeginValue s c
  | BeginStringOrEmpty => stateBeginStringOrEmpty s c
  | BeginString => stateBeginString s c
  | EndValue => stateEndValue s c
  | EndTop => stateEndTop s c
  | InString => stateInString s c
  | InStringEsc => stateInStringEsc s c
  | InStringEscU => stateHex s c InStringEscU1
  | InStringEscU1 => stateHex s c InStringEscU12
  | InStringEscU12 => stateHex s c InStringEscU123
  | InStringEscU123 => stateHex s c InString
  | Neg => stateNeg s c
  | St1 => state1 s c
  | St0 => state0 s c
  | Dot => stateDot s c
  | Dot0 => stateDot0 s c
  | StE => stateE s c
  | ESign => stateESign s c
  | E0 => stateE0 s c
  | StT => lit s c "r" Tr "in literal true (expecting 'r')"
  | Tr => lit s c "u" Tru "in literal true (expecting 'u')"
  | Tru => lit s c "e" EndValue "in literal true (expecting 'e')"
  | StF => lit s c "a" Fa "in literal false (expecting 'a')"
  | Fa => lit s c "l" Fal "in literal false (expecting 'l')"
  | Fal => lit s c "s" Fals "in literal false (expecting 's')"
  | Fals => lit s c "e" EndValue "in literal false (expecting 'e')"
  | StN => lit s c "u" Nu "in literal null (expecting 'u')"
  | Nu => lit s c "l" Nul "in literal null (expecting 'l')"
  | Nul => lit s c "l" EndValue "in literal null (expecting 'l')"
  | Error => (s, scanError)
  end.

End Scanner.

(** ** UTF-8 (unicode/utf8, unicode/utf16) *)

Module Utf8.

Definition byte (n : N) : ascii := ascii_of_N n.

(** U+FFFD, the replacement character, is EF BF BD. *)
Definition replacement : string :=
  String (byte 239) (String (byte 191) (String (byte 189) EmptyString)).

Definition cont (c : ascii) : bool := Byte.between 128 191 c.

(** [DecodeRune]: the length of the well-formed sequence at the head of [s],
    or [None] where Go returns [(RuneError, 1)]. *)
Definition seqLen (s : string) : option nat :=
  match s with
  | EmptyString => None
  | String c0 rest =>
      let n := Byte.code c0 in
      if (n <? 128)%N then Some 1%nat
      else if (n <? 194)%N then None
      else if (n <? 224)%N then
        match rest with
        | String c1 _ => if cont c1 then Some 2%nat else None
        | _ => None
        end
      else if (n <? 240)%N then
        match rest with
        | String c1 (String c2 _) =>
            let lo := if (n =? 224)%N then 160%N else 128%N in
            let hi := if (n =? 237)%N then 159%N else 191%N in
            if Byte.between lo hi c1 && cont c2 then Some 3%nat else None
        | _ => None
        end
      else if (n <? 245)%N then
        match rest with
        | String c1 (String c2 (String c3 _)) =>
            let lo := if (n =? 240)%N then 144%N else 128%N in
            let hi := if (n =? 244)%N then 143%N else 191%N in
            if Byte.between lo hi c1 && cont c2 && cont c3
            then Some 4%nat else None
        | _ => None
        end
      else None
  end.

Definition isSurrogate (r : N) : bool := ((55296 <=? r) && (r <? 57344))%N.

(** [EncodeRune]; surrogates and values above U+10FFFF become U+FFFD. *)
Definition encodeRune (r : N) : string :=
  if (r <? 128)%N then String (byte r) EmptyString
  else if (r <? 2048)%N then
    String (byte (192 + N.shiftr r 6))
      (String (byte (128 + N.land r 63)) EmptyString)
  else if isSurrogate r || (1114111 <? r)%N then replacement
  else if (r <? 65536)%N then
    String (byte (224 + N.shiftr r 12))
      (String (byte (128 + N.land (N.shiftr r 6) 63))
         (String (byte (128 + N.land r 63)) EmptyString))
  else
    String (byte (240 + N.shiftr r 18))
      (String (byte (128 + N.land (N.shiftr r 12) 63))
         (String (byte (128 + N.land (N.shiftr r 6) 63))
            (String (byte (128 + N.land r 63)) EmptyString))).

(** [utf16.DecodeRune]: the code point of a surrogate pair, if it is one. *)
Definition decodePair (r1 r2 : N) : option N :=
  if ((55296 <=? r1) && (r1 <? 56320) && (56320 <=? r2) && (r2 <? 57344))%N
  then Some (N.shiftl (r1 - 55296) 10 + (r2 - 56320) + 65536)%N
  else None.

(** Well-formed UTF-8: [s] is a chain of well-formed sequences, [k] bytes of
    the current one still to come. *)
Fixpoint validFrom (k : nat) (s : string) : bool :=
  match s with
  | EmptyString => true
  | String c s1 =>
      match k with
      | S k' => validFrom k' s1
      | O =>
          match seqLen s with
          | Some n => validFrom (Nat.pred n) s1
          | None => false
          end
      end
  end.

Definition valid (s : string) : bool := validFrom 0 s.

(** A sequence of two to four bytes that [seqLen] accepts whatever follows;
    all its bytes are above the ASCII range. *)
Definition multibyte (u : string) : Prop :=
  (2 <= String.length u)%nat /\
  (forall t, seqLen (u +:+ t) = Some (String.length u)) /\
  Forall (fun c => (128 <= Byte.code c)%N) (list_ascii_of_string u).

End Utf8.

(** ** JSON values and string literals (encoding/json, decode.go) *)

Module Json.

#[warnings="-register-all"] Inductive value :=
| Null
| Bool (b : bool)
| Number (raw : string)
| Str (s : string)
| Array (elems : list value)
| Object (members : list (string * value)).

Definition hexVal (c : ascii) : option N :=
  let n := Byte.code c in
  if Byte.isDigit c then Some (n - 48)%N
  else if Byte.between 97 102 c then Some (n - 87)%N
  else if Byte.between 65 70 c then Some (n - 55)%N
  else None.

(** [getu4] on the four digits that follow a backslash and [u]. *)
Definition getu4 (a b c d : ascii) : option N :=
  match hexVal a, hexVal b, hexVal c, hexVal d with
  | Some x, Some y, Some z, Some w => Some (4096 * x + 256 * y + 16 * z + w)%N
  | _, _, _, _ => None
  end.

Definition escapeChar (e : ascii) : option ascii :=
  match e with
  | "034"%char | "\"%char | "/"%char | "'"%char => Some e
  | "b"%char => Some "008"%char
  | "f"%char => Some "012"%char
  | "n"%char => Some "010"%char
  | "r"%char => Some "013"%char
  | "t"%char => Some "009"%char
  | _ => None
  end.

(** The loop of [unquoteBytes] over the text between the quotes.  [k] counts
    the continuation bytes of a well-formed UTF-8 sequence still to be copied;
    an ill-formed byte is replaced by U+FFFD. *)
Fixpoint unquoteBody (k : nat) (s : string) : option string :=
  match s with
  | EmptyString => Some EmptyString
  | String c s1 =>
    match k with
    | S k' => String c <$> unquoteBody k' s1
    | O =>
      if Ascii.eqb c "\" then
        match s1 with
        | EmptyString => None
        | String e s2 =>
          if Ascii.eqb e "u" then
            match s2 with
            | String h1 (String h2 (String h3 (String h4 s6))) =>
              match getu4 h1 h2 h3 h4 with
              | None => None
              | Some rr =>
                if Utf8.isSurrogate rr then
                  let lone := String.append Utf8.replacement <$> unquoteBody 0 s6 in
                  match s6 with
                  | String b (String u (String g1 (String g2 (String g3
                      (String g4 s12))))) =>
                    if Ascii.eqb b "\" && Ascii.eqb u "u" then
                      match getu4 g1 g2 g3 g4 with
                      | Some rr1 =>
                        match Utf8.decodePair rr rr1 with
                        | Some r =>
                            String.append (Utf8.encodeRune r)
                              <$> unquoteBody 0 s12
                        | None => lone
                        end
                      | None => lone
                      end
                    else lone
                  | _ => lone
                  end
                else String.append (Utf8.encodeRune rr) <$> unquoteBody 0 s6
              end
            | _ => None
            end
          else
            match escapeChar e with
            | Some ch => String ch <$> unquoteBody 0 s2
            | None => None
            end
        end
      else if Ascii.eqb c "034" || (Byte.code c <? 32)%N then None
      else if (Byte.code c <? 128)%N then String c <$> unquoteBody 0 s1
      else
        match Utf8.seqLen s with
        | Some n => String c <$> unquoteBody (Nat.pred n) s1
        | None => String.append Utf8.replacement <$> unquoteBody 0 s1
        end
    end
  end.

(** The text of [s] without its last byte, when that byte is [c]. *)
Fixpoint stripLast (c : ascii) (s : string) : option string :=
  match s with
  | EmptyString => None
  | String a EmptyString => if Ascii.eqb a c then Some EmptyString else None
  | String a rest => String a <$> stripLast c rest
  end.

(** [unquoteBytes]: a quoted JSON string literal to the bytes it denotes. *)
Definition unquote (lit : string) : option string :=
  match lit with
  | String q rest =>
      if Ascii.eqb q "034" then
        match stripLast "034" rest with
        | Some body => unquoteBody 0 body
        | None => None
        end
      else None
  | EmptyString => None
  end.

(** A literal token (string, number, [true], [false], [null]) to its value:
    the first byte decides, as in [literalStore]. *)
Definition literalValue (raw : string) : option value :=
  match raw with
  | EmptyString => None
  | String c _ =>
      if Ascii.eqb c "034" then Str <$> unquote raw
      else if Ascii.eqb c "n" then Some Null
      else if Ascii.eqb c "t" then Some (Bool true)
      else if Ascii.eqb c "f" then Some (Bool false)
      else Some (Number raw)
  end.

(** *** Building the value from the scanner's opcodes

    The decoder walks the scanned text with the scanner; the walk is kept
    here as a stack of open containers (innermost first), the bytes of the
    literal being read (last byte first) and the last completed value. *)

Inductive frame :=
| FArray (elems : list value)
| FObject (members : list (string * value)) (key : option string).

Record builder := mkBuilder {
  frames : list frame;
  litbuf : option (list ascii);
  pending : option value
}.

Definition emptyBuilder : builder := mkBuilder [] None None.

Definition finalize (b : builder) : option builder :=
  match litbuf b with
  | None => Some b
  | Some l =>
      v ← literalValue (string_of_list_ascii (rev l));
      Some (mkBuilder (frames b) None (Some v))
  end.

Definition attach (b : builder) : option builder :=
  match pending b, frames b with
  | Some v, FArray es :: fs => Some (mkBuilder (FArray (v :: es) :: fs) None None)
  | Some v, FObject ms (Some k) :: fs =>
      Some (mkBuilder (FObject ((k, v) :: ms) None :: fs) None None)
  | _, _ => None
  end.

Definition setKey (b : builder) : option builder :=
  match pending b, frames b with
  | Some (Str k), FObject ms None :: fs =>
      Some (mkBuilder (FObject ms (Some k) :: fs) None None)
  | _, _ => None
  end.

Definition close (b : builder) : option builder :=
  match pending b, frames b with
  | None, FArray es :: fs => Some (mkBuilder fs None (Some (Array (rev es))))
  | None, FObject ms None :: fs =>
      Some (mkBuilder fs None (Some (Object (rev ms))))
  | _, _ => None
  end.

Definition open (b : builder) (f : frame) : option builder :=
  match pending b, litbuf b with
  | None, None => Some (mkBuilder (f :: frames b) None None)
  | _, _ => None
  end.

Definition feed (b : builder) (c : ascii) (op : Scanner.opcode)
    : option builder :=
  match op with
  | Scanner.scanBeginLiteral => Some (mkBuilder (frames b) (Some [c]) (pending b))
  | Scanner.scanContinue =>
      Some (mkBuilder (frames b) (cons c <$> litbuf b) (pending b))
  | Scanner.scanSkipSpace | Scanner.scanEnd => finalize b
  | Scanner.scanBeginObject => open b (FObject [] None)
  | Scanner.scanBeginArray => open b (FArray [])
  | Scanner.scanObjectKey => finalize b ≫= setKey
  | Scanner.scanObjectValue | Scanner.scanArrayValue => finalize b ≫= attach
  | Scanner.scanEndObject | Scanner.scanEndArray =>
      b1 ← finalize b;
      b2 ← match pending b1 with Some _ => attach b1 | None => Some b1 end;
      close b2
  | Scanner.scanError => None
  end.

Definition result (b : builder) : option value :=
  b1 ← finalize b;
  match frames b1 with
  | [] => pending b1
  | _ => None
  end.

(** [scanner.eof]: whether the text may end here. *)
Definition eofOk (sc : Scanner.scanner) : bool :=
  match Scanner.err sc with
  | Some _ => false
  | None =>
      Scanner.endTop sc || Scanner.endTop (fst (Scanner.run sc " "))
  end.

Fixpoint parseFrom (sc : Scanner.scanner) (b : builder) (data : string)
    : option value :=
  match data with
  | EmptyString => if eofOk sc then result b else None
  | String c rest =>
      let (sc1, op) := Scanner.run sc c in
      match op with
      | Scanner.scanEnd => result b
      | _ => b1 ← feed b c op; parseFrom sc1 b1 rest
      end
  end.

(** The value denoted by the text [data] (one JSON value, spaces allowed
    before it). *)
Definition parse (data : string) : option value :=
  parseFrom Scanner.reset emptyBuilder data.

(** *** Decoder.Decode (stream.go) *)

Inductive error :=
| ErrEOF
| ErrUnexpectedEOF
| SyntaxError (msg : string)
| UnmarshalTypeError (jsonValue field goType : string)
| ErrPhase.

(** The text of [err.Error()]; it only ever reaches a log message. *)
Definition errorString (e : error) : string :=
  match e with
  | ErrEOF => "EOF"
  | ErrUnexpectedEOF => "unexpected EOF"
  | SyntaxError msg => msg
  | UnmarshalTypeError v f t =>
      "json: cannot unmarshal " +:+ v
        +:+ (if String.eqb f EmptyString then " into Go value"
             else " into Go struct field " +:+ f)
        +:+ " of type " +:+ t
  | ErrPhase => "JSON decoder out of sync - data changing underfoot?"
  end.

Inductive res (A : Type) :=
| Ok (a : A)
| Err (e : error).
Arguments Ok {A} a.
Arguments Err {A} e.

Definition nonSpace (buf : string) : bool :=
  existsb (fun c => negb (Byte.isSpace c)) (list_ascii_of_string buf).

Definition isScanEnd (op : Scanner.opcode) : bool :=
  match op with Scanner.scanEnd => true | _ => false end.

(** [readValue]: the number of bytes of [buf], counted from [scanp], that
    make up the first JSON value.  [all] is the whole buffer, looked at only
    to tell an empty input from a truncated one. *)
Fixpoint readValueFrom (all : string) (sc : Scanner.scanner) (buf : string)
    (scanp : nat) : res nat :=
  match buf with
  | EmptyString =>
      if isScanEnd (snd (Scanner.run sc " ")) then Ok scanp
      else if nonSpace all then Err ErrUnexpectedEOF else Err ErrEOF
  | String c rest =>
      let (sc1, op) := Scanner.run sc c in
      match op with
      | Scanner.scanEnd => Ok scanp
      | Scanner.scanEndObject | Scanner.scanEndArray =>
          let (sc2, op2) := Scanner.stateEndValue sc1 " " in
          if isScanEnd op2 then Ok (S scanp)
          else readValueFrom all sc2 rest (S scanp)
      | Scanner.scanError =>
          Err (SyntaxError (default EmptyString (Scanner.err sc1)))
      | _ => readValueFrom all sc1 rest (S scanp)
      end
  end.

Definition readValue (buf : string) : res nat :=
  readValueFrom buf Scanner.reset buf 0.

Fixpoint take (n : nat) (s : string) : string :=
  match n, s with
  | S n', String c rest => String c (take n' rest)
  | _, _ => EmptyString
  end.

(** *** Storing a value into a Go struct (decode.go) *)

Definition kindName (v : value) : string :=
  match v with
  | Null => "null"
  | Bool _ => "bool"
  | Number _ => "number"
  | Str _ => "string"
  | Array _ => "array"
  | Object _ => "object"
  end.

(** [foldName]: ASCII letters to upper case; of the other runes only the
    Kelvin sign (E2 84 AA) and the long s (C5 BF) fold to an ASCII letter. *)
Fixpoint foldName (s : string) : string :=
  match s with
  | EmptyString => EmptyString
  | String c rest =>
      let plain := String (Byte.toUpper c) (foldName rest) in
      if (Byte.code c =? 226)%N then
        match rest with
        | String c1 (String c2 r3) =>
            if ((Byte.code c1 =? 132) && (Byte.code c2 =? 170))%N
            then String "K" (foldName r3) else plain
        | _ => plain
        end
      else if (Byte.code c =? 197)%N then
        match rest with
        | String c1 r2 =>
            if (Byte.code c1 =? 191)%N then String "S" (foldName r2)
            else plain
        | _ => plain
        end
      else plain
  end.

Fixpoint indexWhere (p : string -> bool) (l : list string) : option nat :=
  match l with
  | [] => None
  | x :: l' => if p x then Some O else S <$> indexWhere p l'
  end.

(** The struct field a key selects: by exact name, else by folded name. *)
Definition findField (fields : list string) (key : string) : option nat :=
  match indexWhere (String.eqb key) fields with
  | Some i => Some i
  | None =>
      indexWhere (fun f => String.eqb (foldName key) (foldName f)) fields
  end.

(** [saveError] keeps the first error. *)
Definition saveError (saved new : option error) : option error :=
  match saved with Some _ => saved | None => new end.

(** Storing into a field of string kind. *)
Definition storeString (field goType : string) (v : value) (cur : string)
    : string * option error :=
  match v with
  | Str s => (s, None)
  | Null => (cur, None)
  | _ => (cur, Some (UnmarshalTypeError (kindName v) field goType))
  end.

(** *** Encoding strings (encode.go, [appendString] with HTML escaping) *)

Definition hexDigit (n : N) : ascii :=
  if (n <? 10)%N then ascii_of_N (48 + n) else ascii_of_N (87 + n).

(** [htmlSafeSet], for bytes below 128. *)
Definition htmlSafe (c : ascii) : bool :=
  (32 <=? Byte.code c)%N &&
  negb (Ascii.eqb c "034" || Ascii.eqb c "&" || Ascii.eqb c "<"
        || Ascii.eqb c ">" || Ascii.eqb c "\").

Definition escapeByte (c : ascii) : string :=
  match c with
  | "\"%char | "034"%char => String "\" (String c EmptyString)
  | "008"%char => "\b"
  | "012"%char => "\f"
  | "010"%char => "\n"
  | "013"%char => "\r"
  | "009"%char => "\t"
  | _ =>
      "\u00" +:+ String (hexDigit (N.shiftr (Byte.code c) 4))
        (String (hexDigit (N.land (Byte.code c) 15)) EmptyString)
  end.

(** [k] counts the continuation bytes of a well-formed sequence still to be
    copied.  An ill-formed byte becomes the escape of U+FFFD; U+2028 and
    U+2029 (E2 80 A8, E2 80 A9) are always escaped. *)
Fixpoint appendStringBody (k : nat) (s : string) : string :=
  match s with
  | EmptyString => EmptyString
  | String c s1 =>
    match k with
    | S k' => String c (appendStringBody k' s1)
    | O =>
      if (Byte.code c <? 128)%N then
        if htmlSafe c then String c (appendStringBody 0 s1)
        else escapeByte c +:+ appendStringBody 0 s1
      else
        match Utf8.seqLen s with
        | None => "\ufffd" +:+ appendStringBody 0 s1
        | Some n =>
            let copy := String c (appendStringBody (Nat.pred n) s1) in
            match s1 with
            | String c1 (String c2 s3) =>
                if ((Byte.code c =? 226) && (Byte.code c1 =? 128)
                    && ((Byte.code c2 =? 168) || (Byte.code c2 =? 169)))%N
                then "\u202"
                       +:+ String (hexDigit (N.land (Byte.code c2) 15))
                             (appendStringBody 0 s3)
                else copy
            | _ => copy
            end
        end
    end
  end.

Definition appendString (s : string) : string :=
  String "034" (appendStringBody 0 s +:+ String "034" EmptyString).

End Json.

(** ** The data model of simulated.go *)

Definition goerror := string.

Record Config := mkConfig {
  IotHubUrl : string;
  SubscriptionKey : string
}.

Definition CreateConfig : Config := mkConfig EmptyString EmptyString.

Definition HardwareId := string.
Definition Product := string.
Definition SimulatorType := string.

Definition ProductTracker : Product := "TRACKER".
Definition SimulatorTypeManual : SimulatorType := "MANUAL".

Record DeviceLinkOperation := mkDeviceLinkOperation {
  dlo_HardwareId : HardwareId;
  dlo_Product : Product
}.

Record CreateThingRequest := mkCreateThingRequest {
  ctr_DeviceLinkOperation : DeviceLinkOperation
}.

Record CreateSimulatedDeviceRequest := mkCreateSimulatedDeviceRequest {
  csdr_HardwareId : HardwareId;
  csdr_Product : Product;
  csdr_SimulatorType : SimulatorType
}.

Record Client := mkClient { IP : string; Port : Z }.
Record Network := mkNetwork { client_ : Client }.

(** [Time] holds the RFC 3339 text of the time stamp; the zero [time.Time]
    is the first instant of year 1. *)
Record LogEvent := mkLogEvent {
  Level : string;
  Msg : string;
  Time : string;
  Network_ : Network;
  URL_ : string
}.

Definition zeroTime : string := "0001-01-01T00:00:00Z".
Definition zeroNetwork : Network := mkNetwork (mkClient EmptyString 0).

(** ** Decoding and encoding the structs (struct tags of simulated.go) *)

Module Codec.
Import Json.

Definition pkg (t : string) : string := "traefik_create_simulated." +:+ t.

(** Into [DeviceLinkOperation]: keys [identifier] and [product].  An error
    names the struct being filled, then the keys from the root down to the
    field. *)
Definition storeDeviceLinkOperationField
    (acc : DeviceLinkOperation * option error) (m : string * value)
    : DeviceLinkOperation * option error :=
  let '(d, e) := acc in
  match findField ["identifier"; "product"] (fst m) with
  | Some O =>
      let '(x, e1) :=
        storeString "DeviceLinkOperation.deviceLinkOperation.identifier"
          (pkg "HardwareId") (snd m) (dlo_HardwareId d) in
      (mkDeviceLinkOperation x (dlo_Product d), saveError e e1)
  | Some _ =>
      let '(x, e1) :=
        storeString "DeviceLinkOperation.deviceLinkOperation.product"
          (pkg "Product") (snd m) (dlo_Product d) in
      (mkDeviceLinkOperation (dlo_HardwareId d) x, saveError e e1)
  | None => acc
  end.

Definition storeDeviceLinkOperation (v : value) (cur : DeviceLinkOperation)
    : DeviceLinkOperation * option error :=
  match v with
  | Object ms => fold_left storeDeviceLinkOperationField ms (cur, None)
  | Null => (cur, None)
  | _ =>
      (cur, Some (UnmarshalTypeError (kindName v)
                    "CreateThingRequest.deviceLinkOperation"
                    (pkg "DeviceLinkOperation")))
  end.

(** Into [CreateThingRequest]: key [deviceLinkOperation]. *)
Definition storeCreateThingRequestField
    (acc : CreateThingRequest * option error) (m : string * value)
    : CreateThingRequest * option error :=
  let '(c, e) := acc in
  match findField ["deviceLinkOperation"] (fst m) with
  | Some _ =>
      let '(d, e1) :=
        storeDeviceLinkOperation (snd m) (ctr_DeviceLinkOperation c) in
      (mkCreateThingRequest d, saveError e e1)
  | None => acc
  end.

Definition storeCreateThingRequest (v : value) (cur : CreateThingRequest)
    : CreateThingRequest * option error :=
  match v with
  | Object ms => fold_left storeCreateThingRequestField ms (cur, None)
  | Null => (cur, None)
  | _ =>
      (cur, Some (UnmarshalTypeError (kindName v) EmptyString
                    (pkg "CreateThingRequest")))
  end.

(** [json.NewDecoder(bytes.NewReader(body)).Decode(cr)]: the first JSON
    value of [body] stored into [cr]; the rest of [body] is not read. *)
Definition Decode (body : string) (cr : CreateThingRequest)
    : CreateThingRequest * option error :=
  match readValue body with
  | Err e => (cr, Some e)
  | Ok n =>
      match parse (take n body) with
      | None => (cr, Some ErrPhase)
      | Some v => storeCreateThingRequest v cr
      end
  end.

(** [json.NewEncoder(&buf).Encode(csdr)]: the object and a line feed.
    Encoding a struct of three strings cannot fail. *)
Definition Encode (c : CreateSimulatedDeviceRequest) : string * option error :=
  (dq "{'hardwareId':" +:+ appendString (csdr_HardwareId c)
     +:+ dq ",'productId':" +:+ appendString (csdr_Product c)
     +:+ dq ",'simulatorType':" +:+ appendString (csdr_SimulatorType c)
     +:+ String "}" (String "010" EmptyString),
   None).

End Codec.

(** ** http.Header (net/http, net/textproto) *)

Module Header.

(** [validHeaderFieldByte]: the token characters of RFC 7230. *)
Definition validHeaderFieldByte (c : ascii) : bool :=
  Byte.isDigit c || Byte.isLower c || Byte.isUpper c ||
  existsb (Ascii.eqb c) (list_ascii_of_string "!#$%&'*+-.^_`|~").

Fixpoint canonLetters (upper : bool) (s : string) : string :=
  match s with
  | EmptyString => EmptyString
  | String c rest =>
      let c1 :=
        if upper && Byte.isLower c then Byte.toUpper c
        else if negb upper && Byte.isUpper c then Byte.toLower c
        else c in
      String c1 (canonLetters (Ascii.eqb c1 "-") rest)
  end.

(** [CanonicalMIMEHeaderKey]: first letter and letters after a hyphen in upper
    case, the others in lower case; a key with a byte that is not a token
    character is returned unchanged. *)
Definition CanonicalMIMEHeaderKey (s : string) : string :=
  if forallb validHeaderFieldByte (list_ascii_of_string s)
  then canonLetters true s else s.

Definition Values (h : gmap string (list string)) (key : string)
    : list string :=
  default [] (h !! CanonicalMIMEHeaderKey key).

Definition Get (h : gmap string (list string)) (key : string) : string :=
  match Values h key with
  | [] => EmptyString
  | v :: _ => v
  end.

Definition Add (h : gmap string (list string)) (key value : string)
    : gmap string (list string) :=
  let k := CanonicalMIMEHeaderKey key in
  <[k := default [] (h !! k) ++ [value]]> h.

Definition Set_ (h : gmap string (list string)) (key value : string)
    : gmap string (list string) :=
  <[CanonicalMIMEHeaderKey key := [value]]> h.

End Header.

(** ** Readers (bytes, io) *)

Inductive result (A : Type) :=
| Success (a : A)
| Failure (e : goerror).
Arguments Success {A} a.
Arguments Failure {A} e.

(** [bytes.Reader]: the bytes and the read index. *)
Record BytesReader := mkBytesReader { rd_s : string; rd_i : nat }.

Definition bytes_NewReader (b : string) : BytesReader := mkBytesReader b 0.

Fixpoint skip (n : nat) (s : string) : string :=
  match n, s with
  | S n', String _ rest => skip n' rest
  | _, _ => s
  end.

(** The [Read] method of [bytes.Reader], into a buffer of [len] bytes. *)
Definition BytesReader_Read (r : BytesReader) (len : nat)
    : BytesReader * string * option goerror :=
  if (String.length (rd_s r) <=? rd_i r)%nat then (r, EmptyString, Some "EOF")
  else
    let chunk := Json.take len (skip (rd_i r) (rd_s r)) in
    (mkBytesReader (rd_s r) (rd_i r + String.length chunk), chunk, None).

(** The bodies a request or response can carry: a stream of the host or of
    the transport, given by what reading it to the end and closing it return;
    the [noopCloser] of simulated.go; [io.NopCloser] over a buffer, which is
    what [http.NewRequest] makes of a [bytes.Buffer]. *)
Inductive ReadCloser :=
| Stream (data : string) (readErr closeErr : option goerror)
| noopCloser (r : BytesReader)
| NopCloser (buf : string).

Definition NoOpCloser (r : BytesReader) : ReadCloser := noopCloser r.

Definition noopCloser_Read (n : BytesReader) (len : nat)
    : ReadCloser * string * option goerror :=
  let '(r1, chunk, e) := BytesReader_Read n len in (noopCloser r1, chunk, e).

(** [Close]: the stream afterwards and the error returned. *)
Definition Close (rc : ReadCloser) : ReadCloser * option goerror :=
  match rc with
  | Stream d re ce => (Stream EmptyString (Some "read on closed body") ce, ce)
  | noopCloser r => (noopCloser r, None)
  | NopCloser b => (NopCloser b, None)
  end.

(** [io.ReadAll]: the bytes read until end of file or an error. *)
Definition io_ReadAll (rc : ReadCloser) : string * option goerror :=
  match rc with
  | Stream d re _ => (d, re)
  | noopCloser r => (skip (rd_i r) (rd_s r), None)
  | NopCloser b => (b, None)
  end.

(** ** Requests and responses (net/http) *)

Record Request := mkRequest {
  Method : string;
  URL : string;
  Header : gmap string (list string);
  Body : ReadCloser
}.

Record Response := mkResponse {
  Status : string;
  StatusCode : Z;
  RespBody : ReadCloser
}.

(** What the plugin cannot decide by itself: the URL library (a parsed URL is
    kept as the text its [String] method gives back), the order in which
    [range] visits a header map, and the transport. *)
Record World := mkWorld {
  url_Parse : string -> result string;
  rangeHeader : gmap string (list string) -> list (string * list string);
  client_Do : Request -> result Response
}.

Definition validMethod (m : string) : bool :=
  negb (String.eqb m EmptyString) &&
  forallb Header.validHeaderFieldByte (list_ascii_of_string m).

(** [http.NewRequest]: the method is checked and the URL parsed; the header
    map starts empty. *)
Definition http_NewRequest (wd : World) (method url : string) (body : string)
    : result Request :=
  let method := if String.eqb method EmptyString then "GET" else method in
  if negb (validMethod method) then Failure "net/http: invalid method"
  else match url_Parse wd url with
  | Failure e => Failure e
  | Success u => Success (mkRequest method u ∅ (NopCloser body))
  end.

(** [fmt.Sprintf] for what the formats of simulated.go hold: the verbs [%v]
    and [%s], on operands given by their text, and the doubled percent sign.
    Every call of simulated.go passes one operand per verb; the note Go
    appends for operands left over is not modelled. *)
Fixpoint Sprintf (format : string) (v : list string) : string :=
  match format with
  | EmptyString => EmptyString
  | String c rest =>
      if Ascii.eqb c "%" then
        match rest with
        | String d rest' =>
            if Ascii.eqb d "v" || Ascii.eqb d "s" then
              match v with
              | x :: v' => x +:+ Sprintf rest' v'
              | [] => "%!" +:+ String d ("(MISSING)" +:+ Sprintf rest' [])
              end
            else if Ascii.eqb d "%" then String "%" (Sprintf rest' v)
            else String c (Sprintf rest v)
        | EmptyString => "%!(NOVERB)"
        end
      else String c (Sprintf rest v)
  end.

(** ** Log records (simulated.go) *)

Definition newLogEvent (level msg : string) : LogEvent :=
  mkLogEvent level msg zeroTime zeroNetwork EmptyString.

Definition logInfo (format : string) (v : list string) : LogEvent :=
  newLogEvent "info" (Sprintf format v).

Definition logWarn (format : string) (v : list string) : LogEvent :=
  newLogEvent "warn" (Sprintf format v).

Definition logError (format : string) (v : list string) : LogEvent :=
  newLogEvent "error" (Sprintf format v).

Definition withNetwork (logEvent : LogEvent) (network : Network) : LogEvent :=
  mkLogEvent (Level logEvent) (Msg logEvent) (Time logEvent) network
    (URL_ logEvent).

Definition withUrl (logEvent : LogEvent) (url : string) : LogEvent :=
  mkLogEvent (Level logEvent) (Msg logEvent) (Time logEvent)
    (Network_ logEvent) url.

(** [json.Marshal] of a [LogEvent]. *)
Definition marshalLogEvent (e : LogEvent) : string :=
  dq "{'level':" +:+ Json.appendString (Level e)
    +:+ dq ",'msg':" +:+ Json.appendString (Msg e)
    +:+ dq ",'time':" +:+ Json.appendString (Time e)
    +:+ dq ",'network':{'client':{'ip':"
    +:+ Json.appendString (IP (client_ (Network_ e)))
    +:+ dq ",'port':"
    +:+ NilZero.string_of_int (Z.to_int (Port (client_ (Network_ e))))
    +:+ dq "}},'url':" +:+ Json.appendString (URL_ e) +:+ "}".

(** ** The plugin *)

Record HttpClient := mkHttpClient { Timeout : Z }.

Definition time_Second : Z := 1000000000.

Section Plugin.

Context {ResponseWriter Handler : Type}.

Record SimulatedPlugin := mkSimulatedPlugin {
  next : Handler;
  client : HttpClient;
  iotHubUrl : string;
  subscriptionKey : string
}.

(** What a request does to the outside: a line on standard output, the
    outbound call, the not-found reply, the call of the next handler. *)
Inductive Event :=
| Println (line : string)
| Do (req : Request)
| NotFound (w : ResponseWriter) (r : Request)
| Next (h : Handler) (w : ResponseWriter) (r : Request).

(** Computations that append to the trace of events. *)
Definition M (A : Type) : Type := list Event -> list Event * A.

Definition ret {A} (a : A) : M A := fun t => (t, a).

Definition bind {A B} (m : M A) (f : A -> M B) : M B :=
  fun t => let '(t1, a) := m t in f a t1.

Definition emit (e : Event) : M unit := fun t => (t ++ [e], tt).

Notation "m ;; k" := (bind m (fun _ => k))
  (at level 100, k at level 200, right associativity).

Definition run {A} (m : M A) : list Event := fst (m []).

(** [logEvent.print()] *)
Definition print (logEvent : LogEvent) : M unit :=
  emit (Println (marshalLogEvent logEvent)).

Definition http_NotFound (w : ResponseWriter) (r : Request) : M unit :=
  emit (NotFound w r).

(** [New]: no I/O, no failure. *)
Definition New (next : Handler) (config : Config) (name : string)
    : SimulatedPlugin * option goerror :=
  (mkSimulatedPlugin next (mkHttpClient (10 * time_Second))
     (IotHubUrl config) (SubscriptionKey config),
   None).

(** The two loops that copy the inbound headers, over the entries in the
    order [range] gives them. *)
Definition addValues (h : gmap string (list string)) (k : string)
    (v : list string) : gmap string (list string) :=
  fold_left (fun acc sv => Header.Add acc k sv) v h.

Definition copyHeaders (entries : list (string * list string))
    (h : gmap string (list string)) : gmap string (list string) :=
  fold_left (fun acc e => addValues acc (fst e) (snd e)) entries h.

Definition withHeader (r : Request) (h : gmap string (list string))
    : Request :=
  mkRequest (Method r) (URL r) h (Body r).

Definition withBody (r : Request) (b : ReadCloser) : Request :=
  mkRequest (Method r) (URL r) (Header r) b.

Definition zeroCreateThingRequest : CreateThingRequest :=
  mkCreateThingRequest (mkDeviceLinkOperation EmptyString EmptyString).

(** [ServeHTTP].  Each [if err != nil] of the source is a [match]; a log
    record that is built and dropped is a [let _]. *)
Definition ServeHTTP (wd : World) (plugin : SimulatedPlugin)
    (w : ResponseWriter) (r : Request) : M unit :=
  let '(body, err) := io_ReadAll (Body r) in
  match err with
  | Some e =>
      let _ := logError "error reading body: %v" [e] in
      http_NotFound w r
  | None =>
  let '(cr, err) := Codec.Decode body zeroCreateThingRequest in
  match err with
  | Some e =>
      let _ := logError "error decoding body: %v" [Json.errorString e] in
      http_NotFound w r
  | None =>
  let _ := logWarn "found deviceId=%s"
             [dlo_HardwareId (ctr_DeviceLinkOperation cr)] in
  match url_Parse wd (iotHubUrl plugin +:+ "/simulator/simulated/device") with
  | Failure e =>
      let _ := logError "error creating url: %v" [e] in
      http_NotFound w r
  | Success url =>
  let csdr :=
    mkCreateSimulatedDeviceRequest
      (dlo_HardwareId (ctr_DeviceLinkOperation cr))
      (dlo_Product (ctr_DeviceLinkOperation cr))
      SimulatorTypeManual in
  let '(csdrJson, err) := Codec.Encode csdr in
  match err with
  | Some e =>
      let _ := logError "error encoding create simulated device request: %v"
                 [Json.errorString e] in
      http_NotFound w r
  | None =>
  match http_NewRequest wd "POST" url csdrJson with
  | Failure e =>
      let _ := logError "error encoding create simulated device request: %v"
                 [e] in
      http_NotFound w r
  | Success req =>
  let req := withHeader req (copyHeaders (rangeHeader wd (Header r)) (Header req)) in
  let req :=
    withHeader req
      (Header.Set_ (Header req) "X-Subscription-Key" (subscriptionKey plugin)) in
  emit (Do req) ;;
  match client_Do wd req with
  | Failure e =>
      let _ := logError "error performing request to iothub: %v" [e] in
      http_NotFound w r
  | Success resp =>
  if (StatusCode resp >=? 300) || (StatusCode resp <? 200) then
    let _ := logError "iot hub status code error: %s" [Status resp] in
    http_NotFound w r
  else
  let '(rb, err) := io_ReadAll (RespBody resp) in
  match err with
  | Some e =>
      let _ := logError "error reading iot hub response: %v" [e] in
      http_NotFound w r
  | None =>
  let _ := logError "iot hub device created: %s" [rb] in
  let r := withBody r (NoOpCloser (bytes_NewReader body)) in
  emit (Next (next plugin) w r)
  end end end end end end end.

End Plugin.

(** ** Reading a trace *)

Section Traces.

Context {ResponseWriter Handler : Type}.

Definition isNext (e : @Event ResponseWriter Handler) : bool :=
  match e with Next _ _ _ => true | _ => false end.

Definition isNotFound (e : @Event ResponseWriter Handler) : bool :=
  match e with NotFound _ _ => true | _ => false end.

(** The request was handed to the next handler. *)
Definition forwarded (t : list (@Event ResponseWriter Handler)) : bool :=
  existsb isNext t.

(** The lines printed on standard output. *)
Definition printed (t : list (@Event ResponseWriter Handler)) : list string :=
  omap (fun e => match e with Println l => Some l | _ => None end) t.

(** The outbound calls made. *)
Definition outbound (t : list (@Event ResponseWriter Handler)) : list Request :=
  omap (fun e => match e with Do q => Some q | _ => None end) t.

(** What the host and the hub see of a trace, the inbound request left out:
    the outbound request, the kind of reply. *)
Inductive Seen :=
| SeenPrintln (line : string)
| SeenDo (req : Request)
| SeenNotFound
| SeenNext.

Definition seen (e : @Event ResponseWriter Handler) : Seen :=
  match e with
  | Println l => SeenPrintln l
  | Do q => SeenDo q
  | NotFound _ _ => SeenNotFound
  | Next _ _ _ => SeenNext
  end.

(** The body the plugin puts back on the inbound request. *)
Definition restored (r : Request) (body : string) : Request :=
  withBody r (NoOpCloser (bytes_NewReader body)).

Definition statusOk (code : Z) : Prop := 200 <= code < 300.

End Traces.

(** ** Sample inputs *)

(** A world whose URL library gives every text back unchanged, whose [range]
    visits a map in key order and whose hub answers every call with status
    [code] and body [respBody]. *)
Definition sampleWorld (code : Z) (respBody : ReadCloser) : World :=
  mkWorld (fun s => Success s) map_to_list
    (fun _ => Success (mkResponse EmptyString code respBody)).

Definition samplePlugin : @SimulatedPlugin nat :=
  fst (New 0%nat (mkConfig "http://hub.example" "configured-key") "simulated").

Definition sampleRequest (body : string) : Request :=
  mkRequest "POST" "/things"
    {[ "Content-Type" := ["application/json"];
       "X-Subscription-Key" := ["caller-1"; "caller-2"] ]}
    (Stream body None None).

Definition trackerPayload : string :=
  dq "{'deviceLinkOperation':{'identifier':'dev-123','product':'TRACKER'}}".

Definition trackerRequest : CreateThingRequest :=
  mkCreateThingRequest (mkDeviceLinkOperation "dev-123" "TRACKER").

(** A payload whose product is not a known product. *)
Definition bananaPayload : string :=
  dq "{'deviceLinkOperation':{'identifier':'dev-1','product':'BANANA'}}".

Definition bananaRequest : CreateThingRequest :=
  mkCreateThingRequest (mkDeviceLinkOperation "dev-1" "BANANA").

Definition sampleRun (code : Z) (respBody : ReadCloser) (body : string)
    : list (@Event nat nat) :=
  run (ServeHTTP (sampleWorld code respBody) samplePlugin 1%nat
         (sampleRequest body)).

(** ** The stages of the pipeline *)

Inductive Stage :=
| BodyRead | PayloadDecode | UrlBuild | RequestEncode
| OutboundTransport | Non2xxStatus | OutboundResponseRead.

Definition devicePath : string := "/simulator/simulated/device".

Definition provisioning (cr : CreateThingRequest)
    : CreateSimulatedDeviceRequest :=
  mkCreateSimulatedDeviceRequest
    (dlo_HardwareId (ctr_DeviceLinkOperation cr))
    (dlo_Product (ctr_DeviceLinkOperation cr))
    SimulatorTypeManual.

Section Stages.

Context {ResponseWriter Handler : Type}.

(** Stage [s] fails for request [r]: the call that makes up the stage
    returns an error (or, for the status stage, a code outside 2xx). *)
Definition fails (wd : World) (p : @SimulatedPlugin Handler)
    (w : ResponseWriter) (r : Request) (s : Stage) : Prop :=
  let body := fst (io_ReadAll (Body r)) in
  let sent := outbound (run (ServeHTTP wd p w r)) in
  match s with
  | BodyRead => exists e, snd (io_ReadAll (Body r)) = Some e
  | PayloadDecode =>
      exists e, snd (Codec.Decode body zeroCreateThingRequest) = Some e
  | UrlBuild =>
      exists e, url_Parse wd (iotHubUrl p +:+ devicePath) = Failure e
  | RequestEncode =>
      exists u e,
        url_Parse wd (iotHubUrl p +:+ devicePath) = Success u /\
        (snd (Codec.Encode
                (provisioning
                   (fst (Codec.Decode body zeroCreateThingRequest))))
           = Some e
         \/ exists e',
              http_NewRequest wd "POST" u
                (fst (Codec.Encode
                        (provisioning
                           (fst (Codec.Decode body zeroCreateThingRequest)))))
                = Failure e')
  | OutboundTransport =>
      exists req e, req ∈ sent /\ client_Do wd req = Failure e
  | Non2xxStatus =>
      exists req resp,
        req ∈ sent /\ client_Do wd req = Success resp /\
        ~ statusOk (StatusCode resp)
  | OutboundResponseRead =>
      exists req resp e,
        req ∈ sent /\ client_Do wd req = Success resp /\
        snd (io_ReadAll (RespBody resp)) = Some e
  end.

(** The replies of a trace: not-found replies and calls of the next
    handler. *)
Definition replies (t : list (@Event ResponseWriter Handler))
    : list (@Event ResponseWriter Handler) :=
  filter (fun e => isNotFound e || isNext e = true) t.

End Stages.

(** ** Notions used by the statements about JSON texts *)

(** The text starts, after spaces, with an opening brace. *)
Fixpoint startsObject (s : string) : bool :=
  match s with
  | EmptyString => false
  | String c rest =>
      if Byte.isSpace c then startsObject rest else Ascii.eqb c "{"
  end.

(** The scanner is inside a container. *)
Definition inContainer (sc : Scanner.scanner) : Prop :=
  Scanner.parseState sc <> [] /\ Scanner.step sc <> Scanner.EndTop.

(** An opcode after which [readValue] goes on with the next byte. *)
Definition ordinary (op : Scanner.opcode) : bool :=
  match op with
  | Scanner.scanEnd | Scanner.scanError
  | Scanner.scanEndObject | Scanner.scanEndArray => false
  | _ => true
  end.

(** Every string in the value is well-formed UTF-8. *)
Fixpoint wellFormed (v : Json.value) : bool :=
  match v with
  | Json.Str s => Utf8.valid s
  | Json.Array l => forallb wellFormed l
  | Json.Object ms => forallb (fun m => wellFormed (snd m)) ms
  | _ => true
  end.

(** The strings held by a builder are well-formed. *)
Definition wfFrame (f : Json.frame) : Prop :=
  match f with
  | Json.FArray es => Forall (fun v => wellFormed v = true) es
  | Json.FObject ms _ => Forall (fun m => wellFormed (snd m) = true) ms
  end.

Definition wfBuilder (b : Json.builder) : Prop :=
  Forall wfFrame (Json.frames b) /\
  (forall v, Json.pending b = Some v -> wellFormed v = true).

(** Both fields are well-formed UTF-8. *)
Definition validDevice (d : DeviceLinkOperation) : Prop :=
  Utf8.valid (dlo_HardwareId d) = true /\ Utf8.valid (dlo_Product d) = true.

(** The scanner and the builder after the bytes of [s], as long as the
    top-level value has not ended. *)
Fixpoint feedAll (sc : Scanner.scanner) (b : Json.builder) (s : string)
    : option (Scanner.scanner * Json.builder) :=
  match s with
  | EmptyString => Some (sc, b)
  | String c rest =>
      let (sc1, op) := Scanner.run sc c in
      match op with
      | Scanner.scanEnd => None
      | _ => b1 ← Json.feed b c op; feedAll sc1 b1 rest
      end
  end.

(** [Encoded s out]: [out] is a text between quotes that stands for [s],
    made of plain bytes, escapes of single bytes, the escapes of U+2028 and
    U+2029, and multi-byte sequences taken over as they are. *)
Inductive Encoded : string -> string -> Prop :=
| Encoded_nil : Encoded EmptyString EmptyString
| Encoded_plain c s out :
    (Byte.code c <? 128)%N = true -> Json.htmlSafe c = true ->
    Encoded s out -> Encoded (String c s) (String c out)
| Encoded_escape c s out :
    (Byte.code c <? 128)%N = true -> Json.htmlSafe c = false ->
    Encoded s out -> Encoded (String c s) (Json.escapeByte c +:+ out)
| Encoded_separator (last : bool) s out :
    Encoded s out ->
    Encoded
      (String (Utf8.byte 226) (String (Utf8.byte 128)
         (String (Utf8.byte (if last then 169 else 168)) s)))
      ("\u202" +:+ String (if last then "9" else "8")%char out)
| Encoded_multibyte u s out :
    Utf8.multibyte u -> Encoded s out -> Encoded (u +:+ s) (u +:+ out).

(** ** Three sentences of the specification, as they are worded *)

Section Worded.

Context {ResponseWriter Handler : Type}.

(** Body read, payload decoded, outbound status in 2xx: the next handler is
    called with the original writer and the original body, whose [Close] does
    nothing. *)
Definition forwards_original_body_on_2xx (wd : World)
    (p : @SimulatedPlugin Handler) (w : ResponseWriter) (r : Request)
    : Prop :=
  forall body cr req resp,
    io_ReadAll (Body r) = (body, None) ->
    Codec.Decode body zeroCreateThingRequest = (cr, None) ->
    req ∈ outbound (run (ServeHTTP wd p w r)) ->
    client_Do wd req = Success resp ->
    statusOk (StatusCode resp) ->
    Next (next p) w (restored r body) ∈ run (ServeHTTP wd p w r) /\
    io_ReadAll (Body (restored r body)) = (body, None) /\
    Close (Body (restored r body)) = (Body (restored r body), None).

(** Forwarded exactly when the outbound status is in 2xx. *)
Definition forwarded_iff_2xx (wd : World) (p : @SimulatedPlugin Handler)
    (w : ResponseWriter) (r : Request) : Prop :=
  forall req resp,
    req ∈ outbound (run (ServeHTTP wd p w r)) ->
    client_Do wd req = Success resp ->
    (forwarded (run (ServeHTTP wd p w r)) = true
     <-> statusOk (StatusCode resp)).



End Worded.

(** A response body that breaks off while it is read. *)
Definition brokenBody : ReadCloser :=
  Stream EmptyString (Some "unexpected EOF") None.

Definition emptyBody : ReadCloser := Stream EmptyString None None.

(** ** Further notions *)

(** What the plugin looks at in the answer of the hub. *)
Definition verdict (a : result Response) : option (Z * bool) :=
  match a with
  | Failure _ => None
  | Success resp =>
      Some (StatusCode resp,
            match snd (io_ReadAll (RespBody resp)) with
            | Some _ => false | None => true end)
  end.

(** Successive reads into buffers of the given sizes, until one of them
    returns an error: the reader afterwards, the bytes read, the error. *)
Fixpoint readChunks (r : BytesReader) (lens : list nat)
    : BytesReader * string * option goerror :=
  match lens with
  | [] => (r, EmptyString, None)
  | len :: rest =>
      let '(r1, chunk, e) := BytesReader_Read r len in
      match e with
      | Some _ => (r1, chunk, e)
      | None =>
          let '(r2, s, e2) := readChunks r1 rest in (r2, chunk +:+ s, e2)
      end
  end.

(** The values that the entries visited by [range] hold under keys whose
    canonical form is [k], in the order of the visit. *)
Definition valuesUnder (k : string) (entries : list (string * list string))
    : list string :=
  concat (snd <$> filter (fun e => Header.CanonicalMIMEHeaderKey e.1 = k)
                    entries).

(** [json.Marshal] of a [CreateThingRequest], by the struct tags. *)
Definition marshalCreateThingRequest (c : CreateThingRequest) : string :=
  dq "{'deviceLinkOperation':{'identifier':"
    +:+ Json.appendString (dlo_HardwareId (ctr_DeviceLinkOperation c))
    +:+ dq ",'product':"
    +:+ Json.appendString (dlo_Product (ctr_DeviceLinkOperation c))
    +:+ "}}".

(** The scanner after the bytes of [s], none of which ends a container or
    the value. *)
Fixpoint scanAll (sc : Scanner.scanner) (s : string)
    : option Scanner.scanner :=
  match s with
  | EmptyString => Some sc
  | String c rest =>
      let (sc1, op) := Scanner.run sc c in
      if ordinary op then scanAll sc1 rest else None
  end.

(** The format holds no verb. *)
Definition noPercent (s : string) : bool :=
  forallb (fun c => negb (Ascii.eqb c "%")) (list_ascii_of_string s).

(** The text holds no line feed. *)
Definition oneLine (s : string) : bool :=
  forallb (fun c => negb (Ascii.eqb c "010")) (list_ascii_of_string s).

(** The decimal text [json.Marshal] writes for an [int]. *)
Definition formatInt (z : Z) : string := NilZero.string_of_int (Z.to_int z).

(** The first digit is not a zero. *)
Definition nonzeroHead (d : Decimal.uint) : Prop :=
  match d with
  | Decimal.Nil | Decimal.D0 _ => False
  | _ => True
  end.

(** The state of the scanner after the digits of [formatInt z]. *)
Definition numberState (z : Z) : Scanner.state :=
  if z =? 0 then Scanner.St0 else Scanner.St1.

(** * Properties *)

Section Properties.

Context {ResponseWriter Handler : Type}.

Implicit Types (wd : World) (p : @SimulatedPlugin Handler).
Implicit Types (w : ResponseWriter) (r : Request).

(** Splits a goal about [ServeHTTP] into the paths of the source, one per
    [return]; the equations of the path are left in the context. *)
Ltac pipeline wd p r :=
  unfold run, ServeHTTP;
  destruct (io_ReadAll (Body r)) as [body0 [e0|]] eqn:Hread;
  [| match goal with
     | |- context [Codec.Decode ?b ?z] =>
         destruct (Codec.Decode b z) as [cr0 [e0|]] eqn:Hdec
     end;
     [| destruct (url_Parse wd (iotHubUrl p +:+ "/simulator/simulated/device"))
          as [url0|e0] eqn:Hurl;
        [ cbn [Codec.Encode];
          match goal with
          | |- context [http_NewRequest wd ?m ?u ?b] =>
              destruct (http_NewRequest wd m u b) as [req0|e0] eqn:Hnew
          end;
          [ cbn [bind emit];
            match goal with
            | |- context [client_Do wd ?q] =>
                set (oreq := q) in *;
                destruct (client_Do wd oreq) as [resp0|e0] eqn:Hdo
            end;
            [ match goal with
              | |- context [(StatusCode ?x >=? 300) || ?y] =>
                  destruct ((StatusCode x >=? 300) || y) eqn:Hcode
              end;
              [| match goal with
                 | |- context [io_ReadAll (RespBody ?x)] =>
                     destruct (io_ReadAll (RespBody x)) as [rb0 [e0|]] eqn:Hresp
                 end ]
            | ]
          | ]
        | ] ] ].

Lemma statusOk_test (code : Z) :
  (code >=? 300) || (code <? 200) = false <-> statusOk code.
Proof. unfold statusOk. rewrite orb_false_iff. lia. Qed.

(** The shape of every trace: at most one outbound call, then exactly one
    reply. *)
Lemma ServeHTTP_shape wd p w r :
  let t := run (ServeHTTP wd p w r) in
  t = [NotFound w r]
  \/ (exists req, t = [Do req; NotFound w r])
  \/ (exists req, t = [Do req; Next (next p) w
                         (restored r (fst (io_ReadAll (Body r))))]).
Proof.
  pipeline wd p r; cbn; eauto.
Qed.

(** C7, evaluated on the code: whatever the request and the world, handling
    a request prints no line on standard output.  The log records are built
    by [logError] and [logWarn] and dropped; [print] is never called. *)
Theorem ServeHTTP_prints_nothing wd p w r :
  printed (run (ServeHTTP wd p w r)) = [].
Proof.
  destruct (ServeHTTP_shape wd p w r) as [H | [[q H] | [q H]]];
    cbv zeta in H; rewrite H; reflexivity.
Qed.

Lemma Next_forwarded (t : list (@Event ResponseWriter Handler)) h w r :
  Next h w r ∈ t -> forwarded t = true.
Proof.
  intros H. apply existsb_exists. exists (Next h w r).
  split; [by apply list_elem_of_In | reflexivity].
Qed.

Lemma Values_Set (h : gmap string (list string)) k v :
  Header.Values (Header.Set_ h k v) k = [v].
Proof. unfold Header.Values, Header.Set_. by rewrite lookup_insert_eq. Qed.

(** C4: on every outbound request the subscription-key header holds the
    configured key and nothing else, whatever the inbound request carried
    under that name. *)
Theorem outbound_subscription_key wd p w r req :
  req ∈ outbound (run (ServeHTTP wd p w r)) ->
  Header.Values (Header req) "X-Subscription-Key" = [subscriptionKey p] /\
  Header.Get (Header req) "X-Subscription-Key" = subscriptionKey p.
Proof.
  pipeline wd p r; cbn; intros Hin;
    try (by apply elem_of_nil in Hin);
    apply list_elem_of_singleton in Hin; subst req;
    unfold Header.Get; subst oreq; cbn [Header withHeader];
    rewrite Values_Set; done.
Qed.

Ltac sent H :=
  first [ by apply elem_of_nil in H
        | apply list_elem_of_singleton in H; subst;
          repeat match goal with
          | H1 : client_Do ?wd ?q = _, H2 : client_Do ?wd ?q = _ |- _ =>
              rewrite H1 in H2
          end ].

(** C1, amended: when the inbound body is read, the payload decodes, the
    outbound call answers with a status in [200,300) and the body of that
    answer is read without error, the trace is the outbound call followed by
    one call of the next handler, with the original writer and the inbound
    request carrying the inbound body again: reading it gives the captured
    bytes, closing it changes nothing and returns no error. *)
Theorem forwards_original_body wd p w r body cr req resp rb :
  io_ReadAll (Body r) = (body, None) ->
  Codec.Decode body zeroCreateThingRequest = (cr, None) ->
  req ∈ outbound (run (ServeHTTP wd p w r)) ->
  client_Do wd req = Success resp ->
  statusOk (StatusCode resp) ->
  io_ReadAll (RespBody resp) = (rb, None) ->
  run (ServeHTTP wd p w r) = [Do req; Next (next p) w (restored r body)] /\
  io_ReadAll (Body (restored r body)) = (body, None) /\
  Close (Body (restored r body)) = (Body (restored r body), None) /\
  Method (restored r body) = Method r /\
  URL (restored r body) = URL r /\
  Header (restored r body) = Header r.
Proof.
  intros Hb Hd Hin Hcall Hok Hrb.
  repeat split; try reflexivity.
  apply statusOk_test in Hok.
  revert Hin. pipeline wd p r; cbn; intros Hin; sent Hin; simplify_eq;
    try congruence.
  reflexivity.
Qed.

(** C2, amended: once the outbound call has answered, the request is
    forwarded exactly when the status is in [200,300) and the body of the
    answer is read without error; a status outside the range, 300 and 199
    among them, gives the not-found reply and no forwarding; 200, 201 and
    299 forward when the answer's body is readable. *)
Theorem forwarded_iff_2xx_and_read wd p w r req resp :
  req ∈ outbound (run (ServeHTTP wd p w r)) ->
  client_Do wd req = Success resp ->
  (forwarded (run (ServeHTTP wd p w r)) = true
   <-> statusOk (StatusCode resp)
       /\ snd (io_ReadAll (RespBody resp)) = None) /\
  (~ statusOk (StatusCode resp) ->
   run (ServeHTTP wd p w r) = [Do req; NotFound w r]) /\
  (StatusCode resp = 200 \/ StatusCode resp = 201 \/ StatusCode resp = 299 ->
   snd (io_ReadAll (RespBody resp)) = None ->
   forwarded (run (ServeHTTP wd p w r)) = true) /\
  (StatusCode resp = 300 \/ StatusCode resp = 199 ->
   forwarded (run (ServeHTTP wd p w r)) = false /\
   run (ServeHTTP wd p w r) = [Do req; NotFound w r]).
Proof.
  intros Hin Hcall.
  assert (Hmain :
    (statusOk (StatusCode resp) /\ snd (io_ReadAll (RespBody resp)) = None ->
     forwarded (run (ServeHTTP wd p w r)) = true) /\
    (~ (statusOk (StatusCode resp)
        /\ snd (io_ReadAll (RespBody resp)) = None) ->
     run (ServeHTTP wd p w r) = [Do req; NotFound w r])).
  { rewrite <- statusOk_test.
    revert Hin. pipeline wd p r; cbn; intros Hin; sent Hin; simplify_eq;
      rewrite ?Hcode, ?Hresp; cbn; split; intros; try tauto;
      try reflexivity; try (exfalso; intuition congruence). }
  destruct Hmain as [Hyes Hno].
  split; [split | split; [| split]].
  - intros Hf.
    destruct (decide (statusOk (StatusCode resp)
                      /\ snd (io_ReadAll (RespBody resp)) = None))
      as [Hs | Hs]; [exact Hs |].
    rewrite (Hno Hs) in Hf. discriminate.
  - exact Hyes.
  - intros Hs. apply Hno. tauto.
  - intros Hc Hr. apply Hyes. unfold statusOk. split; [lia | done].
  - intros Hc.
    assert (E : run (ServeHTTP wd p w r) = [Do req; NotFound w r])
      by (apply Hno; unfold statusOk; lia).
    split; [rewrite E; reflexivity | exact E].
Qed.




(** What a forwarded request has gone through: every stage succeeded. *)
Lemma ServeHTTP_forwarded_inv wd p w r :
  forwarded (run (ServeHTTP wd p w r)) = true ->
  exists body cr u req0 req resp rb,
    io_ReadAll (Body r) = (body, None) /\
    Codec.Decode body zeroCreateThingRequest = (cr, None) /\
    url_Parse wd (iotHubUrl p +:+ devicePath) = Success u /\
    http_NewRequest wd "POST" u (fst (Codec.Encode (provisioning cr)))
      = Success req0 /\
    outbound (run (ServeHTTP wd p w r)) = [req] /\
    client_Do wd req = Success resp /\
    statusOk (StatusCode resp) /\
    io_ReadAll (RespBody resp) = (rb, None).
Proof.
  pipeline wd p r; cbn; intros Hf; try discriminate.
  apply statusOk_test in Hcode.
  exists body0, cr0, url0, req0, oreq, resp0, rb0.
  split_and!; first [done | exact Hnew | apply Hcode].
Qed.

(** C6: a failure of any stage (body read, payload decode, URL build,
    request encode, outbound transport, status outside 2xx, outbound
    response read) ends in the not-found reply for the inbound writer and
    request, without a call of the next handler; and a request that is not
    forwarded gets that reply and no other: every trace has exactly one
    reply, the not-found reply or the call of the next handler. *)
Theorem stage_failure_not_found wd p w r :
  (forall s, fails wd p w r s ->
     replies (run (ServeHTTP wd p w r)) = [NotFound w r] /\
     forwarded (run (ServeHTTP wd p w r)) = false) /\
  (replies (run (ServeHTTP wd p w r)) = [NotFound w r] \/
   replies (run (ServeHTTP wd p w r))
     = [Next (next p) w (restored r (fst (io_ReadAll (Body r))))]) /\
  (forwarded (run (ServeHTTP wd p w r)) = false ->
   replies (run (ServeHTTP wd p w r)) = [NotFound w r]).
Proof.
  assert (Hshape := ServeHTTP_shape wd p w r). cbv zeta in Hshape.
  split; [| split].
  - intros s Hs.
    destruct (forwarded (run (ServeHTTP wd p w r))) eqn:Hf.
    + exfalso. clear Hshape. apply ServeHTTP_forwarded_inv in Hf.
      destruct Hf as (body & cr & u & req0 & req & resp & rb
                      & Hb & Hd & Hu & Hn & Hsent & Hcall & Hok & Hrb).
      unfold fails in Hs. rewrite Hsent, Hb in Hs. cbn [fst snd] in Hs.
      rewrite Hd in Hs. cbn [fst snd] in Hs.
      destruct s;
        repeat match goal with
        | H : exists _, _ |- _ => destruct H
        | H : _ /\ _ |- _ => destruct H
        | H : _ \/ _ |- _ => destruct H
        | H : _ ∈ [_] |- _ => apply list_elem_of_singleton in H; subst
        end; simplify_eq; try congruence.
      match goal with
      | H : client_Do wd req = _, H' : client_Do wd req = _ |- _ =>
          rewrite H in H'; simplify_eq
      end.
      match goal with
      | H : snd (io_ReadAll (RespBody ?x)) = Some _,
        H' : io_ReadAll (RespBody ?x) = _ |- _ =>
          rewrite H' in H; discriminate
      end.
    + split; [| reflexivity].
      destruct Hshape as [H | [[q H] | [q H]]]; rewrite H in *;
        try reflexivity; discriminate.
  - destruct Hshape as [H | [[q H] | [q H]]]; rewrite H; cbn; auto.
  - destruct Hshape as [H | [[q H] | [q H]]]; rewrite H; cbn; auto.
    discriminate.
Qed.

(** *** Copying the headers *)

Lemma addValues_lookup (h : gmap string (list string)) k vs k' :
  default [] (addValues h k vs !! k')
  = if decide (k' = Header.CanonicalMIMEHeaderKey k)
    then default [] (h !! k') ++ vs else default [] (h !! k').
Proof.
  unfold addValues. revert h. induction vs as [|v vs IH]; intros h; cbn.
  - destruct (decide _); [by rewrite app_nil_r | done].
  - rewrite IH. unfold Header.Add.
    destruct (decide (k' = Header.CanonicalMIMEHeaderKey k)) as [->|Hne].
    + rewrite lookup_insert_eq. cbn. by rewrite <- app_assoc.
    + by rewrite lookup_insert_ne.
Qed.

Lemma copyHeaders_values (entries : list (string * list string)) :
  forall (h : gmap string (list string)) k,
    default [] (copyHeaders entries h !! k)
    = default [] (h !! k) ++ valuesUnder k entries.
Proof.
  unfold copyHeaders, valuesUnder.
  induction entries as [|[k0 v0] es IH]; intros h k.
  - cbn. by rewrite app_nil_r.
  - cbn [fold_left fst snd]. rewrite IH, addValues_lookup.
    rewrite filter_cons. cbn [fst].
    destruct (decide (Header.CanonicalMIMEHeaderKey k0 = k)) as [<- | Hne].
    + rewrite decide_True by done. cbn. by rewrite app_assoc.
    + rewrite decide_False by congruence. done.
Qed.

Lemma NewRequest_header wd m u b req :
  http_NewRequest wd m u b = Success req -> Header req = ∅.
Proof.
  unfold http_NewRequest. intros H.
  destruct (negb _); [discriminate |].
  destruct (url_Parse wd u); [| discriminate].
  by injection H as <-.
Qed.





(** *** The decoder reads one value *)

Lemma app_nonempty {A} (l : list A) x : l ++ [x] <> [].
Proof. destruct l; discriminate. Qed.

Lemma top_nonempty ps : ps <> [] -> exists x, Scanner.top ps = Some x.
Proof.
  unfold Scanner.top. intros H. destruct (last ps) eqn:E; [eauto |].
  by apply last_None in E.
Qed.

(** Inside a container the scanner never reports the end of the top-level
    value, and stays inside until a closing bracket. *)
Lemma run_inContainer sc c sc1 op :
  inContainer sc -> Scanner.run sc c = (sc1, op) ->
  op <> Scanner.scanEnd /\ (ordinary op = true -> inContainer sc1).
Proof.
  intros [Hps Hst] Hrun.
  destruct (top_nonempty _ Hps) as [x Hx].
  destruct sc as [st et ps er]. cbn in *.
  unfold Scanner.run in Hrun. cbn in Hrun.
  destruct st; try done.
  all: unfold Scanner.stateBeginValueOrEmpty, Scanner.stateBeginValue,
    Scanner.stateBeginStringOrEmpty, Scanner.stateBeginString,
    Scanner.stateEndValue, Scanner.stateEndTop, Scanner.stateInString,
    Scanner.stateInStringEsc, Scanner.stateHex, Scanner.stateNeg,
    Scanner.state1, Scanner.state0, Scanner.stateDot, Scanner.stateDot0,
    Scanner.stateE, Scanner.stateESign, Scanner.stateE0, Scanner.lit,
    Scanner.stateEndValue, Scanner.error, Scanner.pushParseState,
    Scanner.setStep, Scanner.popParseState in Hrun;
    cbn in Hrun; rewrite ?Hx in Hrun.
  all: try (unfold Scanner.replaceTop, Scanner.top in Hrun;
            rewrite ?last_snoc in Hrun).
  all: repeat case_match; unfold Scanner.error in *; simplify_eq;
    (split; [done |]); try done; intros _; split; cbn; try done;
    try apply app_nonempty.
Qed.

Lemma stateEndValue_space sc1 sc2 op2 :
  Scanner.stateEndValue sc1 " " = (sc2, op2) ->
  Json.isScanEnd op2 = false -> inContainer sc2.
Proof.
  unfold Scanner.stateEndValue, Scanner.top.
  destruct (last (Scanner.parseState sc1)) eqn:E; cbn.
  - intros [= <- <-] _. split; cbn; [| done].
    intros Hnil. rewrite Hnil in E. discriminate.
  - intros [= <- <-]. discriminate.
Qed.

Lemma readValueFrom_inContainer b :
  forall sc k all all' t n,
    inContainer sc ->
    Json.readValueFrom all sc b k = Json.Ok n ->
    Json.readValueFrom all' sc (b +:+ t) k = Json.Ok n /\
    (n <= k + String.length b)%nat.
Proof.
  induction b as [|c b IH]; intros sc k all all' t n Hin;
    cbn [String.append Json.readValueFrom].
  - destruct (Scanner.run sc " ") as [sc1 op] eqn:E.
    destruct (run_inContainer _ _ _ _ Hin E) as [Hne _].
    destruct op; cbn; try done; by destruct (Json.nonSpace all).
  - change (String c b +:+ t) with (String c (b +:+ t)).
    cbn [Json.readValueFrom].
    destruct (Scanner.run sc c) as [sc1 op] eqn:E.
    destruct (run_inContainer _ _ _ _ Hin E) as [Hne Hord].
    destruct op; try done; intros H;
      try (destruct (IH sc1 (S k) all all' t n (Hord eq_refl) H);
           split; [done | cbn; lia]).
    all: revert H;
      destruct (Scanner.stateEndValue sc1 " ") as [sc2 op2] eqn:E2;
      cbv beta iota;
      destruct (Json.isScanEnd op2) eqn:E3; intros H;
      [ injection H as <-; split; [done | cbn; lia]
      | destruct (IH sc2 (S k) all all' t n
                    (stateEndValue_space _ _ _ E2 E3) H);
        split; [done | cbn; lia] ].
Qed.

Lemma readValueFrom_object b :
  forall k all all' t n,
    startsObject b = true ->
    Json.readValueFrom all Scanner.reset b k = Json.Ok n ->
    Json.readValueFrom all' Scanner.reset (b +:+ t) k = Json.Ok n /\
    (n <= k + String.length b)%nat.
Proof.
  induction b as [|c b IH]; intros k all all' t n Hs; [done |].
  cbn in Hs. destruct (Byte.isSpace c) eqn:Hsp.
  - change (String c b +:+ t) with (String c (b +:+ t)).
    cbn [Json.readValueFrom].
    assert (E : Scanner.run Scanner.reset c
                = (Scanner.reset, Scanner.scanSkipSpace)).
    { unfold Scanner.run, Scanner.stateBeginValue. cbn. by rewrite Hsp. }
    rewrite E. intros H.
    destruct (IH (S k) all all' t n Hs H). split; [done | cbn; lia].
  - apply Ascii.eqb_eq in Hs. subst c.
    change (String "{" b +:+ t) with (String "{" (b +:+ t)).
    cbn [Json.readValueFrom].
    destruct (Scanner.run Scanner.reset "{") as [sc1 op] eqn:E.
    vm_compute in E. injection E as <- <-. intros H.
    assert (Hc : inContainer
                   (Scanner.mkScanner Scanner.BeginStringOrEmpty false
                      [Scanner.parseObjectKey] None))
      by (split; cbn; done).
    destruct (readValueFrom_inContainer b _ (S k) all all' t n Hc H).
    split; [done | cbn; lia].
Qed.

Lemma take_app n b t :
  (n <= String.length b)%nat -> Json.take n (b +:+ t) = Json.take n b.
Proof.
  revert b. induction n as [|n IH]; intros [|c b] Hn; cbn in Hn;
    try lia; try done.
  change (String c b +:+ t) with (String c (b +:+ t)).
  cbn [Json.take]. f_equal. apply IH. lia.
Qed.

Lemma Decode_app o t n cr :
  startsObject o = true -> Json.readValue o = Json.Ok n ->
  Codec.Decode (o +:+ t) cr = Codec.Decode o cr.
Proof.
  intros Hs Hr. unfold Codec.Decode.
  destruct (readValueFrom_object o 0 o (o +:+ t) t n Hs Hr) as [Hr' Hn].
  unfold Json.readValue in *. rewrite Hr, Hr'.
  rewrite take_app; [done | lia].
Qed.

(** C9: the decoder reads the first JSON value only.  When the text [o]
    starts with an object that is complete, bytes appended to it change
    neither the result of decoding nor what the plugin sends and replies;
    in particular an object followed by [garbage] decodes without error. *)
Theorem trailing_bytes_ignored :
  (forall o t n cr,
     startsObject o = true -> Json.readValue o = Json.Ok n ->
     Codec.Decode (o +:+ t) cr = Codec.Decode o cr) /\
  (forall wd p w r o t n,
     startsObject o = true -> Json.readValue o = Json.Ok n ->
     io_ReadAll (Body r) = (o +:+ t, None) ->
     seen <$> run (ServeHTTP wd p w r)
     = seen <$> run (ServeHTTP wd p w (withBody r (Stream o None None)))) /\
  Codec.Decode (dq "{'deviceLinkOperation':{}}garbage") zeroCreateThingRequest
  = (zeroCreateThingRequest, None).
Proof.
  split; [| split; [| by vm_compute]].
  - intros o t n cr. apply Decode_app.
  - intros wd p w r o t n Hs Hr Hread.
    unfold run, ServeHTTP. cbn [Body withBody io_ReadAll Header].
    rewrite Hread, (Decode_app o t n _ Hs Hr).
    repeat case_match; reflexivity.
Qed.

(** *** Strings: what the encoder writes, the decoder reads back *)

Lemma append_cons c s t : String c s +:+ t = String c (s +:+ t).
Proof. reflexivity. Qed.

Lemma append_nil t : EmptyString +:+ t = t.
Proof. reflexivity. Qed.

Ltac norm_append := rewrite ?append_cons, ?append_nil.

Lemma unquote_plain c out :
  (Byte.code c <? 128)%N = true -> Json.htmlSafe c = true ->
  Json.unquoteBody 0 (String c out) = String c <$> Json.unquoteBody 0 out.
Proof.
  intros Hc Hs. unfold Json.htmlSafe in Hs.
  apply andb_true_iff in Hs as [H32 Hs]. apply negb_true_iff in Hs.
  repeat (apply orb_false_iff in Hs as [Hs ?]).
  cbn [Json.unquoteBody]. rewrite H, Hs, Hc. cbn.
  apply N.leb_le in H32. apply N.ltb_ge in H32. by rewrite H32.
Qed.

Lemma unquote_simple e ch out :
  Ascii.eqb e "u" = false -> Json.escapeChar e = Some ch ->
  Json.unquoteBody 0 (String "\" (String e out))
  = String ch <$> Json.unquoteBody 0 out.
Proof.
  intros He Hch.
  change (Json.unquoteBody 0 (String "\" (String e out)))
    with (if Ascii.eqb e "u" then
            match out with
            | String h1 (String h2 (String h3 (String h4 s6))) =>
                match Json.getu4 h1 h2 h3 h4 with
                | None => None
                | Some rr =>
                  if Utf8.isSurrogate rr then
                    let lone := String.append Utf8.replacement
                                  <$> Json.unquoteBody 0 s6 in
                    match s6 with
                    | String b (String u (String g1 (String g2 (String g3
                        (String g4 s12))))) =>
                      if Ascii.eqb b "\" && Ascii.eqb u "u" then
                        match Json.getu4 g1 g2 g3 g4 with
                        | Some rr1 =>
                          match Utf8.decodePair rr rr1 with
                          | Some r =>
                              String.append (Utf8.encodeRune r)
                                <$> Json.unquoteBody 0 s12
                          | None => lone
                          end
                        | None => lone
                        end
                      else lone
                    | _ => lone
                    end
                  else String.append (Utf8.encodeRune rr)
                         <$> Json.unquoteBody 0 s6
                end
            | _ => None
            end
          else
            match Json.escapeChar e with
            | Some ch => String ch <$> Json.unquoteBody 0 out
            | None => None
            end).
  by rewrite He, Hch.
Qed.

Lemma unquote_u4 h1 h2 h3 h4 rr out :
  Json.getu4 h1 h2 h3 h4 = Some rr -> Utf8.isSurrogate rr = false ->
  Json.unquoteBody 0
    (String "\" (String "u" (String h1 (String h2 (String h3 (String h4 out))))))
  = String.append (Utf8.encodeRune rr) <$> Json.unquoteBody 0 out.
Proof.
  intros Hg Hs.
  change (Json.unquoteBody 0
    (String "\" (String "u" (String h1 (String h2 (String h3 (String h4 out)))))))
    with (match Json.getu4 h1 h2 h3 h4 with
                | None => None
                | Some rr =>
                  if Utf8.isSurrogate rr then
                    let lone := String.append Utf8.replacement
                                  <$> Json.unquoteBody 0 out in
                    match out with
                    | String b (String u (String g1 (String g2 (String g3
                        (String g4 s12))))) =>
                      if Ascii.eqb b "\" && Ascii.eqb u "u" then
                        match Json.getu4 g1 g2 g3 g4 with
                        | Some rr1 =>
                          match Utf8.decodePair rr rr1 with
                          | Some r =>
                              String.append (Utf8.encodeRune r)
                                <$> Json.unquoteBody 0 s12
                          | None => lone
                          end
                        | None => lone
                        end
                      else lone
                    | _ => lone
                    end
                  else String.append (Utf8.encodeRune rr)
                         <$> Json.unquoteBody 0 out
                end).
  by rewrite Hg, Hs.
Qed.

Lemma escapeByte_cases c :
  (Byte.code c <? 128)%N = true -> Json.htmlSafe c = false ->
  (exists e, Json.escapeByte c = String "\" (String e EmptyString) /\
             Ascii.eqb e "u" = false /\ Json.escapeChar e = Some c) \/
  (exists x y,
     Json.escapeByte c
     = String "\" (String "u" (String "0" (String "0"
         (String x (String y EmptyString))))) /\
     Json.getu4 "0" "0" x y = Some (Byte.code c)).
Proof.
  destruct c as [[] [] [] [] [] [] [] []]; intros Hc Hs;
    try (vm_compute in Hc; discriminate);
    try (vm_compute in Hs; discriminate);
    match goal with
    | |- context [Json.escapeByte ?c] =>
        let e := eval vm_compute in (Json.escapeByte c) in
        match e with
        | String _ (String ?x EmptyString) =>
            left; exists x; vm_compute; repeat split; reflexivity
        | String _ (String _ (String _ (String _
            (String ?x (String ?y EmptyString))))) =>
            right; exists x, y; vm_compute; repeat split; reflexivity
        end
    end.
Qed.

Lemma encodeRune_ascii c :
  (Byte.code c <? 128)%N = true ->
  Utf8.encodeRune (Byte.code c) = String c EmptyString /\
  Utf8.isSurrogate (Byte.code c) = false.
Proof.
  intros Hc. unfold Utf8.encodeRune, Utf8.isSurrogate. rewrite Hc.
  unfold Utf8.byte, Byte.code. rewrite ascii_N_embedding. split; [done |].
  apply N.ltb_lt in Hc. unfold Byte.code in Hc.
  apply andb_false_iff. left. apply N.leb_gt. lia.
Qed.

Lemma unquote_escapeByte c out :
  (Byte.code c <? 128)%N = true -> Json.htmlSafe c = false ->
  Json.unquoteBody 0 (Json.escapeByte c +:+ out)
  = String c <$> Json.unquoteBody 0 out.
Proof.
  intros Hc Hs.
  destruct (escapeByte_cases c Hc Hs) as [(e & -> & He & Hch)
                                         | (x & y & -> & Hg)].
  - norm_append. by apply unquote_simple.
  - norm_append.
    destruct (encodeRune_ascii c Hc) as [Henc Hsur].
    rewrite (unquote_u4 _ _ _ _ _ out Hg Hsur), Henc.
    by destruct (Json.unquoteBody 0 out).
Qed.

Lemma unquote_separator (last : bool) out :
  Json.unquoteBody 0
    ("\u202" +:+ String (if last then "9" else "8")%char out)
  = String.append
      (String (Utf8.byte 226) (String (Utf8.byte 128)
         (String (Utf8.byte (if last then 169 else 168)) EmptyString)))
    <$> Json.unquoteBody 0 out.
Proof.
  destruct last; norm_append.
  - rewrite (unquote_u4 "2" "0" "2" "9" 8233 out eq_refl eq_refl).
    reflexivity.
  - rewrite (unquote_u4 "2" "0" "2" "8" 8232 out eq_refl eq_refl).
    reflexivity.
Qed.

Lemma high_not c (x : ascii) :
  (128 <= Byte.code c)%N -> (Byte.code x <? 128)%N = true ->
  Ascii.eqb c x = false.
Proof.
  intros Hc Hx. destruct (Ascii.eqb_spec c x) as [-> |]; [| done].
  apply N.ltb_lt in Hx. lia.
Qed.

Lemma unquote_high c s1 :
  (128 <= Byte.code c)%N ->
  Json.unquoteBody 0 (String c s1)
  = match Utf8.seqLen (String c s1) with
    | Some n => String c <$> Json.unquoteBody (Nat.pred n) s1
    | None => String.append Utf8.replacement <$> Json.unquoteBody 0 s1
    end.
Proof.
  intros Hc. cbn [Json.unquoteBody].
  rewrite (high_not c "\" Hc eq_refl), (high_not c "034" Hc eq_refl).
  assert (H32 : (Byte.code c <? 32)%N = false) by (apply N.ltb_ge; lia).
  assert (H128 : (Byte.code c <? 128)%N = false) by (apply N.ltb_ge; lia).
  by rewrite H32, H128.
Qed.

Lemma fmap_cons_append c u (x : option string) :
  String c <$> (String.append u <$> x) = String.append (String c u) <$> x.
Proof. by destruct x. Qed.

Lemma unquote_copy u :
  forall rest,
    Json.unquoteBody (String.length u) (u +:+ rest)
    = String.append u <$> Json.unquoteBody 0 rest.
Proof.
  induction u as [|c u IH]; intros rest; norm_append.
  - cbn [String.length]. by destruct (Json.unquoteBody 0 rest).
  - cbn [String.length].
    change (Json.unquoteBody (S (String.length u)) (String c (u +:+ rest)))
      with (String c <$> Json.unquoteBody (String.length u) (u +:+ rest)).
    by rewrite IH, fmap_cons_append.
Qed.

Lemma unquote_multibyte u rest :
  Utf8.multibyte u ->
  Json.unquoteBody 0 (u +:+ rest)
  = String.append u <$> Json.unquoteBody 0 rest.
Proof.
  intros (Hlen & Hseq & Hall).
  destruct u as [|c u]; [cbn in Hlen; lia |].
  specialize (Hseq rest). revert Hseq. norm_append. intros Hseq.
  cbn in Hall. apply Forall_cons in Hall as [Hc _].
  rewrite (unquote_high c _ Hc), Hseq. cbn [String.length Nat.pred].
  by rewrite unquote_copy, fmap_cons_append.
Qed.

Lemma Encoded_unquote s out :
  Encoded s out -> Json.unquoteBody 0 out = Some s.
Proof.
  induction 1 as [| c s out Hc Hs _ IH | c s out Hc Hs _ IH
                  | last s out _ IH | u s out Hu _ IH].
  - reflexivity.
  - by rewrite (unquote_plain c out Hc Hs), IH.
  - by rewrite (unquote_escapeByte c out Hc Hs), IH.
  - by rewrite unquote_separator, IH.
  - by rewrite (unquote_multibyte u out Hu), IH.
Qed.

Lemma cont_high c : Utf8.cont c = true -> (128 <= Byte.code c)%N.
Proof.
  unfold Utf8.cont, Byte.between. intros H.
  apply andb_true_iff in H as [H _]. by apply N.leb_le in H.
Qed.

Lemma between_high lo hi c :
  (128 <= lo)%N -> Byte.between lo hi c = true -> (128 <= Byte.code c)%N.
Proof.
  unfold Byte.between. intros Hlo H.
  apply andb_true_iff in H as [H _]. apply N.leb_le in H. lia.
Qed.

(** A lead byte that [seqLen] accepts starts a multi-byte sequence. *)
Lemma seqLen_split c s1 n :
  (128 <= Byte.code c)%N -> Utf8.seqLen (String c s1) = Some n ->
  exists u rest,
    s1 = u +:+ rest /\ S (String.length u) = n /\
    Utf8.multibyte (String c u).
Proof.
  intros Hc H.
  assert (H128 : (Byte.code c <? 128)%N = false) by (apply N.ltb_ge; lia).
  unfold Utf8.seqLen in H. rewrite H128 in H.
  destruct (Byte.code c <? 194)%N eqn:H194; [discriminate |].
  destruct (Byte.code c <? 224)%N eqn:H224.
  { destruct s1 as [|c1 s2]; [discriminate |].
    destruct (Utf8.cont c1) eqn:H1; [| discriminate]. injection H as <-.
    exists (String c1 EmptyString), s2. split; [done |]. split; [done |].
    split; [cbn; lia |]. split.
    - intros t. cbn [String.length]. norm_append. unfold Utf8.seqLen.
      by rewrite H128, H194, H224, H1.
    - repeat constructor; [done | by apply cont_high]. }
  destruct (Byte.code c <? 240)%N eqn:H240.
  { destruct s1 as [|c1 [|c2 s3]]; try discriminate.
    destruct (Byte.between _ _ c1 && Utf8.cont c2) eqn:H1; [| discriminate].
    injection H as <-.
    exists (String c1 (String c2 EmptyString)), s3.
    split; [done |]. split; [done |]. split; [cbn; lia |]. split.
    - intros t. cbn [String.length]. norm_append. unfold Utf8.seqLen.
      by rewrite H128, H194, H224, H240, H1.
    - apply andb_true_iff in H1 as [Hb Hc2].
      repeat constructor; [done | | by apply cont_high].
      eapply between_high; [| exact Hb]. by destruct (_ =? 224)%N. }
  destruct (Byte.code c <? 245)%N eqn:H245; [| discriminate].
  destruct s1 as [|c1 [|c2 [|c3 s4]]]; try discriminate.
  destruct (Byte.between _ _ c1 && Utf8.cont c2 && Utf8.cont c3) eqn:H1;
    [| discriminate].
  injection H as <-.
  exists (String c1 (String c2 (String c3 EmptyString))), s4.
  split; [done |]. split; [done |]. split; [cbn; lia |]. split.
  - intros t. cbn [String.length]. norm_append. unfold Utf8.seqLen.
    by rewrite H128, H194, H224, H240, H245, H1.
  - apply andb_true_iff in H1 as [H1 Hc3].
    apply andb_true_iff in H1 as [Hb Hc2].
    repeat constructor; [done | | by apply cont_high | by apply cont_high].
    eapply between_high; [| exact Hb]. by destruct (_ =? 240)%N.
Qed.

Lemma validFrom_copy u rest :
  Utf8.validFrom (String.length u) (u +:+ rest) = Utf8.validFrom 0 rest.
Proof.
  induction u as [|c u IH]; norm_append; [done |]. exact IH.
Qed.

Lemma appendStringBody_copy u rest :
  Json.appendStringBody (String.length u) (u +:+ rest)
  = u +:+ Json.appendStringBody 0 rest.
Proof.
  induction u as [|c u IH]; norm_append; [done |].
  cbn [String.length Json.appendStringBody]. by rewrite IH.
Qed.

Lemma code_byte c n : (Byte.code c =? n)%N = true -> c = Utf8.byte n.
Proof.
  intros H. apply N.eqb_eq in H. unfold Byte.code, Utf8.byte in *.
  by rewrite <- H, ascii_N_embedding.
Qed.

Lemma length_append u rest :
  String.length (u +:+ rest) = (String.length u + String.length rest)%nat.
Proof. induction u as [|c u IH]; norm_append; cbn; [done | by rewrite IH]. Qed.

Lemma appendStringBody_Encoded s :
  Utf8.valid s = true -> Encoded s (Json.appendStringBody 0 s).
Proof.
  unfold Utf8.valid.
  remember (String.length s) as len eqn:Hlen.
  revert s Hlen. induction len as [len IH] using lt_wf_ind.
  intros [|c s1] Hlen Hv; [constructor |].
  cbn [Json.appendStringBody].
  destruct (Byte.code c <? 128)%N eqn:H128.
  - assert (Hv1 : Utf8.validFrom 0 s1 = true).
    { revert Hv. cbn [Utf8.validFrom]. unfold Utf8.seqLen. by rewrite H128. }
    assert (IH1 := IH (String.length s1) ltac:(subst len; cbn; lia) s1
                      eq_refl Hv1).
    destruct (Json.htmlSafe c) eqn:Hs; by constructor.
  - assert (Hc : (128 <= Byte.code c)%N) by (by apply N.ltb_ge).
    cbn [Utf8.validFrom] in Hv.
    destruct (Utf8.seqLen (String c s1)) as [n|] eqn:Hseq; [| discriminate].
    destruct (seqLen_split c s1 n Hc Hseq) as (u & rest & -> & <- & Hmb).
    cbn [Nat.pred] in *. rewrite validFrom_copy in Hv.
    assert (IHr := IH (String.length rest)
                      ltac:(subst len; cbn; rewrite length_append; lia)
                      rest eq_refl Hv).
    rewrite appendStringBody_copy.
    assert (Hcopy : Encoded (String c (u +:+ rest))
                      (String c (u +:+ Json.appendStringBody 0 rest))).
    { change (Encoded (String c u +:+ rest)
                (String c u +:+ Json.appendStringBody 0 rest)).
      by constructor. }
    destruct Hmb as (Hlen2 & Hlen3 & _). specialize (Hlen3 EmptyString).
    destruct u as [|c1 [|c2 u]]; norm_append.
    { cbn in Hlen2. lia. }
    { destruct rest as [|c2 rest]; [exact Hcopy |].
      destruct ((Byte.code c =? 226)%N && (Byte.code c1 =? 128)%N
                && ((Byte.code c2 =? 168)%N || (Byte.code c2 =? 169)%N))
        eqn:Hsep; [| exact Hcopy].
      apply andb_true_iff in Hsep as [Hsep _].
      apply andb_true_iff in Hsep as [H0 H1].
      apply code_byte in H0, H1. subst c c1. vm_compute in Hlen3.
      discriminate. }
    destruct ((Byte.code c =? 226)%N && (Byte.code c1 =? 128)%N
              && ((Byte.code c2 =? 168)%N || (Byte.code c2 =? 169)%N))
      eqn:Hsep; [| exact Hcopy].
    apply andb_true_iff in Hsep as [Hsep H2].
    apply andb_true_iff in Hsep as [H0 H1].
    apply code_byte in H0, H1. subst c c1.
    assert (u = EmptyString) as ->.
    { destruct u as [|c3 u]; [done |].
      apply orb_true_iff in H2 as [H2 | H2]; apply code_byte in H2;
        subst c2; vm_compute in Hlen3; discriminate. }
    norm_append.
    apply orb_true_iff in H2 as [H2 | H2]; apply code_byte in H2; subst c2.
    + exact (Encoded_separator false rest _ IHr).
    + exact (Encoded_separator true rest _ IHr).
Qed.

Lemma feedAll_escapeByte c et ps er fr l pd :
  (Byte.code c <? 128)%N = true -> Json.htmlSafe c = false ->
  feedAll (Scanner.mkScanner Scanner.InString et ps er)
    (Json.mkBuilder fr (Some l) pd) (Json.escapeByte c)
  = Some (Scanner.mkScanner Scanner.InString et ps er,
          Json.mkBuilder fr
            (Some (rev (list_ascii_of_string (Json.escapeByte c)) ++ l)) pd).
Proof.
  destruct c as [[] [] [] [] [] [] [] []]; intros Hc Hs;
    try (vm_compute in Hc; discriminate);
    try (vm_compute in Hs; discriminate);
    reflexivity.
Qed.


Lemma feedAll_app s1 :
  forall sc b s2 sc1 b1,
    feedAll sc b s1 = Some (sc1, b1) ->
    feedAll sc b (s1 +:+ s2) = feedAll sc1 b1 s2.
Proof.
  induction s1 as [|c s1 IH]; intros sc b s2 sc1 b1; norm_append.
  - by intros [= <- <-].
  - cbn [feedAll]. destruct (Scanner.run sc c) as [sc' op].
    destruct op; try done;
      (destruct (Json.feed b c _) as [b'|]; [cbn; apply IH | done]).
Qed.

Lemma parseFrom_feedAll s1 :
  forall sc b s2 sc1 b1,
    feedAll sc b s1 = Some (sc1, b1) ->
    Json.parseFrom sc b (s1 +:+ s2) = Json.parseFrom sc1 b1 s2.
Proof.
  induction s1 as [|c s1 IH]; intros sc b s2 sc1 b1; norm_append.
  - by intros [= <- <-].
  - cbn [feedAll Json.parseFrom]. destruct (Scanner.run sc c) as [sc' op].
    destruct op; try done;
      (destruct (Json.feed b c _) as [b'|]; [cbn; apply IH | done]).
Qed.

Lemma list_of_append s t :
  list_ascii_of_string (s +:+ t)
  = list_ascii_of_string s ++ list_ascii_of_string t.
Proof. induction s as [|c s IH]; norm_append; cbn; [done | by rewrite IH]. Qed.

(** Inside a string literal a byte that is neither a quote, nor a
    backslash, nor a control character is taken into the literal. *)
Lemma feedAll_inString c et ps er fr l pd :
  Ascii.eqb c "034" = false -> Ascii.eqb c "\" = false ->
  (Byte.code c <? 32)%N = false ->
  feedAll (Scanner.mkScanner Scanner.InString et ps er)
    (Json.mkBuilder fr (Some l) pd) (String c EmptyString)
  = Some (Scanner.mkScanner Scanner.InString et ps er,
          Json.mkBuilder fr (Some (c :: l)) pd).
Proof.
  intros Hq Hb H32. cbn [feedAll]. unfold Scanner.run. cbn [Scanner.step].
  unfold Scanner.stateInString. by rewrite Hq, Hb, H32.
Qed.


Lemma feedAll_high u :
  forall et ps er fr l pd,
    Forall (fun c => (128 <= Byte.code c)%N) (list_ascii_of_string u) ->
    feedAll (Scanner.mkScanner Scanner.InString et ps er)
      (Json.mkBuilder fr (Some l) pd) u
    = Some (Scanner.mkScanner Scanner.InString et ps er,
            Json.mkBuilder fr (Some (rev (list_ascii_of_string u) ++ l)) pd).
Proof.
  induction u as [|c u IH]; intros et ps er fr l pd Hall; [done |].
  cbn in Hall. apply Forall_cons in Hall as [Hc Hall].
  change (String c u) with (String c EmptyString +:+ u).
  rewrite (feedAll_app _ _ _ _ _ _
             (feedAll_inString c et ps er fr l pd
                (high_not c "034" Hc eq_refl) (high_not c "\" Hc eq_refl)
                ltac:(apply N.ltb_ge; lia))).
  rewrite (IH _ _ _ _ _ _ Hall). norm_append. cbn. by rewrite <- app_assoc.
Qed.

Lemma feedAll_Encoded s out :
  Encoded s out ->
  forall et ps er fr l pd,
    feedAll (Scanner.mkScanner Scanner.InString et ps er)
      (Json.mkBuilder fr (Some l) pd) out
    = Some (Scanner.mkScanner Scanner.InString et ps er,
            Json.mkBuilder fr (Some (rev (list_ascii_of_string out) ++ l)) pd).
Proof.
  induction 1 as [| c s out Hc Hs _ IH | c s out Hc Hs _ IH
                  | last s out _ IH | u s out Hu _ IH];
    intros et ps er fr l pd.
  - reflexivity.
  - unfold Json.htmlSafe in Hs.
    apply andb_true_iff in Hs as [H32 Hs]. apply negb_true_iff in Hs.
    repeat (apply orb_false_iff in Hs as [Hs ?]).
    change (String c out) with (String c EmptyString +:+ out).
    rewrite (feedAll_app _ _ _ _ _ _
               (feedAll_inString c et ps er fr l pd Hs H
                  ltac:(apply N.ltb_ge; by apply N.leb_le))).
    rewrite IH. norm_append. cbn. by rewrite <- app_assoc.
  - rewrite (feedAll_app _ _ _ _ _ _
               (feedAll_escapeByte c et ps er fr l pd Hc Hs)).
    rewrite IH, list_of_append, rev_app_distr. by rewrite <- app_assoc.
  - destruct last.
    + change ("\u202" +:+ String "9"%char out) with ("\u2029" +:+ out).
      rewrite (feedAll_app "\u2029"
                 (Scanner.mkScanner Scanner.InString et ps er)
                 (Json.mkBuilder fr (Some l) pd) out
                 (Scanner.mkScanner Scanner.InString et ps er)
                 (Json.mkBuilder fr
                    (Some (rev (list_ascii_of_string "\u2029") ++ l)) pd)
                 eq_refl).
      rewrite IH, list_of_append, rev_app_distr. by rewrite <- app_assoc.
    + change ("\u202" +:+ String "8"%char out) with ("\u2028" +:+ out).
      rewrite (feedAll_app "\u2028"
                 (Scanner.mkScanner Scanner.InString et ps er)
                 (Json.mkBuilder fr (Some l) pd) out
                 (Scanner.mkScanner Scanner.InString et ps er)
                 (Json.mkBuilder fr
                    (Some (rev (list_ascii_of_string "\u2028") ++ l)) pd)
                 eq_refl).
      rewrite IH, list_of_append, rev_app_distr. by rewrite <- app_assoc.
  - destruct Hu as (_ & _ & Hall).
    rewrite (feedAll_app _ _ _ _ _ _ (feedAll_high u et ps er fr l pd Hall)).
    rewrite IH, list_of_append, rev_app_distr. by rewrite <- app_assoc.
Qed.

(** *** The text written by the encoder *)

Lemma append_assoc_s (x y z : string) : (x +:+ y) +:+ z = x +:+ (y +:+ z).
Proof. induction x as [|c x IH]; norm_append; [done | by rewrite IH]. Qed.

Lemma string_of_list_app l1 l2 :
  string_of_list_ascii (l1 ++ l2)
  = string_of_list_ascii l1 +:+ string_of_list_ascii l2.
Proof. induction l1 as [|c l1 IH]; cbn; norm_append; [done | by rewrite IH]. Qed.

Lemma stripLast_quote out :
  Json.stripLast "034" (out +:+ String "034" EmptyString) = Some out.
Proof.
  induction out as [|c out IH]; norm_append; [done |].
  cbn [Json.stripLast]. rewrite IH.
  destruct out; norm_append; reflexivity.
Qed.

(** The literal collected between two quotes denotes what its text
    unquotes to. *)
Lemma literalValue_string out s :
  Json.unquoteBody 0 out = Some s ->
  Json.literalValue
    (string_of_list_ascii
       (rev ("034"%char :: rev (list_ascii_of_string out) ++ ["034"%char])))
  = Some (Json.Str s).
Proof.
  intros Hs. cbn [rev]. rewrite rev_app_distr, rev_involutive. cbn [rev app].
  cbn [string_of_list_ascii].
  rewrite string_of_list_app, string_of_list_ascii_of_string.
  cbn [string_of_list_ascii].
  unfold Json.literalValue, Json.unquote.
  change (Ascii.eqb "034" "034") with true. cbv beta iota.
  rewrite stripLast_quote. by rewrite Hs.
Qed.

Ltac run_step :=
  match goal with
  | |- context [Scanner.run ?sc ?c] =>
      let v := eval vm_compute in (Scanner.run sc c) in
      change (Scanner.run sc c) with v
  end; cbv beta iota.

Lemma close_member fr k ms out s :
  Json.unquoteBody 0 out = Some s ->
  feedAll
    (Scanner.mkScanner Scanner.InString false [Scanner.parseObjectValue] None)
    (Json.mkBuilder (Json.FObject ms (Some k) :: fr)
       (Some (rev (list_ascii_of_string out) ++ ["034"%char])) None)
    (String "034" (String "," EmptyString))
  = Some (Scanner.mkScanner Scanner.BeginString false
            [Scanner.parseObjectKey] None,
          Json.mkBuilder (Json.FObject ((k, Json.Str s) :: ms) None :: fr)
            None None).
Proof.
  intros Hs. cbn [feedAll]. run_step.
  cbn [Json.feed Json.frames Json.litbuf Json.pending fmap option_fmap
       option_map mbind option_bind].
  run_step.
  cbn [Json.feed Json.finalize Json.frames Json.litbuf Json.pending
       mbind option_bind].
  rewrite (literalValue_string out s Hs).
  reflexivity.
Qed.

Lemma close_object k ms out s :
  Json.unquoteBody 0 out = Some s ->
  Json.parseFrom
    (Scanner.mkScanner Scanner.InString false [Scanner.parseObjectValue] None)
    (Json.mkBuilder [Json.FObject ms (Some k)]
       (Some (rev (list_ascii_of_string out) ++ ["034"%char])) None)
    (String "034" (String "}" (String "010" EmptyString)))
  = Some (Json.Object (rev ((k, Json.Str s) :: ms))).
Proof.
  intros Hs. cbn [Json.parseFrom]. run_step.
  cbn [Json.feed Json.frames Json.litbuf Json.pending fmap option_fmap
       option_map mbind option_bind].
  run_step.
  cbn [Json.feed Json.finalize Json.frames Json.litbuf Json.pending
       mbind option_bind].
  rewrite (literalValue_string out s Hs).
  cbn [mbind option_bind Json.pending Json.attach Json.frames Json.close].
  run_step. reflexivity.
Qed.

Lemma Encode_text id prod st :
  fst (Codec.Encode (mkCreateSimulatedDeviceRequest id prod st))
  = dq "{'hardwareId':'"
      +:+ (Json.appendStringBody 0 id
      +:+ (String "034" (String "," EmptyString)
      +:+ (dq "'productId':'"
      +:+ (Json.appendStringBody 0 prod
      +:+ (String "034" (String "," EmptyString)
      +:+ (dq "'simulatorType':'"
      +:+ (Json.appendStringBody 0 st
      +:+ String "034" (String "}" (String "010" EmptyString))))))))).
Proof.
  unfold Codec.Encode, Json.appendString. cbn [fst csdr_HardwareId
    csdr_Product csdr_SimulatorType].
  repeat match goal with
  | |- context [dq ?x] =>
      let v := eval vm_compute in (dq x) in change (dq x) with v
  end.
  repeat progress (norm_append; rewrite ?append_assoc_s).
  reflexivity.
Qed.

(** The text written by [Encode] parses back to the object of the three
    fields. *)
Lemma parse_Encode id prod st :
  Utf8.valid id = true -> Utf8.valid prod = true -> Utf8.valid st = true ->
  Json.parse (fst (Codec.Encode (mkCreateSimulatedDeviceRequest id prod st)))
  = Some (Json.Object
            [("hardwareId", Json.Str id); ("productId", Json.Str prod);
             ("simulatorType", Json.Str st)]).
Proof.
  intros Hid Hprod Hst.
  apply appendStringBody_Encoded in Hid, Hprod, Hst.
  rewrite Encode_text. unfold Json.parse.
  rewrite (parseFrom_feedAll (dq "{'hardwareId':'") Scanner.reset
             Json.emptyBuilder _
             (Scanner.mkScanner Scanner.InString false
                [Scanner.parseObjectValue] None)
             (Json.mkBuilder [Json.FObject [] (Some "hardwareId")]
                (Some ["034"%char]) None) eq_refl).
  rewrite (parseFrom_feedAll _ _ _ _ _ _
             (feedAll_Encoded _ _ Hid _ _ _ _ _ _)).
  rewrite (parseFrom_feedAll _ _ _ _ _ _
             (close_member _ _ _ _ _ (Encoded_unquote _ _ Hid))).
  rewrite (parseFrom_feedAll (dq "'productId':'")
             (Scanner.mkScanner Scanner.BeginString false
                [Scanner.parseObjectKey] None)
             (Json.mkBuilder
                [Json.FObject [("hardwareId", Json.Str id)] None] None None)
             _
             (Scanner.mkScanner Scanner.InString false
                [Scanner.parseObjectValue] None)
             (Json.mkBuilder
                [Json.FObject [("hardwareId", Json.Str id)]
                   (Some "productId")]
                (Some ["034"%char]) None) eq_refl).
  rewrite (parseFrom_feedAll _ _ _ _ _ _
             (feedAll_Encoded _ _ Hprod _ _ _ _ _ _)).
  rewrite (parseFrom_feedAll _ _ _ _ _ _
             (close_member _ _ _ _ _ (Encoded_unquote _ _ Hprod))).
  rewrite (parseFrom_feedAll (dq "'simulatorType':'")
             (Scanner.mkScanner Scanner.BeginString false
                [Scanner.parseObjectKey] None)
             (Json.mkBuilder
                [Json.FObject
                   [("productId", Json.Str prod); ("hardwareId", Json.Str id)]
                   None] None None)
             _
             (Scanner.mkScanner Scanner.InString false
                [Scanner.parseObjectValue] None)
             (Json.mkBuilder
                [Json.FObject
                   [("productId", Json.Str prod); ("hardwareId", Json.Str id)]
                   (Some "simulatorType")]
                (Some ["034"%char]) None) eq_refl).
  rewrite (parseFrom_feedAll _ _ _ _ _ _
             (feedAll_Encoded _ _ Hst _ _ _ _ _ _)).
  rewrite (close_object _ _ _ _ (Encoded_unquote _ _ Hst)).
  reflexivity.
Qed.

(** *** Decoded strings are well-formed *)

Ltac divlia := zify; Z.to_euclidean_division_equations; lia.

Lemma code_of_byte n : (n < 256)%N -> Byte.code (Utf8.byte n) = n.
Proof. intros H. unfold Byte.code, Utf8.byte. by apply N_ascii_embedding. Qed.

Ltac tests :=
  repeat match goal with
  | |- context [(?a =? ?b)%N] =>
      destruct (N.eqb_spec a b); try lia
  end;
  repeat match goal with
  | |- context [(?a <? ?b)%N] =>
      destruct (N.ltb_spec a b); try lia
  | |- context [(?a <=? ?b)%N] =>
      destruct (N.leb_spec a b); try lia
  end.

Lemma valid_2 a b t :
  (194 <= a < 224)%N -> (128 <= b < 192)%N ->
  Utf8.validFrom 0 (String (Utf8.byte a) (String (Utf8.byte b) t))
  = Utf8.validFrom 0 t.
Proof.
  intros Ha Hb. cbn [Utf8.validFrom]. unfold Utf8.seqLen, Utf8.cont,
    Byte.between.
  rewrite !code_of_byte by lia. tests. reflexivity.
Qed.

Lemma valid_3 a b c t :
  (224 <= a < 240)%N -> (128 <= b < 192)%N -> (128 <= c < 192)%N ->
  (a = 224 -> 160 <= b)%N -> (a = 237 -> b <= 159)%N ->
  Utf8.validFrom 0
    (String (Utf8.byte a) (String (Utf8.byte b) (String (Utf8.byte c) t)))
  = Utf8.validFrom 0 t.
Proof.
  intros Ha Hb Hc H1 H2. cbn [Utf8.validFrom]. unfold Utf8.seqLen, Utf8.cont,
    Byte.between.
  rewrite !code_of_byte by lia. tests; reflexivity.
Qed.

Lemma valid_4 a b c d t :
  (240 <= a < 245)%N -> (128 <= b < 192)%N -> (128 <= c < 192)%N ->
  (128 <= d < 192)%N ->
  (a = 240 -> 144 <= b)%N -> (a = 244 -> b <= 143)%N ->
  Utf8.validFrom 0
    (String (Utf8.byte a) (String (Utf8.byte b) (String (Utf8.byte c)
       (String (Utf8.byte d) t))))
  = Utf8.validFrom 0 t.
Proof.
  intros Ha Hb Hc Hd H1 H2. cbn [Utf8.validFrom]. unfold Utf8.seqLen,
    Utf8.cont, Byte.between.
  rewrite !code_of_byte by lia. tests; reflexivity.
Qed.

Lemma land63 (r : N) : N.land r 63 = (r mod 64)%N.
Proof. change 63%N with (N.ones 6). by rewrite N.land_ones. Qed.

Lemma valid_encodeRune (r : N) t :
  Utf8.validFrom 0 (Utf8.encodeRune r +:+ t) = Utf8.validFrom 0 t.
Proof.
  unfold Utf8.encodeRune, Utf8.isSurrogate.
  rewrite !land63, !N.shiftr_div_pow2.
  change (2 ^ 6)%N with 64%N. change (2 ^ 12)%N with 4096%N.
  change (2 ^ 18)%N with 262144%N.
  destruct (N.ltb_spec r 128).
  { norm_append. cbn [Utf8.validFrom]. unfold Utf8.seqLen.
    rewrite code_of_byte by lia. tests. reflexivity. }
  destruct (N.ltb_spec r 2048).
  { norm_append. apply valid_2; divlia. }
  destruct (N.leb_spec 55296 r); destruct (N.ltb_spec r 57344);
    destruct (N.ltb_spec 1114111 r); cbn [andb orb];
    try reflexivity; try lia.
  all: destruct (N.ltb_spec r 65536); norm_append;
    try (apply valid_3; divlia); try (apply valid_4; divlia).
Qed.

Lemma valid_replacement t :
  Utf8.validFrom 0 (Utf8.replacement +:+ t) = Utf8.validFrom 0 t.
Proof. reflexivity. Qed.

Lemma valid_ascii c t :
  (Byte.code c <? 128)%N = true ->
  Utf8.validFrom 0 (String c t) = Utf8.validFrom 0 t.
Proof. intros H. cbn [Utf8.validFrom]. unfold Utf8.seqLen. by rewrite H. Qed.

Lemma escapeChar_ascii e ch :
  Json.escapeChar e = Some ch -> (Byte.code ch <? 128)%N = true.
Proof.
  destruct e as [[] [] [] [] [] [] [] []]; intros H;
    vm_compute in H; try discriminate; by injection H as <-.
Qed.

Lemma unquoteBody_valid s :
  forall out, Json.unquoteBody 0 s = Some out -> Utf8.valid out = true.
Proof.
  unfold Utf8.valid.
  remember (String.length s) as len eqn:Hlen.
  revert s Hlen. induction len as [len IH] using lt_wf_ind.
  intros [|c s1] Hlen out H; [by injection H as <- |].
  assert (IHs : forall s' out',
            (String.length s' < len)%nat ->
            Json.unquoteBody 0 s' = Some out' ->
            Utf8.validFrom 0 out' = true)
    by (intros s' out' Hl; by apply (IH _ Hl s')).
  clear IH. cbn [Json.unquoteBody] in H.
  destruct (Ascii.eqb c "\") eqn:Hb.
  { subst len.
    repeat (case_match; try discriminate); subst;
      apply fmap_Some in H as (y & Hy & ->);
      apply IHs in Hy; try (cbn; lia);
      rewrite ?valid_encodeRune, ?valid_replacement; try done.
    rewrite valid_ascii; [done |]. by eapply escapeChar_ascii. }
  destruct (Ascii.eqb c "034" || (Byte.code c <? 32)%N); [discriminate |].
  destruct (Byte.code c <? 128)%N eqn:H128.
  { apply fmap_Some in H as (y & Hy & ->). rewrite valid_ascii by done.
    apply (IHs s1); [subst len; cbn; lia | done]. }
  apply N.ltb_ge in H128.
  destruct (Utf8.seqLen (String c s1)) as [n|] eqn:Hseq.
  - destruct (seqLen_split c s1 n H128 Hseq) as (u & rest & -> & <- & Hmb).
    cbn [Nat.pred] in H. rewrite unquote_copy in H.
    apply fmap_Some in H as (y & Hy & ->).
    apply fmap_Some in Hy as (z & Hz & ->).
    apply IHs in Hz; [| subst len; cbn; rewrite length_append; lia].
    destruct Hmb as (_ & Hs & _). specialize (Hs z). revert Hs. norm_append.
    intros Hs. cbn [Utf8.validFrom]. rewrite Hs. cbn [String.length Nat.pred].
    by rewrite validFrom_copy.
  - apply fmap_Some in H as (y & Hy & ->). rewrite valid_replacement.
    apply (IHs s1); [subst len; cbn; lia | done].
Qed.

Lemma unquote_valid lit x : Json.unquote lit = Some x -> Utf8.valid x = true.
Proof.
  unfold Json.unquote. intros H.
  destruct lit as [|q rest]; [discriminate |].
  destruct (Ascii.eqb q "034"); [| discriminate].
  destruct (Json.stripLast "034" rest) as [body|]; [| discriminate].
  by eapply unquoteBody_valid.
Qed.

Lemma literalValue_wellFormed raw v :
  Json.literalValue raw = Some v -> wellFormed v = true.
Proof.
  unfold Json.literalValue. intros H.
  repeat case_match; simplify_eq; try reflexivity.
  apply fmap_Some in H as (x & Hx & ->). by eapply unquote_valid.
Qed.



Lemma forallb_Forall {A} (f : A -> bool) l :
  Forall (fun x => f x = true) l -> forallb f l = true.
Proof. induction 1; cbn; [done |]. by apply andb_true_iff. Qed.

Lemma Forall_rev' {A} (P : A -> Prop) l : Forall P l -> Forall P (rev l).
Proof.
  induction 1; cbn; [constructor |].
  apply Forall_app. split; [done | by constructor].
Qed.

Lemma finalize_wf b b1 :
  wfBuilder b -> Json.finalize b = Some b1 ->
  wfBuilder b1 /\ Json.litbuf b1 = None /\ Json.frames b1 = Json.frames b.
Proof.
  unfold Json.finalize. intros [Hf Hp] H.
  destruct (Json.litbuf b) eqn:El.
  - apply bind_Some in H as (v & Hv & [= <-]). cbn.
    split; [| done]. split; [done |].
    intros v' [= <-]. by eapply literalValue_wellFormed.
  - injection H as <-. by repeat split.
Qed.

Lemma attach_wf b b1 : wfBuilder b -> Json.attach b = Some b1 -> wfBuilder b1.
Proof.
  unfold Json.attach. intros [Hf Hp] H.
  repeat case_match; simplify_eq; split; cbn; try done;
    apply Forall_cons in Hf as [Hf1 Hf]; (constructor; [| done]); cbn in *;
    constructor; auto.
Qed.

Lemma setKey_wf b b1 : wfBuilder b -> Json.setKey b = Some b1 -> wfBuilder b1.
Proof.
  unfold Json.setKey. intros [Hf Hp] H.
  repeat case_match; simplify_eq; split; cbn; try done.
  apply Forall_cons in Hf as [Hf1 Hf]. by constructor.
Qed.

Lemma close_wf b b1 : wfBuilder b -> Json.close b = Some b1 -> wfBuilder b1.
Proof.
  unfold Json.close. intros [Hf Hp] H.
  repeat case_match; simplify_eq; apply Forall_cons in Hf as [Hf1 Hf];
    (split; cbn; [done |]); intros v [= <-]; cbn;
    apply forallb_Forall; by apply Forall_rev'.
Qed.

Lemma open_wf b f b1 :
  wfBuilder b -> wfFrame f -> Json.open b f = Some b1 -> wfBuilder b1.
Proof.
  unfold Json.open. intros [Hf Hp] Hfr H.
  repeat case_match; simplify_eq. split; cbn; [by constructor | done].
Qed.

Lemma feed_wf b c op b1 :
  wfBuilder b -> Json.feed b c op = Some b1 -> wfBuilder b1.
Proof.
  intros Hb H. destruct op; cbn in H.
  - injection H as <-. exact Hb.
  - injection H as <-. exact Hb.
  - eapply open_wf; [done | | done]. constructor.
  - apply bind_Some in H as (b' & H1 & H2).
    eapply setKey_wf; [| done]. by eapply finalize_wf.
  - apply bind_Some in H as (b' & H1 & H2).
    eapply attach_wf; [| done]. by eapply finalize_wf.
  - apply bind_Some in H as (b' & H1 & H2).
    apply bind_Some in H2 as (b'' & H2 & H3).
    eapply close_wf; [| done].
    destruct (finalize_wf _ _ Hb H1) as (Hb' & _).
    destruct (Json.pending b'); [by eapply attach_wf | by injection H2 as <-].
  - eapply open_wf; [done | | done]. constructor.
  - apply bind_Some in H as (b' & H1 & H2).
    eapply attach_wf; [| done]. by eapply finalize_wf.
  - apply bind_Some in H as (b' & H1 & H2).
    apply bind_Some in H2 as (b'' & H2 & H3).
    eapply close_wf; [| done].
    destruct (finalize_wf _ _ Hb H1) as (Hb' & _).
    destruct (Json.pending b'); [by eapply attach_wf | by injection H2 as <-].
  - by eapply finalize_wf.
  - by eapply finalize_wf.
  - discriminate.
Qed.

Lemma result_wf b v :
  wfBuilder b -> Json.result b = Some v -> wellFormed v = true.
Proof.
  unfold Json.result. intros Hb H.
  apply bind_Some in H as (b' & H1 & H2).
  destruct (finalize_wf _ _ Hb H1) as ([_ Hp] & _).
  destruct (Json.frames b'); [by apply Hp | discriminate].
Qed.

Lemma parseFrom_wf data :
  forall sc b v,
    wfBuilder b -> Json.parseFrom sc b data = Some v -> wellFormed v = true.
Proof.
  induction data as [|c data IH]; intros sc b v Hb; cbn [Json.parseFrom].
  - destruct (Json.eofOk sc); [by apply result_wf | discriminate].
  - destruct (Scanner.run sc c) as [sc1 op].
    destruct op; try (by apply result_wf); intros H;
      apply bind_Some in H as (b' & H1 & H2);
      (eapply IH; [| exact H2]); by eapply feed_wf.
Qed.

Lemma parse_wf data v : Json.parse data = Some v -> wellFormed v = true.
Proof.
  apply parseFrom_wf. split; [constructor | discriminate].
Qed.


Lemma Forall_forallb {A} (f : A -> bool) l :
  forallb f l = true -> Forall (fun x => f x = true) l.
Proof.
  induction l as [|x l IH]; cbn; [constructor |].
  intros H. apply andb_true_iff in H as [? ?]. constructor; auto.
Qed.

Lemma storeString_valid f t v cur :
  Utf8.valid cur = true -> wellFormed v = true ->
  Utf8.valid (fst (Json.storeString f t v cur)) = true.
Proof. intros Hc Hv. by destruct v. Qed.

Lemma storeDeviceLinkOperationField_valid acc m :
  validDevice (fst acc) -> wellFormed (snd m) = true ->
  validDevice (fst (Codec.storeDeviceLinkOperationField acc m)).
Proof.
  destruct acc as [d e]. cbn [fst]. intros [Hi Hp] Hm.
  unfold Codec.storeDeviceLinkOperationField.
  destruct (Json.findField _ _) as [[|i]|]; [| | by split].
  - pose proof (storeString_valid
                  "DeviceLinkOperation.deviceLinkOperation.identifier"
                  (Codec.pkg "HardwareId") (snd m) _ Hi Hm) as H.
    destruct (Json.storeString _ _ _ (dlo_HardwareId d)). by split.
  - pose proof (storeString_valid
                  "DeviceLinkOperation.deviceLinkOperation.product"
                  (Codec.pkg "Product") (snd m) _ Hp Hm) as H.
    destruct (Json.storeString _ _ _ (dlo_Product d)). by split.
Qed.

Lemma storeDeviceLinkOperation_valid v cur :
  validDevice cur -> wellFormed v = true ->
  validDevice (fst (Codec.storeDeviceLinkOperation v cur)).
Proof.
  intros Hc Hv. destruct v; try exact Hc. cbn in Hv.
  apply Forall_forallb in Hv. unfold Codec.storeDeviceLinkOperation.
  assert (H : validDevice (fst (cur, @None Json.error))) by exact Hc.
  revert H. generalize (cur, @None Json.error).
  induction Hv as [|m ms Hm _ IH]; intros acc Hacc; [exact Hacc |].
  cbn [fold_left]. apply IH.
  by apply storeDeviceLinkOperationField_valid.
Qed.

Lemma storeCreateThingRequest_valid v cur :
  validDevice (ctr_DeviceLinkOperation cur) -> wellFormed v = true ->
  validDevice
    (ctr_DeviceLinkOperation (fst (Codec.storeCreateThingRequest v cur))).
Proof.
  intros Hc Hv. destruct v; try exact Hc. cbn in Hv.
  apply Forall_forallb in Hv. unfold Codec.storeCreateThingRequest.
  assert (H : validDevice
                (ctr_DeviceLinkOperation (fst (cur, @None Json.error))))
    by exact Hc.
  revert H. generalize (cur, @None Json.error).
  induction Hv as [|m ms Hm _ IH]; intros acc Hacc; [exact Hacc |].
  cbn [fold_left]. apply IH.
  destruct acc as [c e]. unfold Codec.storeCreateThingRequestField.
  destruct (Json.findField _ _); [| exact Hacc].
  pose proof (storeDeviceLinkOperation_valid (snd m) _ Hacc Hm) as H.
  destruct (Codec.storeDeviceLinkOperation _ _). exact H.
Qed.

(** Whatever is decoded is well-formed UTF-8. *)
Lemma Decode_valid body cur :
  validDevice (ctr_DeviceLinkOperation cur) ->
  validDevice (ctr_DeviceLinkOperation (fst (Codec.Decode body cur))).
Proof.
  intros Hc. unfold Codec.Decode.
  destruct (Json.readValue body) as [n|e]; [| exact Hc].
  destruct (Json.parse (Json.take n body)) as [v|] eqn:Hp; [| exact Hc].
  apply storeCreateThingRequest_valid; [exact Hc | by eapply parse_wf].
Qed.

(** *** The provisioning request *)

Lemma NewRequest_POST wd u b :
  http_NewRequest wd "POST" u b
  = match url_Parse wd u with
    | Failure e => Failure e
    | Success u' => Success (mkRequest "POST" u' ∅ (NopCloser b))
    end.
Proof. reflexivity. Qed.

Lemma NewRequest_inv wd u b req :
  http_NewRequest wd "POST" u b = Success req ->
  exists u', url_Parse wd u = Success u' /\
             req = mkRequest "POST" u' ∅ (NopCloser b).
Proof.
  unfold http_NewRequest. cbn. intros H.
  destruct (url_Parse wd u) as [u'|]; [| discriminate].
  injection H as <-. by exists u'.
Qed.

(** The request handed to the transport: a POST whose URL is the parse of
    the base URL followed by the device path, whose body is the encoding of
    the decoded identifier and product with the constant simulator type. *)
Lemma outbound_request wd p w r body cr req :
  io_ReadAll (Body r) = (body, None) ->
  Codec.Decode body zeroCreateThingRequest = (cr, None) ->
  req ∈ outbound (run (ServeHTTP wd p w r)) ->
  Method req = "POST" /\
  (exists u, url_Parse wd (iotHubUrl p +:+ devicePath) = Success u /\
             url_Parse wd u = Success (URL req)) /\
  io_ReadAll (Body req) = (fst (Codec.Encode (provisioning cr)), None).
Proof.
  intros Hb Hd. pipeline wd p r; cbn; intros Hin; sent Hin; simplify_eq;
    rewrite Hd in Hdec; simplify_eq;
    apply NewRequest_inv in Hnew as (u' & Hu' & ->);
    (split; [reflexivity |]); (split; [by exists url0 |]); reflexivity.
Qed.

Lemma decoded_valid body cr e :
  Codec.Decode body zeroCreateThingRequest = (cr, e) ->
  validDevice (ctr_DeviceLinkOperation cr).
Proof.
  intros H. change cr with (fst (cr, e)). rewrite <- H.
  apply Decode_valid. by split.
Qed.

Lemma outbound_body_parses wd p w r body cr req :
  io_ReadAll (Body r) = (body, None) ->
  Codec.Decode body zeroCreateThingRequest = (cr, None) ->
  req ∈ outbound (run (ServeHTTP wd p w r)) ->
  Json.parse (fst (io_ReadAll (Body req)))
  = Some (Json.Object
            [("hardwareId",
              Json.Str (dlo_HardwareId (ctr_DeviceLinkOperation cr)));
             ("productId",
              Json.Str (dlo_Product (ctr_DeviceLinkOperation cr)));
             ("simulatorType", Json.Str SimulatorTypeManual)]).
Proof.
  intros Hb Hd Hin.
  destruct (outbound_request wd p w r body cr req Hb Hd Hin) as (_ & _ & ->).
  destruct (decoded_valid _ _ _ Hd) as [Hi Hp].
  cbn [fst]. by apply parse_Encode.
Qed.

(** C5: for a payload that decodes, every outbound request is a POST, its
    URL is what the URL library makes of the configured base URL followed by
    [/simulator/simulated/device], and its body parses to the object with
    [hardwareId] the inbound identifier, [productId] the inbound product and
    [simulatorType] the constant MANUAL; the request is made as soon as the
    URL library accepts that text; for the tracker payload the body is the
    object of dev-123, TRACKER and MANUAL. *)
Theorem provisioning_request :
  (forall wd p w r body cr req,
     io_ReadAll (Body r) = (body, None) ->
     Codec.Decode body zeroCreateThingRequest = (cr, None) ->
     req ∈ outbound (run (ServeHTTP wd p w r)) ->
     Method req = "POST" /\
     (exists u,
        url_Parse wd (iotHubUrl p +:+ "/simulator/simulated/device")
          = Success u /\
        url_Parse wd u = Success (URL req)) /\
     Json.parse (fst (io_ReadAll (Body req)))
     = Some (Json.Object
               [("hardwareId",
                 Json.Str (dlo_HardwareId (ctr_DeviceLinkOperation cr)));
                ("productId",
                 Json.Str (dlo_Product (ctr_DeviceLinkOperation cr)));
                ("simulatorType", Json.Str "MANUAL")])) /\
  (forall wd p w r body cr u u',
     io_ReadAll (Body r) = (body, None) ->
     Codec.Decode body zeroCreateThingRequest = (cr, None) ->
     url_Parse wd (iotHubUrl p +:+ "/simulator/simulated/device")
       = Success u ->
     url_Parse wd u = Success u' ->
     exists req, outbound (run (ServeHTTP wd p w r)) = [req]) /\
  Codec.Decode trackerPayload zeroCreateThingRequest
    = (mkCreateThingRequest (mkDeviceLinkOperation "dev-123" "TRACKER"),
       None) /\
  fst (Codec.Encode
         (provisioning
            (mkCreateThingRequest (mkDeviceLinkOperation "dev-123" "TRACKER"))))
    = dq "{'hardwareId':'dev-123','productId':'TRACKER','simulatorType':'MANUAL'}"
        +:+ String "010" EmptyString.
Proof.
  split; [| split; [| by vm_compute]].
  - intros wd p w r body cr req Hb Hd Hin.
    destruct (outbound_request wd p w r body cr req Hb Hd Hin)
      as (Hm & Hu & _).
    split; [exact Hm |]. split; [exact Hu |].
    by apply (outbound_body_parses wd p w r body).
  - intros wd p w r body cr u u' Hb Hd Hu Hu'.
    unfold run, ServeHTTP. rewrite Hb, Hd, Hu. cbn [Codec.Encode].
    rewrite NewRequest_POST, Hu'. cbn [bind emit].
    repeat case_match; cbn; eauto.
Qed.

(** C10: the product is not checked against any enumeration.  A value with
    any two strings under [identifier] and [product] is stored as it is;
    whatever was decoded is what the outbound body carries as [hardwareId]
    and [productId]; a missing field, or a missing envelope, leaves the
    empty string. *)
Theorem product_not_validated :
  (forall i x,
     Codec.storeCreateThingRequest
       (Json.Object
          [("deviceLinkOperation",
            Json.Object [("identifier", Json.Str i); ("product", Json.Str x)])])
       zeroCreateThingRequest
     = (mkCreateThingRequest (mkDeviceLinkOperation i x), None)) /\
  (forall wd p w r body cr req,
     io_ReadAll (Body r) = (body, None) ->
     Codec.Decode body zeroCreateThingRequest = (cr, None) ->
     req ∈ outbound (run (ServeHTTP wd p w r)) ->
     Json.parse (fst (io_ReadAll (Body req)))
     = Some (Json.Object
               [("hardwareId",
                 Json.Str (dlo_HardwareId (ctr_DeviceLinkOperation cr)));
                ("productId",
                 Json.Str (dlo_Product (ctr_DeviceLinkOperation cr)));
                ("simulatorType", Json.Str "MANUAL")])) /\
  Codec.Decode
    (dq "{'deviceLinkOperation':{'identifier':'dev-1','product':'BANANA'}}")
    zeroCreateThingRequest
    = (mkCreateThingRequest (mkDeviceLinkOperation "dev-1" "BANANA"), None) /\
  Codec.Decode (dq "{'deviceLinkOperation':{'identifier':'dev-1'}}")
    zeroCreateThingRequest
    = (mkCreateThingRequest (mkDeviceLinkOperation "dev-1" EmptyString),
       None) /\
  Codec.Decode (dq "{'deviceLinkOperation':{'product':'BANANA'}}")
    zeroCreateThingRequest
    = (mkCreateThingRequest (mkDeviceLinkOperation EmptyString "BANANA"),
       None) /\
  Codec.Decode "{}" zeroCreateThingRequest
    = (mkCreateThingRequest
         (mkDeviceLinkOperation EmptyString EmptyString), None).
Proof.
  split; [| split; [| by vm_compute]].
  - intros i x. reflexivity.
  - intros wd p w r body cr req Hb Hd Hin.
    by apply (outbound_body_parses wd p w r body).
Qed.

(** *** One call, one reply *)

(** X1: handling a request makes at most one outbound call; when it makes
    one, the trace is that call followed by exactly one reply, which is the
    not-found reply for the inbound writer and request or the call of the
    next handler with the inbound writer and the request with its body put
    back; when it makes none, the only event is the not-found reply. *)
Theorem single_outbound_call wd p w r :
  (length (outbound (run (ServeHTTP wd p w r))) <= 1)%nat /\
  (forall req, req ∈ outbound (run (ServeHTTP wd p w r)) ->
     run (ServeHTTP wd p w r) = [Do req; NotFound w r] \/
     run (ServeHTTP wd p w r)
     = [Do req;
        Next (next p) w (restored r (fst (io_ReadAll (Body r))))]) /\
  (outbound (run (ServeHTTP wd p w r)) = [] <->
   run (ServeHTTP wd p w r) = [NotFound w r]).
Proof.
  pipeline wd p r; cbn; (split; [lia |]);
    (split; [intros q Hin; sent Hin; auto | split; congruence]).
Qed.

(** X3: the answer of the hub is looked at only through its status code and
    through whether its body can be read to the end: what the body holds and
    the status text change nothing. *)
Theorem answer_seen_through_status wd1 wd2 p w r :
  (forall s, url_Parse wd1 s = url_Parse wd2 s) ->
  rangeHeader wd1 (Header r) = rangeHeader wd2 (Header r) ->
  (forall q, verdict (client_Do wd1 q) = verdict (client_Do wd2 q)) ->
  seen <$> run (ServeHTTP wd1 p w r) = seen <$> run (ServeHTTP wd2 p w r).
Proof.
  intros Hu Hr Hv. unfold run, ServeHTTP.
  destruct (io_ReadAll (Body r)) as [body [e|]]; [reflexivity |].
  destruct (Codec.Decode body zeroCreateThingRequest) as [cr [e|]];
    [reflexivity |].
  rewrite <- Hu.
  destruct (url_Parse wd1 _) as [u|e]; [| reflexivity].
  cbn [Codec.Encode]. rewrite !NewRequest_POST, <- Hu.
  destruct (url_Parse wd1 u) as [u'|e]; [| reflexivity].
  cbn [bind emit Header withHeader]. rewrite <- Hr.
  match goal with
  | |- context [client_Do wd1 ?q] => specialize (Hv q); revert Hv;
      destruct (client_Do wd1 q) as [a1|e1];
      destruct (client_Do wd2 q) as [a2|e2]
  end; cbn; intros Hv; try discriminate; try reflexivity.
  injection Hv as Hc Hb. rewrite Hc.
  destruct ((StatusCode a2 >=? 300) || (StatusCode a2 <? 200));
    [reflexivity |].
  destruct (io_ReadAll (RespBody a1)) as [b1 [x1|]];
    destruct (io_ReadAll (RespBody a2)) as [b2 [x2|]];
    cbn in *; try discriminate; reflexivity.
Qed.

(** X4: [New] returns no error and a client with a timeout of ten seconds;
    the plugin it builds sends the configured key, calls the configured base
    URL followed by the fixed path, and forwards to the handler and writer it
    was given. *)
Theorem New_configures next (config : Config) name wd w r :
  let built := @New Handler next config name in
  snd built = None /\
  Timeout (client (fst built)) = 10000000000 /\
  (forall req, req ∈ outbound (run (ServeHTTP wd (fst built) w r)) ->
     Header.Get (Header req) "X-Subscription-Key" = SubscriptionKey config /\
     exists u,
       url_Parse wd (IotHubUrl config +:+ "/simulator/simulated/device")
         = Success u /\ url_Parse wd u = Success (URL req)) /\
  (forall h w' r', Next h w' r' ∈ run (ServeHTTP wd (fst built) w r) ->
     h = next /\ w' = w).
Proof.
  cbv zeta. split; [reflexivity |]. split; [reflexivity |].
  set (p := fst (New next config name)).
  split.
  - pipeline wd p r; cbn; intros q Hin; sent Hin.
    all: apply NewRequest_inv in Hnew as (u' & Hu' & ->);
      (split; [| by exists url0]);
      unfold Header.Get; subst oreq; cbn [Header withHeader];
      by rewrite Values_Set.
  - pipeline wd p r; cbn; intros h w' r' Hin;
      repeat (apply elem_of_cons in Hin as [Hin | Hin]; try discriminate);
      try (by apply elem_of_nil in Hin).
    by injection Hin as -> -> ->.
Qed.

(** *** Headers under non-canonical keys *)

(** X5: [Header.Add] canonicalises the key: apart from the subscription key,
    the outbound header holds under each key the values of all inbound
    entries whose key has that canonical form, in the order [range] visits
    them; so every inbound value is found again under its own key, however
    the key is spelt. *)
Theorem headers_merged_by_canonical_key wd p w r req :
  req ∈ outbound (run (ServeHTTP wd p w r)) ->
  (forall k, k <> "X-Subscription-Key" ->
     default [] (Header req !! k)
     = valuesUnder k (rangeHeader wd (Header r))) /\
  (forall h vs sv,
     (h, vs) ∈ rangeHeader wd (Header r) -> sv ∈ vs ->
     Header.CanonicalMIMEHeaderKey h <> "X-Subscription-Key" ->
     sv ∈ Header.Values (Header req) h).
Proof.
  intros Hin.
  assert (Hmain : forall k, k <> "X-Subscription-Key" ->
            default [] (Header req !! k)
            = valuesUnder k (rangeHeader wd (Header r))).
  { intros k Hk. revert Hin.
    pipeline wd p r; cbn; intros Hin; sent Hin;
      subst oreq; cbn [Header withHeader]; unfold Header.Set_;
      (rewrite lookup_insert_ne;
         [| intros Heq; apply Hk; rewrite <- Heq; reflexivity]);
      rewrite (NewRequest_header _ _ _ _ _ Hnew), copyHeaders_values;
      by rewrite lookup_empty. }
  split; [exact Hmain |].
  intros h vs sv He Hsv Hh. unfold Header.Values.
  rewrite (Hmain _ Hh). unfold valuesUnder.
  apply list_elem_of_In, in_concat. exists vs.
  split; [| by apply list_elem_of_In].
  apply list_elem_of_In, (list_elem_of_fmap_2 snd _ (h, vs)).
  apply list_elem_of_filter. by split.
Qed.

End Properties.

(** * Further properties *)

Ltac norm_append := rewrite ?append_cons, ?append_nil.

(** ** Reading the restored body *)

Lemma take_skip n s : Json.take n s +:+ skip n s = s.
Proof.
  revert s. induction n as [|n IH]; intros [|c s]; cbn; try done.
  norm_append. by rewrite IH.
Qed.

Lemma take_skip_length n s :
  Json.take n s +:+ skip (String.length (Json.take n s)) s = s.
Proof.
  revert s. induction n as [|n IH]; intros [|c s]; cbn; try done.
  norm_append. by rewrite IH.
Qed.

Lemma skip_add i k s : skip (i + k) s = skip k (skip i s).
Proof.
  revert s. induction i as [|i IH]; intros s; [done |].
  destruct s as [|c s]; cbn; [by destruct k | apply IH].
Qed.

Lemma length_take n s :
  String.length (Json.take n s) = Nat.min n (String.length s).
Proof.
  revert s. induction n as [|n IH]; intros [|c s]; cbn; try done.
  by rewrite IH.
Qed.

Lemma length_skip n s :
  String.length (skip n s) = (String.length s - n)%nat.
Proof.
  revert s. induction n as [|n IH]; intros [|c s]; cbn; try done.
Qed.

Lemma skip_all n s : (String.length s <= n)%nat -> skip n s = EmptyString.
Proof.
  revert s. induction n as [|n IH]; intros [|c s]; cbn; try done; try lia.
  intros H. apply IH. lia.
Qed.

Lemma append_assoc_s' (x y z : string) : (x +:+ y) +:+ z = x +:+ (y +:+ z).
Proof. induction x as [|c x IH]; norm_append; [done | by rewrite IH]. Qed.

(** Reads neither lose nor repeat a byte: what has been read, followed by
    what is left, is what was left before. *)
Lemma readChunks_split lens :
  forall r r' s e,
    readChunks r lens = (r', s, e) ->
    rd_s r' = rd_s r /\
    s +:+ skip (rd_i r') (rd_s r') = skip (rd_i r) (rd_s r).
Proof.
  induction lens as [|len lens IH]; intros r r' s e; cbn [readChunks].
  - intros [= <- <- <-]. by norm_append.
  - unfold BytesReader_Read.
    destruct (String.length (rd_s r) <=? rd_i r)%nat eqn:Hend.
    + intros [= <- <- <-]. by norm_append.
    + destruct (readChunks _ lens) as [[r2 s2] e2] eqn:Hr.
      intros [= <- <- <-].
      destruct (IH _ _ _ _ Hr) as [Hs Hsplit]. cbn [rd_s rd_i] in *.
      split; [done |].
      rewrite append_assoc_s', Hsplit, skip_add. apply take_skip_length.
Qed.

Lemma readChunks_EOF lens :
  forall r,
    Forall (fun n => 0 < n)%nat lens ->
    (rd_i r <= String.length (rd_s r))%nat ->
    (String.length (rd_s r) - rd_i r < length lens)%nat ->
    exists r' s, readChunks r lens = (r', s, Some "EOF") /\
                 rd_i r' = String.length (rd_s r).
Proof.
  induction lens as [|len lens IH]; intros r Hpos Hi Hlen;
    [cbn in Hlen; lia |].
  apply Forall_cons in Hpos as [Hl Hpos]. cbn [readChunks].
  unfold BytesReader_Read.
  destruct (String.length (rd_s r) <=? rd_i r)%nat eqn:Hend.
  - apply Nat.leb_le in Hend. exists r, EmptyString. split; [done | lia].
  - apply Nat.leb_gt in Hend.
    set (r1 := mkBytesReader _ _).
    assert (Hk : String.length (Json.take len (skip (rd_i r) (rd_s r)))
                 = Nat.min len (String.length (rd_s r) - rd_i r))
      by (by rewrite length_take, length_skip).
    destruct (IH r1 Hpos) as (r' & s & Hr & Hi');
      [subst r1; cbn; lia | subst r1; cbn in *; lia |].
    rewrite Hr. eexists _, _. split; [reflexivity | exact Hi'].
Qed.

(** X6: the reader put back on the request, read into buffers of any
    non-zero sizes ([noopCloser.Read] hands each call to the reader), gives
    the original bytes, none lost and none twice, and then [EOF]; from then
    on reading it gives nothing more. *)
Theorem restored_body_reads_back (b : string) (lens : list nat) :
  Forall (fun n => 0 < n)%nat lens ->
  (String.length b < length lens)%nat ->
  exists r',
    readChunks (bytes_NewReader b) lens = (r', b, Some "EOF") /\
    io_ReadAll (NoOpCloser r') = (EmptyString, None) /\
    forall len, noopCloser_Read r' len = (NoOpCloser r', EmptyString, Some "EOF").
Proof.
  intros Hpos Hlen.
  destruct (readChunks_EOF lens (bytes_NewReader b) Hpos) as (r' & s & Hr & Hi);
    [cbn; lia | cbn; lia |].
  destruct (readChunks_split _ _ _ _ _ Hr) as [Hs Hsplit].
  cbn [bytes_NewReader rd_s rd_i skip] in *.
  assert (Hrest : skip (rd_i r') (rd_s r') = EmptyString)
    by (apply skip_all; rewrite Hs; lia).
  rewrite Hrest in Hsplit.
  assert (s = b) as ->.
  { rewrite <- Hsplit. clear. induction s; norm_append; [done | by f_equal]. }
  exists r'. split; [exact Hr |]. split.
  - cbn. by rewrite Hrest.
  - intros len. unfold noopCloser_Read, BytesReader_Read.
    rewrite Hs, Hi. cbn. by rewrite Nat.leb_refl.
Qed.

(** ** Decoding what a client marshals *)

Lemma scanAll_app s1 :
  forall sc s2 sc1,
    scanAll sc s1 = Some sc1 -> scanAll sc (s1 +:+ s2) = scanAll sc1 s2.
Proof.
  induction s1 as [|c s1 IH]; intros sc s2 sc1; norm_append.
  - by intros [= <-].
  - cbn [scanAll]. destruct (Scanner.run sc c) as [sc' op].
    destruct (ordinary op); [apply IH | done].
Qed.

Lemma readValueFrom_scanAll s1 :
  forall all sc s2 k sc1,
    scanAll sc s1 = Some sc1 ->
    Json.readValueFrom all sc (s1 +:+ s2) k
    = Json.readValueFrom all sc1 s2 (k + String.length s1).
Proof.
  induction s1 as [|c s1 IH]; intros all sc s2 k sc1; norm_append.
  - intros [= <-]. cbn. by rewrite Nat.add_0_r.
  - cbn [scanAll Json.readValueFrom String.length].
    destruct (Scanner.run sc c) as [sc' op].
    destruct op; cbn [ordinary]; try done; intros H;
      rewrite (IH all _ s2 (S k) _ H); f_equal; lia.
Qed.

Lemma scanAll_escapeByte c et ps er :
  (Byte.code c <? 128)%N = true -> Json.htmlSafe c = false ->
  scanAll (Scanner.mkScanner Scanner.InString et ps er) (Json.escapeByte c)
  = Some (Scanner.mkScanner Scanner.InString et ps er).
Proof.
  destruct c as [[] [] [] [] [] [] [] []]; intros Hc Hs;
    try (vm_compute in Hc; discriminate);
    try (vm_compute in Hs; discriminate);
    reflexivity.
Qed.

Lemma scanAll_inString c et ps er :
  Ascii.eqb c "034" = false -> Ascii.eqb c "\" = false ->
  (Byte.code c <? 32)%N = false ->
  scanAll (Scanner.mkScanner Scanner.InString et ps er) (String c EmptyString)
  = Some (Scanner.mkScanner Scanner.InString et ps er).
Proof.
  intros Hq Hb H32. cbn [scanAll]. unfold Scanner.run. cbn [Scanner.step].
  unfold Scanner.stateInString. by rewrite Hq, Hb, H32.
Qed.

Lemma scanAll_high u :
  forall et ps er,
    Forall (fun c => (128 <= Byte.code c)%N) (list_ascii_of_string u) ->
    scanAll (Scanner.mkScanner Scanner.InString et ps er) u
    = Some (Scanner.mkScanner Scanner.InString et ps er).
Proof.
  induction u as [|c u IH]; intros et ps er Hall; [done |].
  cbn in Hall. apply Forall_cons in Hall as [Hc Hall].
  change (String c u) with (String c EmptyString +:+ u).
  rewrite (scanAll_app _ _ _ _
             (scanAll_inString c et ps er
                (high_not c "034" Hc eq_refl) (high_not c "\" Hc eq_refl)
                ltac:(apply N.ltb_ge; lia))).
  by apply IH.
Qed.

Lemma scanAll_Encoded s out :
  Encoded s out ->
  forall et ps er,
    scanAll (Scanner.mkScanner Scanner.InString et ps er) out
    = Some (Scanner.mkScanner Scanner.InString et ps er).
Proof.
  induction 1 as [| c s out Hc Hs _ IH | c s out Hc Hs _ IH
                  | last s out _ IH | u s out Hu _ IH];
    intros et ps er.
  - reflexivity.
  - unfold Json.htmlSafe in Hs.
    apply andb_true_iff in Hs as [H32 Hs]. apply negb_true_iff in Hs.
    repeat (apply orb_false_iff in Hs as [Hs ?]).
    change (String c out) with (String c EmptyString +:+ out).
    rewrite (scanAll_app _ _ _ _
               (scanAll_inString c et ps er Hs H
                  ltac:(apply N.ltb_ge; by apply N.leb_le))).
    apply IH.
  - rewrite (scanAll_app _ _ _ _ (scanAll_escapeByte c et ps er Hc Hs)).
    apply IH.
  - destruct last.
    + change ("\u202" +:+ String "9"%char out) with ("\u2029" +:+ out).
      rewrite (scanAll_app "\u2029"
                 (Scanner.mkScanner Scanner.InString et ps er) out
                 (Scanner.mkScanner Scanner.InString et ps er) eq_refl).
      apply IH.
    + change ("\u202" +:+ String "8"%char out) with ("\u2028" +:+ out).
      rewrite (scanAll_app "\u2028"
                 (Scanner.mkScanner Scanner.InString et ps er) out
                 (Scanner.mkScanner Scanner.InString et ps er) eq_refl).
      apply IH.
  - destruct Hu as (_ & _ & Hall).
    rewrite (scanAll_app _ _ _ _ (scanAll_high u et ps er Hall)).
    apply IH.
Qed.

Ltac run_step :=
  match goal with
  | |- context [Scanner.run ?sc ?c] =>
      let v := eval vm_compute in (Scanner.run sc c) in
      change (Scanner.run sc c) with v
  end; cbv beta iota.

Lemma marshal_text i x :
  marshalCreateThingRequest (mkCreateThingRequest (mkDeviceLinkOperation i x))
  = dq "{'deviceLinkOperation':{'identifier':'"
      +:+ (Json.appendStringBody 0 i
      +:+ (String "034" (String "," EmptyString)
      +:+ (dq "'product':'"
      +:+ (Json.appendStringBody 0 x
      +:+ String "034" (String "}" (String "}" EmptyString)))))).
Proof.
  unfold marshalCreateThingRequest, Json.appendString.
  cbn [ctr_DeviceLinkOperation dlo_HardwareId dlo_Product].
  repeat match goal with
  | |- context [dq ?x] =>
      let v := eval vm_compute in (dq x) in change (dq x) with v
  end.
  repeat progress (norm_append; rewrite ?append_assoc_s).
  reflexivity.
Qed.

Lemma take_all s : Json.take (String.length s) s = s.
Proof. induction s as [|c s IH]; cbn; [done | by rewrite IH]. Qed.

Lemma marshal_readValue i x :
  Utf8.valid i = true -> Utf8.valid x = true ->
  let text := marshalCreateThingRequest
                (mkCreateThingRequest (mkDeviceLinkOperation i x)) in
  Json.readValue text = Json.Ok (String.length text).
Proof.
  intros Hi Hx. cbv zeta.
  apply appendStringBody_Encoded in Hi, Hx.
  unfold Json.readValue.
  generalize (marshalCreateThingRequest
                (mkCreateThingRequest (mkDeviceLinkOperation i x))) at 1.
  intros all. rewrite marshal_text.
  rewrite (readValueFrom_scanAll
             (dq "{'deviceLinkOperation':{'identifier':'") all Scanner.reset
             _ 0
             (Scanner.mkScanner Scanner.InString false
                [Scanner.parseObjectValue; Scanner.parseObjectValue] None)
             eq_refl).
  rewrite (readValueFrom_scanAll _ all _ _ _ _ (scanAll_Encoded _ _ Hi _ _ _)).
  rewrite (readValueFrom_scanAll (String "034" (String "," EmptyString)) all
             (Scanner.mkScanner Scanner.InString false
                [Scanner.parseObjectValue; Scanner.parseObjectValue] None)
             _ _
             (Scanner.mkScanner Scanner.BeginString false
                [Scanner.parseObjectValue; Scanner.parseObjectKey] None)
             eq_refl).
  rewrite (readValueFrom_scanAll (dq "'product':'") all
             (Scanner.mkScanner Scanner.BeginString false
                [Scanner.parseObjectValue; Scanner.parseObjectKey] None)
             _ _
             (Scanner.mkScanner Scanner.InString false
                [Scanner.parseObjectValue; Scanner.parseObjectValue] None)
             eq_refl).
  rewrite (readValueFrom_scanAll _ all _ _ _ _ (scanAll_Encoded _ _ Hx _ _ _)).
  cbn [Json.readValueFrom]. run_step. run_step.
  cbn [Json.readValueFrom].
  match goal with
  | |- context [Scanner.stateEndValue ?sc ?c] =>
      let v := eval vm_compute in (Scanner.stateEndValue sc c) in
      change (Scanner.stateEndValue sc c) with v
  end. cbv beta iota. cbn [Json.isScanEnd].
  run_step.
  match goal with
  | |- context [Scanner.stateEndValue ?sc ?c] =>
      let v := eval vm_compute in (Scanner.stateEndValue sc c) in
      change (Scanner.stateEndValue sc c) with v
  end. cbv beta iota. cbn [Json.isScanEnd].
  f_equal. rewrite !length_append. cbn [String.length]. lia.
Qed.

Lemma close_inner_member fr k ms out s :
  Json.unquoteBody 0 out = Some s ->
  feedAll
    (Scanner.mkScanner Scanner.InString false
       [Scanner.parseObjectValue; Scanner.parseObjectValue] None)
    (Json.mkBuilder (Json.FObject ms (Some k) :: fr)
       (Some (rev (list_ascii_of_string out) ++ ["034"%char])) None)
    (String "034" (String "," EmptyString))
  = Some (Scanner.mkScanner Scanner.BeginString false
            [Scanner.parseObjectValue; Scanner.parseObjectKey] None,
          Json.mkBuilder (Json.FObject ((k, Json.Str s) :: ms) None :: fr)
            None None).
Proof.
  intros Hs. cbn [feedAll]. run_step.
  cbn [Json.feed Json.frames Json.litbuf Json.pending fmap option_fmap
       option_map mbind option_bind].
  run_step.
  cbn [Json.feed Json.finalize Json.frames Json.litbuf Json.pending
       mbind option_bind].
  rewrite (literalValue_string out s Hs).
  reflexivity.
Qed.

Lemma close_envelope k0 k ms out s :
  Json.unquoteBody 0 out = Some s ->
  Json.parseFrom
    (Scanner.mkScanner Scanner.InString false
       [Scanner.parseObjectValue; Scanner.parseObjectValue] None)
    (Json.mkBuilder [Json.FObject ms (Some k); Json.FObject [] (Some k0)]
       (Some (rev (list_ascii_of_string out) ++ ["034"%char])) None)
    (String "034" (String "}" (String "}" EmptyString)))
  = Some (Json.Object [(k0, Json.Object (rev ((k, Json.Str s) :: ms)))]).
Proof.
  intros Hs. cbn [Json.parseFrom]. run_step.
  cbn [Json.feed Json.frames Json.litbuf Json.pending fmap option_fmap
       option_map mbind option_bind].
  run_step.
  cbn [Json.feed Json.finalize Json.frames Json.litbuf Json.pending
       mbind option_bind].
  rewrite (literalValue_string out s Hs).
  cbn [mbind option_bind Json.pending Json.attach Json.frames Json.close].
  run_step. reflexivity.
Qed.

Lemma marshal_parse i x :
  Utf8.valid i = true -> Utf8.valid x = true ->
  Json.parse (marshalCreateThingRequest
                (mkCreateThingRequest (mkDeviceLinkOperation i x)))
  = Some (Json.Object
            [("deviceLinkOperation",
              Json.Object
                [("identifier", Json.Str i); ("product", Json.Str x)])]).
Proof.
  intros Hi Hx. apply appendStringBody_Encoded in Hi, Hx.
  rewrite marshal_text. unfold Json.parse.
  rewrite (parseFrom_feedAll (dq "{'deviceLinkOperation':{'identifier':'")
             Scanner.reset Json.emptyBuilder _
             (Scanner.mkScanner Scanner.InString false
                [Scanner.parseObjectValue; Scanner.parseObjectValue] None)
             (Json.mkBuilder
                [Json.FObject [] (Some "identifier");
                 Json.FObject [] (Some "deviceLinkOperation")]
                (Some ["034"%char]) None) eq_refl).
  rewrite (parseFrom_feedAll _ _ _ _ _ _
             (feedAll_Encoded _ _ Hi _ _ _ _ _ _)).
  rewrite (parseFrom_feedAll _ _ _ _ _ _
             (close_inner_member _ _ _ _ _ (Encoded_unquote _ _ Hi))).
  rewrite (parseFrom_feedAll (dq "'product':'")
             (Scanner.mkScanner Scanner.BeginString false
                [Scanner.parseObjectValue; Scanner.parseObjectKey] None)
             (Json.mkBuilder
                [Json.FObject [("identifier", Json.Str i)] None;
                 Json.FObject [] (Some "deviceLinkOperation")] None None)
             _
             (Scanner.mkScanner Scanner.InString false
                [Scanner.parseObjectValue; Scanner.parseObjectValue] None)
             (Json.mkBuilder
                [Json.FObject [("identifier", Json.Str i)] (Some "product");
                 Json.FObject [] (Some "deviceLinkOperation")]
                (Some ["034"%char]) None) eq_refl).
  rewrite (parseFrom_feedAll _ _ _ _ _ _
             (feedAll_Encoded _ _ Hx _ _ _ _ _ _)).
  by rewrite (close_envelope _ _ _ _ _ (Encoded_unquote _ _ Hx)).
Qed.

Lemma marshal_startsObject i x :
  startsObject (marshalCreateThingRequest
                  (mkCreateThingRequest (mkDeviceLinkOperation i x))) = true.
Proof. rewrite marshal_text. reflexivity. Qed.

(** Decoding what [json.Marshal] writes for a request gives the request
    back, whatever follows the text. *)
Lemma Decode_marshal i x t :
  Utf8.valid i = true -> Utf8.valid x = true ->
  Codec.Decode
    (marshalCreateThingRequest
       (mkCreateThingRequest (mkDeviceLinkOperation i x)) +:+ t)
    zeroCreateThingRequest
  = (mkCreateThingRequest (mkDeviceLinkOperation i x), None).
Proof.
  intros Hi Hx.
  rewrite (Decode_app _ t _ _ (marshal_startsObject i x)
             (marshal_readValue i x Hi Hx)).
  unfold Codec.Decode. rewrite (marshal_readValue i x Hi Hx), take_all.
  by rewrite (marshal_parse i x Hi Hx).
Qed.

Section J.
Context {ResponseWriter Handler : Type}.

(** X7: what [json.Marshal] writes for a [CreateThingRequest] with
    well-formed strings, followed by any bytes, decodes to that request; and
    the outbound body then carries the same identifier and product, whatever
    characters they hold, with the simulator type [MANUAL]. *)
Theorem marshalled_request_round_trip (i x t : string) :
  Utf8.valid i = true -> Utf8.valid x = true ->
  Codec.Decode
    (marshalCreateThingRequest
       (mkCreateThingRequest (mkDeviceLinkOperation i x)) +:+ t)
    zeroCreateThingRequest
  = (mkCreateThingRequest (mkDeviceLinkOperation i x), None) /\
  forall (wd : World) (p : @SimulatedPlugin Handler) (w : ResponseWriter)
         (r req : Request),
    io_ReadAll (Body r)
    = (marshalCreateThingRequest
         (mkCreateThingRequest (mkDeviceLinkOperation i x)) +:+ t, None) ->
    req ∈ outbound (run (ServeHTTP wd p w r)) ->
    Json.parse (fst (io_ReadAll (Body req)))
    = Some (Json.Object
              [("hardwareId", Json.Str i); ("productId", Json.Str x);
               ("simulatorType", Json.Str "MANUAL")]).
Proof.
  intros Hi Hx. split; [by apply Decode_marshal |].
  intros wd p w r req Hb Hin.
  exact (outbound_body_parses wd p w r _ _ req Hb
           (Decode_marshal i x t Hi Hx) Hin).
Qed.
End J.

(** ** Log records and field names *)

Lemma Sprintf_plain s v :
  noPercent s = true -> Sprintf s [] = s /\
  (forall d x, Ascii.eqb d "v" || Ascii.eqb d "s" = true ->
     Sprintf (s +:+ String "%" (String d EmptyString)) (x :: v)
     = s +:+ x).
Proof.
  induction s as [|c s IH]; intros H.
  - split; [done |]. intros d x Hd. norm_append. cbn [Sprintf].
    change (Ascii.eqb "%" "%") with true. cbv beta iota. rewrite Hd.
    cbn [Sprintf]. clear. induction x; norm_append; [done | by f_equal].
  - cbn in H. apply andb_true_iff in H as [Hc H].
    apply negb_true_iff in Hc. destruct (IH H) as [IH1 IH2].
    split.
    + cbn [Sprintf]. by rewrite Hc, IH1.
    + intros d x Hd. norm_append. cbn [Sprintf]. by rewrite Hc, IH2.
Qed.

(** X8: [logError], [logWarn] and [logInfo] build a record with their
    level and the formatted message, the operand put where the verb stands;
    the time is the zero time, network and URL are empty; without operands a
    format with no verb is the message. *)
Theorem log_records_built (prefix x : string) :
  noPercent prefix = true ->
  logError (prefix +:+ "%v") [x]
    = mkLogEvent "error" (prefix +:+ x) zeroTime zeroNetwork EmptyString /\
  logWarn (prefix +:+ "%s") [x]
    = mkLogEvent "warn" (prefix +:+ x) zeroTime zeroNetwork EmptyString /\
  logInfo (prefix +:+ "%v") [x]
    = mkLogEvent "info" (prefix +:+ x) zeroTime zeroNetwork EmptyString /\
  logError prefix [] 
    = mkLogEvent "error" prefix zeroTime zeroNetwork EmptyString.
Proof.
  intros H. unfold logError, logWarn, logInfo, newLogEvent.
  destruct (Sprintf_plain prefix [] H) as [H0 H1].
  rewrite H0, !H1 by reflexivity. done.
Qed.

Ltac fold_names :=
  repeat match goal with
  | |- context [Json.foldName ?s] =>
      let v := eval vm_compute in (Json.foldName s) in
      change (Json.foldName s) with v
  end.

Lemma findField_envelope k :
  Json.foldName k = "DEVICELINKOPERATION" ->
  Json.findField ["deviceLinkOperation"] k = Some 0%nat.
Proof.
  intros H. unfold Json.findField. cbn [Json.indexWhere].
  destruct (String.eqb k "deviceLinkOperation"); [done |].
  rewrite H. fold_names. reflexivity.
Qed.

Lemma findField_identifier k :
  Json.foldName k = "IDENTIFIER" ->
  Json.findField ["identifier"; "product"] k = Some 0%nat.
Proof.
  intros H. unfold Json.findField. cbn [Json.indexWhere].
  destruct (String.eqb k "identifier") eqn:E1; [done |].
  destruct (String.eqb_spec k "product") as [-> | _];
    [vm_compute in H; discriminate |].
  rewrite H. fold_names. reflexivity.
Qed.

Lemma findField_product k :
  Json.foldName k = "PRODUCT" ->
  Json.findField ["identifier"; "product"] k = Some 1%nat.
Proof.
  intros H. unfold Json.findField. cbn [Json.indexWhere].
  destruct (String.eqb_spec k "identifier") as [-> | _];
    [vm_compute in H; discriminate |].
  destruct (String.eqb k "product") eqn:E1; [done |].
  rewrite H. fold_names. reflexivity.
Qed.

(** X9: the keys of the payload are matched to the struct tags without
    regard to case, and the members may come in any order. *)
Theorem keys_matched_by_folded_name k k1 k2 i x :
  Json.foldName k = "DEVICELINKOPERATION" ->
  Json.foldName k1 = "IDENTIFIER" ->
  Json.foldName k2 = "PRODUCT" ->
  Codec.storeCreateThingRequest
    (Json.Object [(k, Json.Object [(k1, Json.Str i); (k2, Json.Str x)])])
    zeroCreateThingRequest
  = (mkCreateThingRequest (mkDeviceLinkOperation i x), None) /\
  Codec.storeCreateThingRequest
    (Json.Object [(k, Json.Object [(k2, Json.Str x); (k1, Json.Str i)])])
    zeroCreateThingRequest
  = (mkCreateThingRequest (mkDeviceLinkOperation i x), None).
Proof.
  intros H H1 H2.
  unfold Codec.storeCreateThingRequest, Codec.storeCreateThingRequestField,
    Codec.storeDeviceLinkOperation, Codec.storeDeviceLinkOperationField.
  cbn [fold_left fst snd].
  rewrite (findField_envelope k H). cbn [fold_left fst snd].
  rewrite !(findField_identifier k1 H1), !(findField_product k2 H2).
  split; reflexivity.
Qed.

(** X10: a field holding another JSON type is an error and keeps the value
    it had; a null is skipped; of two values for one field the later one
    stays. *)
Theorem field_values_stored (v : Json.value) (i x : string) :
  let envelope ms :=
    Json.Object [("deviceLinkOperation", Json.Object ms)] in
  ((forall s, v <> Json.Str s) -> v <> Json.Null ->
   Codec.storeCreateThingRequest
     (envelope [("identifier", v); ("product", Json.Str x)])
     zeroCreateThingRequest
   = (mkCreateThingRequest (mkDeviceLinkOperation EmptyString x),
      Some (Json.UnmarshalTypeError (Json.kindName v)
              "DeviceLinkOperation.deviceLinkOperation.identifier"
              "traefik_create_simulated.HardwareId"))) /\
  Codec.storeCreateThingRequest
    (envelope [("identifier", Json.Null); ("product", Json.Str x)])
    zeroCreateThingRequest
  = (mkCreateThingRequest (mkDeviceLinkOperation EmptyString x), None) /\
  Codec.storeCreateThingRequest
    (envelope [("identifier", Json.Str i); ("identifier", Json.Null)])
    zeroCreateThingRequest
  = (mkCreateThingRequest (mkDeviceLinkOperation i EmptyString), None) /\
  Codec.storeCreateThingRequest
    (envelope [("product", Json.Str i); ("product", Json.Str x)])
    zeroCreateThingRequest
  = (mkCreateThingRequest (mkDeviceLinkOperation EmptyString x), None).
Proof.
  cbv zeta. split; [| by repeat split].
  intros Hs Hn. destruct v; try done; by destruct (Hs s).
Qed.

(** ** The line of a log record *)

Lemma to_uint_head (p : positive) : nonzeroHead (Pos.to_uint p).
Proof.
  assert (Hn : Pos.to_uint p = Decimal.unorm (Pos.to_uint p)).
  { rewrite <- (DecimalN.Unsigned.to_of (Pos.to_uint p)).
    unfold N.of_uint. by rewrite DecimalPos.Unsigned.of_to. }
  assert (Hz : Decimal.nzhead (Pos.to_uint p) <> Decimal.Nil).
  { intros H. apply unorm_0 in H. rewrite <- Hn in H.
    by apply (Unsigned.to_uint_nonzero p). }
  rewrite (unorm_nzhead _ Hz) in Hn.
  pose proof (nzhead_nonzero (Pos.to_uint p)) as H0.
  rewrite <- Hn in Hz, H0.
  destruct (Pos.to_uint p); cbn; try done. by apply (H0 u).
Qed.

Lemma feedAll_digit c et ps er fr l pd :
  Byte.isDigit c = true ->
  feedAll (Scanner.mkScanner Scanner.St1 et ps er)
    (Json.mkBuilder fr (Some l) pd) (String c EmptyString)
  = Some (Scanner.mkScanner Scanner.St1 et ps er,
          Json.mkBuilder fr (Some (c :: l)) pd).
Proof.
  intros Hd. cbn [feedAll]. unfold Scanner.run. cbn [Scanner.step].
  unfold Scanner.state1. by rewrite Hd.
Qed.

Lemma feedAll_digits d :
  forall et ps er fr l pd,
    feedAll (Scanner.mkScanner Scanner.St1 et ps er)
      (Json.mkBuilder fr (Some l) pd) (NilEmpty.string_of_uint d)
    = Some (Scanner.mkScanner Scanner.St1 et ps er,
            Json.mkBuilder fr
              (Some (rev (list_ascii_of_string (NilEmpty.string_of_uint d))
                     ++ l)) pd).
Proof.
  induction d as [|d IH|d IH|d IH|d IH|d IH|d IH|d IH|d IH|d IH|d IH];
    intros et ps er fr l pd; [reflexivity | ..];
    cbn [NilEmpty.string_of_uint];
    match goal with
    | |- context [String ?c (NilEmpty.string_of_uint d)] =>
        change (String c (NilEmpty.string_of_uint d))
          with (String c EmptyString +:+ NilEmpty.string_of_uint d);
        rewrite (feedAll_app _ _ _ _ _ _
                   (feedAll_digit c et ps er fr l pd eq_refl))
    end;
    rewrite IH, list_of_append, rev_app_distr; by rewrite <- app_assoc.
Qed.

Lemma formatInt_pos p :
  exists c d,
    Byte.isDigit19 c = true /\
    NilZero.string_of_uint (Pos.to_uint p)
    = String c (NilEmpty.string_of_uint d).
Proof.
  pose proof (to_uint_head p) as H.
  destruct (Pos.to_uint p) as [|d|d|d|d|d|d|d|d|d|d]; try done;
    eexists _, d; (split; [| reflexivity]); reflexivity.
Qed.

Lemma feedAll_first c et ps er fr pd :
  Byte.isDigit19 c = true ->
  feedAll (Scanner.mkScanner Scanner.BeginValue et ps er)
    (Json.mkBuilder fr None pd) (String c EmptyString)
  = Some (Scanner.mkScanner Scanner.St1 et ps er,
          Json.mkBuilder fr (Some [c]) pd).
Proof.
  destruct c as [[] [] [] [] [] [] [] []]; intros H;
    try (vm_compute in H; discriminate); reflexivity.
Qed.

Lemma feedAll_first_neg c et ps er fr l pd :
  Byte.isDigit19 c = true ->
  feedAll (Scanner.mkScanner Scanner.Neg et ps er)
    (Json.mkBuilder fr (Some l) pd) (String c EmptyString)
  = Some (Scanner.mkScanner Scanner.St1 et ps er,
          Json.mkBuilder fr (Some (c :: l)) pd).
Proof.
  destruct c as [[] [] [] [] [] [] [] []]; intros H;
    try (vm_compute in H; discriminate); reflexivity.
Qed.

Lemma feedAll_formatInt z et ps er fr pd :
  feedAll (Scanner.mkScanner Scanner.BeginValue et ps er)
    (Json.mkBuilder fr None pd) (formatInt z)
  = Some (Scanner.mkScanner (numberState z) et ps er,
          Json.mkBuilder fr
            (Some (rev (list_ascii_of_string (formatInt z)))) pd).
Proof.
  unfold formatInt. destruct z as [|p|p]; cbn [Z.to_int NilZero.string_of_int].
  - reflexivity.
  - destruct (formatInt_pos p) as (c & d & Hc & ->).
    change (String c (NilEmpty.string_of_uint d))
      with (String c EmptyString +:+ NilEmpty.string_of_uint d).
    rewrite (feedAll_app _ _ _ _ _ _ (feedAll_first c et ps er fr pd Hc)).
    rewrite feedAll_digits, list_of_append, rev_app_distr. reflexivity.
  - destruct (formatInt_pos p) as (c & d & Hc & ->).
    change (String "-" (String c (NilEmpty.string_of_uint d)))
      with (String "-" EmptyString
              +:+ (String c EmptyString +:+ NilEmpty.string_of_uint d)).
    rewrite (feedAll_app (String "-" EmptyString)
               (Scanner.mkScanner Scanner.BeginValue et ps er)
               (Json.mkBuilder fr None pd) _
               (Scanner.mkScanner Scanner.Neg et ps er)
               (Json.mkBuilder fr (Some ["-"%char]) pd) eq_refl).
    rewrite (feedAll_app _ _ _ _ _ _
               (feedAll_first_neg c et ps er fr _ pd Hc)).
    rewrite feedAll_digits, !list_of_append, !rev_app_distr.
    cbn [list_ascii_of_string rev app]. by rewrite <- !app_assoc.
Qed.

Lemma literalValue_formatInt z :
  Json.literalValue (formatInt z) = Some (Json.Number (formatInt z)).
Proof.
  unfold formatInt. destruct z as [|p|p]; cbn [Z.to_int NilZero.string_of_int];
    [reflexivity | | reflexivity].
  destruct (formatInt_pos p) as (c & d & Hc & ->).
  destruct c as [[] [] [] [] [] [] [] []];
    try (vm_compute in Hc; discriminate); reflexivity.
Qed.

Ltac eval_dq :=
  repeat match goal with
  | |- context [dq ?x] =>
      let v := eval vm_compute in (dq x) in change (dq x) with v
  end.

Lemma log_text level msg ip port url :
  marshalLogEvent
    (mkLogEvent level msg zeroTime (mkNetwork (mkClient ip port)) url)
  = dq "{'level':'"
      +:+ (Json.appendStringBody 0 level
      +:+ (String "034" (String "," EmptyString)
      +:+ (dq "'msg':'"
      +:+ (Json.appendStringBody 0 msg
      +:+ (String "034" (String "," EmptyString)
      +:+ (dq "'time':'0001-01-01T00:00:00Z','network':{'client':{'ip':'"
      +:+ (Json.appendStringBody 0 ip
      +:+ (String "034" (String "," EmptyString)
      +:+ (dq "'port':"
      +:+ (formatInt port
      +:+ (String "}" EmptyString
      +:+ (dq "},'url':'"
      +:+ (Json.appendStringBody 0 url
      +:+ String "034" (String "}" EmptyString)))))))))))))).
Proof.
  unfold marshalLogEvent, Json.appendString, formatInt.
  cbn [Level Msg Time Network_ URL_ client_ IP Port].
  change (Json.appendStringBody 0 zeroTime) with "0001-01-01T00:00:00Z"%string.
  eval_dq.
  repeat progress (norm_append; rewrite ?append_assoc_s).
  reflexivity.
Qed.

Lemma close_member3 fr k ms out s :
  Json.unquoteBody 0 out = Some s ->
  feedAll
    (Scanner.mkScanner Scanner.InString false
       [Scanner.parseObjectValue; Scanner.parseObjectValue;
        Scanner.parseObjectValue] None)
    (Json.mkBuilder (Json.FObject ms (Some k) :: fr)
       (Some (rev (list_ascii_of_string out) ++ ["034"%char])) None)
    (String "034" (String "," EmptyString))
  = Some (Scanner.mkScanner Scanner.BeginString false
            [Scanner.parseObjectValue; Scanner.parseObjectValue;
             Scanner.parseObjectKey] None,
          Json.mkBuilder (Json.FObject ((k, Json.Str s) :: ms) None :: fr)
            None None).
Proof.
  intros Hs. cbn [feedAll]. run_step.
  cbn [Json.feed Json.frames Json.litbuf Json.pending fmap option_fmap
       option_map mbind option_bind].
  run_step.
  cbn [Json.feed Json.finalize Json.frames Json.litbuf Json.pending
       mbind option_bind].
  rewrite (literalValue_string out s Hs).
  reflexivity.
Qed.

Lemma close_literal st l v fr k ms :
  st = Scanner.St0 \/ st = Scanner.St1 ->
  Json.literalValue (string_of_list_ascii (rev l)) = Some v ->
  feedAll
    (Scanner.mkScanner st false
       [Scanner.parseObjectValue; Scanner.parseObjectValue;
        Scanner.parseObjectValue] None)
    (Json.mkBuilder (Json.FObject ms (Some k) :: fr) (Some l) None)
    (String "}" EmptyString)
  = Some (Scanner.mkScanner Scanner.EndValue false
            [Scanner.parseObjectValue; Scanner.parseObjectValue] None,
          Json.mkBuilder fr None (Some (Json.Object (rev ((k, v) :: ms))))).
Proof.
  intros Hst Hv.
  destruct Hst as [-> | ->]; cbn [feedAll]; run_step;
    cbn [Json.feed Json.finalize Json.frames Json.litbuf Json.pending
         mbind option_bind];
    rewrite Hv; reflexivity.
Qed.

Lemma close_number z fr k ms :
  feedAll
    (Scanner.mkScanner (numberState z) false
       [Scanner.parseObjectValue; Scanner.parseObjectValue;
        Scanner.parseObjectValue] None)
    (Json.mkBuilder (Json.FObject ms (Some k) :: fr)
       (Some (rev (list_ascii_of_string (formatInt z)))) None)
    (String "}" EmptyString)
  = Some (Scanner.mkScanner Scanner.EndValue false
            [Scanner.parseObjectValue; Scanner.parseObjectValue] None,
          Json.mkBuilder fr None
            (Some (Json.Object (rev ((k, Json.Number (formatInt z)) :: ms))))).
Proof.
  apply close_literal.
  - unfold numberState. destruct (z =? 0); auto.
  - rewrite rev_involutive, string_of_list_ascii_of_string.
    apply literalValue_formatInt.
Qed.

Lemma close_record k ms out s :
  Json.unquoteBody 0 out = Some s ->
  Json.parseFrom
    (Scanner.mkScanner Scanner.InString false [Scanner.parseObjectValue] None)
    (Json.mkBuilder [Json.FObject ms (Some k)]
       (Some (rev (list_ascii_of_string out) ++ ["034"%char])) None)
    (String "034" (String "}" EmptyString))
  = Some (Json.Object (rev ((k, Json.Str s) :: ms))).
Proof.
  intros Hs. cbn [Json.parseFrom]. run_step.
  cbn [Json.feed Json.frames Json.litbuf Json.pending fmap option_fmap
       option_map mbind option_bind].
  run_step.
  cbn [Json.feed Json.finalize Json.frames Json.litbuf Json.pending
       mbind option_bind].
  rewrite (literalValue_string out s Hs).
  reflexivity.
Qed.

Lemma log_parse level msg ip port url :
  Utf8.valid level = true -> Utf8.valid msg = true ->
  Utf8.valid ip = true -> Utf8.valid url = true ->
  Json.parse
    (marshalLogEvent
       (mkLogEvent level msg zeroTime (mkNetwork (mkClient ip port)) url))
  = Some (Json.Object
            [("level", Json.Str level); ("msg", Json.Str msg);
             ("time", Json.Str zeroTime);
             ("network",
              Json.Object
                [("client",
                  Json.Object
                    [("ip", Json.Str ip);
                     ("port", Json.Number (formatInt port))])]);
             ("url", Json.Str url)]).
Proof.
  intros Hl Hm Hi Hu.
  apply appendStringBody_Encoded in Hl, Hm, Hi, Hu.
  rewrite log_text. unfold Json.parse.
  rewrite (parseFrom_feedAll (dq "{'level':'") Scanner.reset
             Json.emptyBuilder _
             (Scanner.mkScanner Scanner.InString false
                [Scanner.parseObjectValue] None)
             (Json.mkBuilder [Json.FObject [] (Some "level")]
                (Some ["034"%char]) None) eq_refl).
  rewrite (parseFrom_feedAll _ _ _ _ _ _
             (feedAll_Encoded _ _ Hl _ _ _ _ _ _)).
  rewrite (parseFrom_feedAll _ _ _ _ _ _
             (close_member _ _ _ _ _ (Encoded_unquote _ _ Hl))).
  rewrite (parseFrom_feedAll (dq "'msg':'")
             (Scanner.mkScanner Scanner.BeginString false
                [Scanner.parseObjectKey] None)
             (Json.mkBuilder
                [Json.FObject [("level", Json.Str level)] None] None None)
             _
             (Scanner.mkScanner Scanner.InString false
                [Scanner.parseObjectValue] None)
             (Json.mkBuilder
                [Json.FObject [("level", Json.Str level)] (Some "msg")]
                (Some ["034"%char]) None) eq_refl).
  rewrite (parseFrom_feedAll _ _ _ _ _ _
             (feedAll_Encoded _ _ Hm _ _ _ _ _ _)).
  rewrite (parseFrom_feedAll _ _ _ _ _ _
             (close_member _ _ _ _ _ (Encoded_unquote _ _ Hm))).
  rewrite (parseFrom_feedAll
             (dq "'time':'0001-01-01T00:00:00Z','network':{'client':{'ip':'")
             (Scanner.mkScanner Scanner.BeginString false
                [Scanner.parseObjectKey] None)
             (Json.mkBuilder
                [Json.FObject
                   [("msg", Json.Str msg); ("level", Json.Str level)] None]
                None None)
             _
             (Scanner.mkScanner Scanner.InString false
                [Scanner.parseObjectValue; Scanner.parseObjectValue;
                 Scanner.parseObjectValue] None)
             (Json.mkBuilder
                [Json.FObject [] (Some "ip");
                 Json.FObject [] (Some "client");
                 Json.FObject
                   [("time", Json.Str zeroTime); ("msg", Json.Str msg);
                    ("level", Json.Str level)] (Some "network")]
                (Some ["034"%char]) None) eq_refl).
  rewrite (parseFrom_feedAll _ _ _ _ _ _
             (feedAll_Encoded _ _ Hi _ _ _ _ _ _)).
  rewrite (parseFrom_feedAll _ _ _ _ _ _
             (close_member3 _ _ _ _ _ (Encoded_unquote _ _ Hi))).
  rewrite (parseFrom_feedAll (dq "'port':")
             (Scanner.mkScanner Scanner.BeginString false
                [Scanner.parseObjectValue; Scanner.parseObjectValue;
                 Scanner.parseObjectKey] None)
             (Json.mkBuilder
                [Json.FObject [("ip", Json.Str ip)] None;
                 Json.FObject [] (Some "client");
                 Json.FObject
                   [("time", Json.Str zeroTime); ("msg", Json.Str msg);
                    ("level", Json.Str level)] (Some "network")]
                None None)
             _
             (Scanner.mkScanner Scanner.BeginValue false
                [Scanner.parseObjectValue; Scanner.parseObjectValue;
                 Scanner.parseObjectValue] None)
             (Json.mkBuilder
                [Json.FObject [("ip", Json.Str ip)] (Some "port");
                 Json.FObject [] (Some "client");
                 Json.FObject
                   [("time", Json.Str zeroTime); ("msg", Json.Str msg);
                    ("level", Json.Str level)] (Some "network")]
                None None) eq_refl).
  rewrite (parseFrom_feedAll _ _ _ _ _ _
             (feedAll_formatInt port _ _ _ _ _)).
  rewrite (parseFrom_feedAll _ _ _ _ _ _ (close_number port _ _ _)).
  rewrite (parseFrom_feedAll (dq "},'url':'")
             (Scanner.mkScanner Scanner.EndValue false
                [Scanner.parseObjectValue; Scanner.parseObjectValue] None)
             (Json.mkBuilder
                [Json.FObject [] (Some "client");
                 Json.FObject
                   [("time", Json.Str zeroTime); ("msg", Json.Str msg);
                    ("level", Json.Str level)] (Some "network")]
                None
                (Some (Json.Object
                         (rev [("port", Json.Number (formatInt port));
                               ("ip", Json.Str ip)]))))
             _
             (Scanner.mkScanner Scanner.InString false
                [Scanner.parseObjectValue] None)
             (Json.mkBuilder
                [Json.FObject
                   [("network",
                     Json.Object
                       [("client",
                         Json.Object
                           [("ip", Json.Str ip);
                            ("port", Json.Number (formatInt port))])]);
                    ("time", Json.Str zeroTime); ("msg", Json.Str msg);
                    ("level", Json.Str level)] (Some "url")]
                (Some ["034"%char]) None) eq_refl).
  rewrite (parseFrom_feedAll _ _ _ _ _ _
             (feedAll_Encoded _ _ Hu _ _ _ _ _ _)).
  by rewrite (close_record _ _ _ _ (Encoded_unquote _ _ Hu)).
Qed.

Lemma oneLine_app s t : oneLine (s +:+ t) = oneLine s && oneLine t.
Proof. unfold oneLine. by rewrite list_of_append, forallb_app. Qed.

Lemma oneLine_cons c s :
  oneLine (String c s) = negb (Ascii.eqb c "010") && oneLine s.
Proof. reflexivity. Qed.

Lemma oneLine_escapeByte c : oneLine (Json.escapeByte c) = true.
Proof. destruct c as [[] [] [] [] [] [] [] []]; reflexivity. Qed.

Lemma oneLine_htmlSafe c :
  Json.htmlSafe c = true -> Ascii.eqb c "010" = false.
Proof.
  destruct c as [[] [] [] [] [] [] [] []]; intros H; try reflexivity;
    vm_compute in H; discriminate.
Qed.

Lemma oneLine_high u :
  Forall (fun c => (128 <= Byte.code c)%N) (list_ascii_of_string u) ->
  oneLine u = true.
Proof.
  induction u as [|c u IH]; intros Hall; [done |].
  cbn in Hall. apply Forall_cons in Hall as [Hc Hall].
  rewrite oneLine_cons, (IH Hall), (high_not c "010" Hc eq_refl). done.
Qed.

Lemma oneLine_Encoded s out : Encoded s out -> oneLine out = true.
Proof.
  induction 1 as [| c s out Hc Hs _ IH | c s out Hc Hs _ IH
                  | last s out _ IH | u s out Hu _ IH].
  - reflexivity.
  - by rewrite oneLine_cons, IH, (oneLine_htmlSafe c Hs).
  - by rewrite oneLine_app, oneLine_escapeByte, IH.
  - norm_append. rewrite !oneLine_cons, IH. by destruct last.
  - destruct Hu as (_ & _ & Hall).
    by rewrite oneLine_app, (oneLine_high u Hall), IH.
Qed.

Lemma oneLine_digits d : oneLine (NilEmpty.string_of_uint d) = true.
Proof.
  induction d; cbn [NilEmpty.string_of_uint]; [done | ..];
    by rewrite oneLine_cons, IHd.
Qed.

Lemma oneLine_formatInt z : oneLine (formatInt z) = true.
Proof.
  unfold formatInt. destruct z as [|p|p]; cbn [Z.to_int NilZero.string_of_int];
    [done | |];
    destruct (formatInt_pos p) as (c & d & Hc & ->);
    rewrite ?oneLine_cons, oneLine_digits;
    destruct c as [[] [] [] [] [] [] [] []];
    try (vm_compute in Hc; discriminate); reflexivity.
Qed.

Lemma log_oneLine level msg ip port url :
  Utf8.valid level = true -> Utf8.valid msg = true ->
  Utf8.valid ip = true -> Utf8.valid url = true ->
  oneLine
    (marshalLogEvent
       (mkLogEvent level msg zeroTime (mkNetwork (mkClient ip port)) url))
  = true.
Proof.
  intros Hl Hm Hi Hu.
  apply appendStringBody_Encoded in Hl, Hm, Hi, Hu.
  rewrite log_text, !oneLine_app.
  rewrite (oneLine_Encoded _ _ Hl), (oneLine_Encoded _ _ Hm),
    (oneLine_Encoded _ _ Hi), (oneLine_Encoded _ _ Hu), oneLine_formatInt.
  reflexivity.
Qed.

Section L.
Context {ResponseWriter Handler : Type}.

(** X11: [print] on a record built by [newLogEvent], [withNetwork] and
    [withUrl] writes exactly one line; the line holds no line feed, whatever
    the message, and parses as a JSON object with the keys [level], [msg],
    [time], [network] and [url] carrying the fields of the record. *)
Theorem printed_record_is_one_json_line (level msg ip url : string)
    (port : Z) :
  Utf8.valid level = true -> Utf8.valid msg = true ->
  Utf8.valid ip = true -> Utf8.valid url = true ->
  exists line,
    run (@print ResponseWriter Handler
           (withUrl
              (withNetwork (newLogEvent level msg)
                 (mkNetwork (mkClient ip port)))
              url))
    = [Println line] /\
    oneLine line = true /\
    Json.parse line
    = Some (Json.Object
              [("level", Json.Str level); ("msg", Json.Str msg);
               ("time", Json.Str "0001-01-01T00:00:00Z");
               ("network",
                Json.Object
                  [("client",
                    Json.Object
                      [("ip", Json.Str ip);
                       ("port", Json.Number (formatInt port))])]);
               ("url", Json.Str url)]).
Proof.
  intros Hl Hm Hi Hu. eexists. split; [reflexivity |].
  unfold withUrl, withNetwork, newLogEvent.
  cbn [Level Msg Time Network_ URL_].
  split; [by apply log_oneLine | by apply log_parse].
Qed.
End L.

(** * The properties on the sample inputs *)

(** The sample request carries two caller keys; the outbound request carries
    the configured one. *)
Lemma outbound_subscription_key_witness :
  exists req,
    outbound (sampleRun 200 emptyBody trackerPayload) = [req] /\
    Header.Values (Header (sampleRequest trackerPayload)) "X-Subscription-Key"
      = ["caller-1"; "caller-2"] /\
    Header.Values (Header req) "X-Subscription-Key" = ["configured-key"].
Proof.
  destruct (outbound (sampleRun 200 emptyBody trackerPayload))
    as [|q [|q' l]] eqn:E; try (vm_compute in E; discriminate).
  exists q. split; [reflexivity |]. split; [reflexivity |].
  refine (proj1 (outbound_subscription_key (sampleWorld 200 emptyBody)
                   samplePlugin 1%nat (sampleRequest trackerPayload) q _)).
  unfold sampleRun in E. rewrite E. left.
Defined.


(** The tracker payload decodes to dev-123 and TRACKER. *)
Lemma trackerPayload_decodes :
  Codec.Decode trackerPayload zeroCreateThingRequest = (trackerRequest, None).
Proof. vm_compute. reflexivity. Defined.

(** Status 200, readable answer: the tracker request is forwarded with its
    body put back. *)
Lemma forwards_original_body_witness :
  exists req,
    sampleRun 200 emptyBody trackerPayload
    = [Do req;
       Next 0%nat 1%nat (restored (sampleRequest trackerPayload) trackerPayload)].
Proof.
  destruct (outbound (sampleRun 200 emptyBody trackerPayload)) as [|q l] eqn:E;
    [vm_compute in E; discriminate |].
  exists q.
  refine (proj1 (forwards_original_body (sampleWorld 200 emptyBody)
                   samplePlugin 1%nat (sampleRequest trackerPayload)
                   trackerPayload trackerRequest q
                   (mkResponse EmptyString 200 emptyBody) EmptyString
                   eq_refl trackerPayload_decodes _ eq_refl _ eq_refl)).
  - unfold sampleRun in E. rewrite E. left.
  - unfold statusOk. cbn. lia.
Defined.

(** Status 200 but the answer breaks off while it is read: the sentence as
    worded fails, the next handler is not called. *)
Lemma forwards_original_body_on_2xx_counterexample :
  ~ forwards_original_body_on_2xx (sampleWorld 200 brokenBody) samplePlugin
      1%nat (sampleRequest trackerPayload).
Proof.
  intros H.
  destruct (outbound (sampleRun 200 brokenBody trackerPayload)) as [|q l] eqn:E;
    [vm_compute in E; discriminate |].
  assert (Hin : q ∈ outbound (sampleRun 200 brokenBody trackerPayload))
    by (rewrite E; left).
  assert (Hok : statusOk 200) by (unfold statusOk; lia).
  destruct (H trackerPayload trackerRequest q
              (mkResponse EmptyString 200 brokenBody)
              eq_refl trackerPayload_decodes Hin eq_refl Hok) as [Hn _].
  apply Next_forwarded in Hn. vm_compute in Hn. discriminate.
Qed.

(** Status 299 forwards, status 300 does not. *)
Lemma forwarded_iff_2xx_and_read_witness :
  forwarded (sampleRun 299 emptyBody trackerPayload) = true /\
  forwarded (sampleRun 300 emptyBody trackerPayload) = false.
Proof.
  split.
  - destruct (outbound (sampleRun 299 emptyBody trackerPayload))
      as [|q l] eqn:E; [vm_compute in E; discriminate |].
    refine (proj1 (proj2 (proj2
              (forwarded_iff_2xx_and_read (sampleWorld 299 emptyBody)
                 samplePlugin 1%nat (sampleRequest trackerPayload) q
                 (mkResponse EmptyString 299 emptyBody) _ eq_refl))) _ eq_refl).
    + unfold sampleRun in E. rewrite E. left.
    + right. right. reflexivity.
  - destruct (outbound (sampleRun 300 emptyBody trackerPayload))
      as [|q l] eqn:E; [vm_compute in E; discriminate |].
    refine (proj1 (proj2 (proj2 (proj2
              (forwarded_iff_2xx_and_read (sampleWorld 300 emptyBody)
                 samplePlugin 1%nat (sampleRequest trackerPayload) q
                 (mkResponse EmptyString 300 emptyBody) _ eq_refl))) _)).
    + unfold sampleRun in E. rewrite E. left.
    + left. reflexivity.
Defined.

(** Status 201 with an answer that cannot be read is not forwarded. *)
Lemma forwarded_iff_2xx_counterexample :
  ~ forwarded_iff_2xx (sampleWorld 201 brokenBody) samplePlugin 1%nat
      (sampleRequest trackerPayload).
Proof.
  intros H.
  destruct (outbound (sampleRun 201 brokenBody trackerPayload)) as [|q l] eqn:E;
    [vm_compute in E; discriminate |].
  assert (Hin : q ∈ outbound (sampleRun 201 brokenBody trackerPayload))
    by (rewrite E; left).
  destruct (H q (mkResponse EmptyString 201 brokenBody) Hin eq_refl)
    as [_ Hn].
  assert (Hf : forwarded (sampleRun 201 brokenBody trackerPayload) = true)
    by (apply Hn; unfold statusOk; cbn; lia).
  vm_compute in Hf. discriminate.
Qed.



(** An answer that breaks off is a failure of the last stage. *)
Lemma stage_failure_not_found_witness :
  replies (sampleRun 200 brokenBody trackerPayload)
  = [NotFound 1%nat (sampleRequest trackerPayload)].
Proof.
  refine (proj1 (proj1 (stage_failure_not_found (sampleWorld 200 brokenBody)
                   samplePlugin 1%nat (sampleRequest trackerPayload))
                   OutboundResponseRead _)).
  destruct (outbound (sampleRun 200 brokenBody trackerPayload)) as [|q l] eqn:E;
    [vm_compute in E; discriminate |].
  exists q, (mkResponse EmptyString 200 brokenBody), "unexpected EOF".
  split; [| split; reflexivity].
  unfold sampleRun in E. rewrite E. left.
Defined.




(** The tracker payload gives a POST to the hub with dev-123, TRACKER and
    MANUAL. *)
Lemma provisioning_request_witness :
  exists req,
    outbound (sampleRun 200 emptyBody trackerPayload) = [req] /\
    Method req = "POST" /\
    URL req = "http://hub.example/simulator/simulated/device" /\
    Json.parse (fst (io_ReadAll (Body req)))
    = Some (Json.Object
              [("hardwareId", Json.Str "dev-123");
               ("productId", Json.Str "TRACKER");
               ("simulatorType", Json.Str "MANUAL")]).
Proof.
  destruct (outbound (sampleRun 200 emptyBody trackerPayload))
    as [|q [|q' l]] eqn:E; try (vm_compute in E; discriminate).
  exists q. split; [reflexivity |].
  assert (Hin : q ∈ outbound (run (ServeHTTP (sampleWorld 200 emptyBody)
                                      samplePlugin 1%nat
                                      (sampleRequest trackerPayload))))
    by (unfold sampleRun in E; rewrite E; left).
  destruct (proj1 provisioning_request (sampleWorld 200 emptyBody)
              samplePlugin 1%nat (sampleRequest trackerPayload)
              trackerPayload trackerRequest q eq_refl trackerPayload_decodes
              Hin) as (Hm & (u & Hu & Hu') & Hp).
  split; [exact Hm |]. split; [| exact Hp].
  unfold sampleWorld in Hu, Hu'. cbn [url_Parse] in Hu, Hu'.
  injection Hu as Hu. subst u. injection Hu' as Hu'.
  symmetry. exact Hu'.
Defined.

(** The tracker payload followed by [garbage] decodes as the payload. *)
Lemma trailing_bytes_ignored_witness :
  Codec.Decode (trackerPayload +:+ "garbage") zeroCreateThingRequest
  = Codec.Decode trackerPayload zeroCreateThingRequest.
Proof.
  exact (proj1 (@trailing_bytes_ignored nat nat) trackerPayload "garbage"
           (String.length trackerPayload) zeroCreateThingRequest
           eq_refl eq_refl).
Defined.

(** A product that is not TRACKER decodes like any other string. *)
Lemma bananaPayload_decodes :
  Codec.Decode bananaPayload zeroCreateThingRequest = (bananaRequest, None).
Proof. vm_compute. reflexivity. Defined.

(** ... and is sent to the hub as [productId]. *)
Lemma product_not_validated_witness :
  exists req,
    outbound (sampleRun 200 emptyBody bananaPayload) = [req] /\
    Json.parse (fst (io_ReadAll (Body req)))
    = Some (Json.Object
              [("hardwareId", Json.Str "dev-1");
               ("productId", Json.Str "BANANA");
               ("simulatorType", Json.Str "MANUAL")]).
Proof.
  destruct (outbound (sampleRun 200 emptyBody bananaPayload))
    as [|q [|q' l]] eqn:E; try (vm_compute in E; discriminate).
  exists q. split; [reflexivity |].
  refine (proj1 (proj2 product_not_validated) (sampleWorld 200 emptyBody)
            samplePlugin 1%nat (sampleRequest bananaPayload)
            bananaPayload bananaRequest q eq_refl bananaPayload_decodes _).
  unfold sampleRun in E. rewrite E. left.
Defined.

(** The tracker payload: one call to the hub, then the next handler. *)
Lemma single_outbound_call_witness :
  exists req,
    sampleRun 200 emptyBody trackerPayload
    = [Do req;
       Next 0%nat 1%nat (restored (sampleRequest trackerPayload) trackerPayload)].
Proof.
  destruct (outbound (sampleRun 200 emptyBody trackerPayload)) as [|q l] eqn:E;
    [vm_compute in E; discriminate |].
  exists q.
  destruct (proj1 (proj2 (single_outbound_call (sampleWorld 200 emptyBody)
                            samplePlugin 1%nat (sampleRequest trackerPayload)))
              q) as [H | H].
  - unfold sampleRun in E. rewrite E. left.
  - assert (Hf : forwarded (sampleRun 200 emptyBody trackerPayload) = true)
      by (vm_compute; reflexivity).
    unfold sampleRun in Hf. rewrite H in Hf. discriminate.
  - exact H.
Defined.

(** An empty answer and an answer that holds text, both with status 200,
    lead to the same handling. *)
Lemma answer_seen_through_status_witness :
  seen <$> sampleRun 200 emptyBody trackerPayload
  = seen <$> sampleRun 200 (Stream "created" None None) trackerPayload.
Proof.
  apply (answer_seen_through_status (sampleWorld 200 emptyBody)
           (sampleWorld 200 (Stream "created" None None)) samplePlugin 1%nat
           (sampleRequest trackerPayload)).
  - intros s. reflexivity.
  - reflexivity.
  - intros q. reflexivity.
Defined.

(** The sample plugin, built by [New], sends the key of its configuration. *)
Lemma New_configures_witness :
  exists req,
    outbound (sampleRun 200 emptyBody trackerPayload) = [req] /\
    Header.Get (Header req) "X-Subscription-Key" = "configured-key".
Proof.
  destruct (outbound (sampleRun 200 emptyBody trackerPayload))
    as [|q [|q' l]] eqn:E; try (vm_compute in E; discriminate).
  exists q. split; [reflexivity |].
  pose proof (@New_configures nat nat 0%nat
                (mkConfig "http://hub.example" "configured-key") "simulated"
                (sampleWorld 200 emptyBody) 1%nat
                (sampleRequest trackerPayload)) as H.
  cbv zeta in H. destruct H as (_ & _ & H & _).
  apply (H q). unfold sampleRun, samplePlugin in E. rewrite E. left.
Defined.

(** Two inbound entries, [accept] and [Accept], end up under one key. *)
Lemma headers_merged_by_canonical_key_witness :
  exists req,
    outbound (run (ServeHTTP (sampleWorld 200 emptyBody) samplePlugin 1%nat
                     (mkRequest "POST" "/things"
                        {[ "accept" := ["text/plain"];
                           "Accept" := ["application/json"] ]}
                        (Stream trackerPayload None None)))) = [req] /\
    "text/plain" ∈ Header.Values (Header req) "accept" /\
    "application/json" ∈ Header.Values (Header req) "accept".
Proof.
  set (r := mkRequest "POST" "/things"
              {[ "accept" := ["text/plain"];
                 "Accept" := ["application/json"] ]}
              (Stream trackerPayload None None)).
  destruct (outbound (run (ServeHTTP (sampleWorld 200 emptyBody) samplePlugin
                             1%nat r))) as [|q [|q' l]] eqn:E;
    try (vm_compute in E; discriminate).
  exists q. split; [reflexivity |].
  assert (Hin : q ∈ outbound (run (ServeHTTP (sampleWorld 200 emptyBody)
                                      samplePlugin 1%nat r)))
    by (rewrite E; left).
  destruct (headers_merged_by_canonical_key (sampleWorld 200 emptyBody)
              samplePlugin 1%nat r q Hin) as [Hk _].
  unfold Header.Values.
  change (Header.CanonicalMIMEHeaderKey "accept") with "Accept"%string.
  rewrite (Hk "Accept" ltac:(discriminate)).
  vm_compute. split; [left | right; left].
Defined.

(** Three bytes read into buffers of two, five, one and one bytes. *)
Lemma restored_body_reads_back_witness :
  exists r',
    readChunks (bytes_NewReader "abc") [2; 5; 1; 1]%nat
    = (r', "abc"%string, Some "EOF"%string) /\
    io_ReadAll (NoOpCloser r') = (EmptyString, None) /\
    forall len,
      noopCloser_Read r' len = (NoOpCloser r', EmptyString, Some "EOF"%string).
Proof.
  apply (restored_body_reads_back "abc" [2; 5; 1; 1]%nat).
  - repeat constructor.
  - cbn. lia.
Defined.

(** An identifier with a quote, a line feed and a letter of two bytes. *)
Lemma marshalled_request_round_trip_witness :
  Codec.Decode
    (marshalCreateThingRequest
       (mkCreateThingRequest
          (mkDeviceLinkOperation
             (String "034" (String "010" (String (Utf8.byte 195)
                (String (Utf8.byte 169) "<dev>"))))
             "TRACKER"))
     +:+ " and more")
    zeroCreateThingRequest
  = (mkCreateThingRequest
       (mkDeviceLinkOperation
          (String "034" (String "010" (String (Utf8.byte 195)
             (String (Utf8.byte 169) "<dev>"))))
          "TRACKER"),
     None).
Proof.
  exact (proj1 (@marshalled_request_round_trip nat nat
                  (String "034" (String "010" (String (Utf8.byte 195)
                     (String (Utf8.byte 169) "<dev>"))))
                  "TRACKER" " and more" eq_refl eq_refl)).
Defined.

(** The record of a body that could not be read. *)
Lemma log_records_built_witness :
  logError "error reading body: %v" ["unexpected EOF"]
  = mkLogEvent "error" "error reading body: unexpected EOF" zeroTime
      zeroNetwork EmptyString.
Proof.
  exact (proj1 (log_records_built "error reading body: " "unexpected EOF"
                  eq_refl)).
Defined.

(** Keys in upper and mixed case, the product first. *)
Lemma keys_matched_by_folded_name_witness :
  Codec.storeCreateThingRequest
    (Json.Object
       [("DEVICELINKOPERATION",
         Json.Object
           [("Product", Json.Str "TRACKER");
            ("IDENTIFIER", Json.Str "dev-123")])])
    zeroCreateThingRequest
  = (trackerRequest, None).
Proof.
  exact (proj2 (keys_matched_by_folded_name "DEVICELINKOPERATION"
                  "IDENTIFIER" "Product" "dev-123" "TRACKER"
                  eq_refl eq_refl eq_refl)).
Defined.

(** A number where the identifier should be: the error names the field, the
    product is stored all the same. *)
Lemma field_values_stored_witness :
  Codec.storeCreateThingRequest
    (Json.Object
       [("deviceLinkOperation",
         Json.Object
           [("identifier", Json.Number "7");
            ("product", Json.Str "TRACKER")])])
    zeroCreateThingRequest
  = (mkCreateThingRequest (mkDeviceLinkOperation EmptyString "TRACKER"),
     Some (Json.UnmarshalTypeError "number"
             "DeviceLinkOperation.deviceLinkOperation.identifier"
             "traefik_create_simulated.HardwareId")).
Proof.
  pose proof (field_values_stored (Json.Number "7") EmptyString "TRACKER")
    as H.
  cbv beta zeta in H. destruct H as [H _].
  apply H; [intros s |]; discriminate.
Defined.

(** A warning with an angle bracket in the message and a negative port. *)
Lemma printed_record_is_one_json_line_witness :
  exists line,
    run (@print nat nat
           (withUrl
              (withNetwork (logWarn "found deviceId=%s" ["dev<1>"])
                 (mkNetwork (mkClient "10.0.0.7" (-8080))))
              "http://hub/a?b=1&c=2"))
    = [Println line] /\
    oneLine line = true /\
    Json.parse line
    = Some (Json.Object
              [("level", Json.Str "warn");
               ("msg", Json.Str "found deviceId=dev<1>");
               ("time", Json.Str "0001-01-01T00:00:00Z");
               ("network",
                Json.Object
                  [("client",
                    Json.Object
                      [("ip", Json.Str "10.0.0.7");
                       ("port", Json.Number "-8080")])]);
               ("url", Json.Str "http://hub/a?b=1&c=2")]).
Proof.
  apply (@printed_record_is_one_json_line nat nat "warn"
           "found deviceId=dev<1>" "10.0.0.7" "http://hub/a?b=1&c=2" (-8080));
    reflexivity.
Defined.
